(** * Claude Code Tracer: the capture proxy, embedded and verified

    The proxy sits between a client and the upstream messages API.  It
    records every call in a SQLite trace store, publishes the same events to
    the connected observers and relays the upstream answer to the caller.

    The development follows the proxy server source:
    - [JS]      the JavaScript values and built-ins the server relies on;
    - [Json]    the JSON grammar behind [JSON.parse];
    - [Tracer]  the proxy server (usage extraction, SSE reassembly, trace
                store, broadcast hub, capture pipeline, session rotation);
    - [Legacy]  the older copy of the server kept in [proxy/server.js], for
                the places where it differs;
    - [Queries], [Connections]  the sessions query and the connections of
                the observers;
    - [Spec]    the contracts of the specification, in its own words, to
                compare the server with;
    - [Frame]   what a handler leaves alone;
    - [Expect]  the rows and events the handlers leave behind;
    - [Samples], [Printing], [Cases]  concrete stores, calls and streams, and
                a [JSON.stringify] to run them with;
    - the theorems: one group per property of the specification, then the
      handlers step by step (observers, upstream exchange, buffered and
      streamed calls, tool calls, sessions and the clear, the queries, the
      older copy). *)

From Stdlib Require Import ZArith NArith List Bool String Ascii Lia.
From Stdlib Require Import PrimFloat SpecFloat FloatOps FloatAxioms.
From Stdlib Require Import Sorted Permutation.
Import ListNotations.

Set Warnings "-register-all".

(* ===================================================================== *)
(** * JavaScript values and built-ins *)
(* ===================================================================== *)

Module JS.

(** ** Strings

    A JavaScript string is a sequence of UTF-16 code units. *)

Definition code_unit := N.
Definition jstring := list code_unit.

(** Literals of the source are ASCII; [u] reads them. *)
Definition u (s : string) : jstring :=
  List.map N_of_ascii (list_ascii_of_string s).
Arguments u s%_string : simpl never.

(** One code unit, written as an ASCII character. *)
Definition ch (a : ascii) : code_unit := N_of_ascii a.
Arguments ch a%_char.

Definition LF : code_unit := 10%N.
Definition DQUOTE : code_unit := 34%N.
Definition QUOTE : code_unit := 39%N.

(** JSON texts are written with ['] in place of the double quote; [jtext]
    reads them. *)
Definition jtext (s : string) : jstring :=
  List.map (fun c => if (c =? QUOTE)%N then DQUOTE else c) (u s).
Arguments jtext s%_string.

(** A list of names. *)
Definition names (l : list string) : list jstring := List.map u l.
Arguments names l%_string.

Fixpoint str_eqb (a b : jstring) : bool :=
  match a, b with
  | [], [] => true
  | x :: a', y :: b' => N.eqb x y && str_eqb a' b'
  | _, _ => false
  end.

(** White space and line terminators of ECMAScript, the code units
    [String.prototype.trim] removes. *)
Definition isWhiteSpace (c : code_unit) : bool :=
  ((9 <=? c) && (c <=? 13) || (c =? 32) || (c =? 160) || (c =? 5760)
   || (8192 <=? c) && (c <=? 8202) || (c =? 8232) || (c =? 8233)
   || (c =? 8239) || (c =? 8287) || (c =? 12288) || (c =? 65279))%N.

Fixpoint trimStart (s : jstring) : jstring :=
  match s with
  | c :: s' => if isWhiteSpace c then trimStart s' else s
  | [] => []
  end.

Definition trimEnd (s : jstring) : jstring := rev (trimStart (rev s)).

Definition trim (s : jstring) : jstring := trimEnd (trimStart s).

Fixpoint startsWith (s prefix : jstring) : bool :=
  match prefix, s with
  | [], _ => true
  | p :: prefix', c :: s' => N.eqb c p && startsWith s' prefix'
  | _ :: _, [] => false
  end.

Definition endsWith (s suffix : jstring) : bool :=
  startsWith (rev s) (rev suffix).

(** [s.slice(n)] for [0 <= n]. *)
Definition slice (n : nat) (s : jstring) : jstring := skipn n s.

(** [s.split(sep)] for a non-empty separator: the pieces between the
    occurrences of [sep], found from left to right without overlap.  [skip]
    counts the code units of a matched separator still to be passed, [cur]
    holds the piece being read, reversed. *)
Fixpoint split_from (sep s : jstring) (skip : nat) (cur : jstring)
  : list jstring :=
  match s with
  | [] => [rev cur]
  | c :: s' =>
      match skip with
      | S k => split_from sep s' k cur
      | O =>
          if startsWith s sep
          then rev cur :: split_from sep s' (List.length sep - 1) []
          else split_from sep s' 0 (c :: cur)
      end
  end.

Definition split (s sep : jstring) : list jstring := split_from sep s 0 [].

(** [parts.join(sep)] *)
Fixpoint join (parts : list jstring) (sep : jstring) : jstring :=
  match parts with
  | [] => []
  | [p] => p
  | p :: rest => p ++ sep ++ join rest sep
  end.

(** ** Numbers: IEEE 754 binary64 *)

Definition isFinite (f : float) : bool :=
  negb (PrimFloat.is_nan f || PrimFloat.is_infinity f).

(** [Number.isInteger] *)
Definition isInteger (f : float) : bool :=
  match Prim2SF f with
  | S754_zero _ => true
  | S754_finite _ m e =>
      (0 <=? e)%Z || (Z.pos m mod 2 ^ (- e) =? 0)%Z
  | _ => false
  end.

(** ** Values

    The data that crosses the proxy is what [JSON.parse] builds, together
    with [undefined].  An object keeps its properties in insertion order. *)

Inductive JsVal : Type :=
| JUndefined
| JNull
| JBool (b : bool)
| JNumber (f : float)
| JString (s : jstring)
| JArray (items : list JsVal)
| JObject (props : list (jstring * JsVal)).

Inductive JsType := TUndefined | TObject | TBoolean | TNumber | TString.

Definition JsType_eqb (a b : JsType) : bool :=
  match a, b with
  | TUndefined, TUndefined | TObject, TObject | TBoolean, TBoolean
  | TNumber, TNumber | TString, TString => true
  | _, _ => false
  end.

Definition typeof (v : JsVal) : JsType :=
  match v with
  | JUndefined => TUndefined
  | JNull => TObject
  | JBool _ => TBoolean
  | JNumber _ => TNumber
  | JString _ => TString
  | JArray _ => TObject
  | JObject _ => TObject
  end.

(** [ToBoolean]: what [!v], [v ? a : b], [a || b] and [if (v)] test. *)
Definition truthy (v : JsVal) : bool :=
  match v with
  | JUndefined | JNull => false
  | JBool b => b
  | JNumber f => negb (PrimFloat.eqb f 0 || PrimFloat.is_nan f)
  | JString s => match s with [] => false | _ => true end
  | JArray _ | JObject _ => true
  end.

(** [a || b] *)
Definition or_else (a b : JsVal) : JsVal := if truthy a then a else b.

(** [a ?? b] *)
Definition nullish (a b : JsVal) : JsVal :=
  match a with JUndefined | JNull => b | _ => a end.

(** A string literal as a value. *)
Definition str (s : string) : JsVal := JString (u s).
Arguments str s%_string.

(** [Array.isArray(v)] *)
Definition isArray (v : JsVal) : bool :=
  match v with JArray _ => true | _ => false end.

(** [a === b] against a string literal *)
Definition is_string (v : JsVal) (s : jstring) : bool :=
  match v with JString t => str_eqb t s | _ => false end.

(** ** Exceptions *)

Inductive Exn := TypeError | SyntaxError | RangeError | SqliteError | FetchError.

Inductive Result (A : Type) : Type :=
| Ret (a : A)
| Throw (e : Exn).
Arguments Ret {A} a.
Arguments Throw {A} e.

Definition rbind {A B} (r : Result A) (k : A -> Result B) : Result B :=
  match r with Ret a => k a | Throw e => Throw e end.

(** ** Property access

    [v.k] throws on [undefined] and [null].  On an object it yields the own
    property, or [undefined].  The names the proxy reads ([usage],
    [total_tokens], [content], [type], [model], ...) are neither array
    indices nor [length] nor names of the built-in prototypes, so on arrays
    and primitives the access yields [undefined]. *)

Fixpoint lookup (k : jstring) (props : list (jstring * JsVal)) : JsVal :=
  match props with
  | [] => JUndefined
  | (k', v) :: rest => if str_eqb k' k then v else lookup k rest
  end.

Definition get (v : JsVal) (k : jstring) : Result JsVal :=
  match v with
  | JUndefined | JNull => Throw TypeError
  | JObject props => Ret (lookup k props)
  | _ => Ret JUndefined
  end.

(** [obj[k] = v]: an existing property keeps its position and takes the new
    value, a new property goes last. *)
Fixpoint set_prop (k : jstring) (v : JsVal) (props : list (jstring * JsVal))
  : list (jstring * JsVal) :=
  match props with
  | [] => [(k, v)]
  | (k', v') :: rest =>
      if str_eqb k' k then (k', v) :: rest else (k', v') :: set_prop k v rest
  end.

(** [v?.k] *)
Definition get_opt (v : JsVal) (k : jstring) : JsVal :=
  match v with
  | JObject props => lookup k props
  | _ => JUndefined
  end.

(** [try { body } catch (e) { handler }] *)
Definition try_catch {A} (body : Result A) (handler : Exn -> Result A)
  : Result A :=
  match body with Ret a => Ret a | Throw e => handler e end.

End JS.

Import JS.

Declare Scope js_scope.
Delimit Scope js_scope with js.
Notation "x <- c ;; k" := (rbind c (fun x => k))
  (at level 61, c at next level, right associativity) : js_scope.

Declare Scope handler_scope.
Delimit Scope handler_scope with handler.

(* ===================================================================== *)
(** * JSON *)
(* ===================================================================== *)

(** [JSON.parse] and [JSON.stringify] belong to the platform.  The server
    is embedded over any implementation of them; [Json.parse] below is the
    JSON grammar (ECMA-404), used to run the server on concrete texts. *)

Class JsonParser := JSON_parse : jstring -> option JsVal.
Class JsonPrinter := JSON_stringify : JsVal -> JsVal.

(** What the upstream API answers: a status, its headers and the body.  The
    body is held as the texts of the chunks in which it arrives, each as
    [chunk.toString()] gives it to the [data] handler; the bytes of a chunk
    are not modelled.  A buffered call reads the body whole: its text is
    taken to be these texts put together. *)
Record Upstream := mkUpstream {
  up_status : float;
  up_headers : JsVal;
  up_chunks : list jstring
}.

(** The rest of the surroundings: the identifiers [uuidv4] draws, the
    readings of [Date.now], the upstream API behind [fetch] ([None] when the
    transport fails), the environment's API key and the text of an error. *)
Class Runtime := {
  uuidv4_nth : nat -> jstring;
  Date_now_nth : nat -> float;
  fetch_upstream : JsVal -> JsVal -> option Upstream;
  ANTHROPIC_API_KEY : JsVal;
  error_message : Exn -> jstring
}.

Module Json.

Inductive token :=
| TLBrace | TRBrace | TLBracket | TRBracket | TColon | TComma
| TStr (s : jstring) | TNum (f : float) | TTrue | TFalse | TNullLit.

(** ** Number literals *)

Definition is_digit (c : code_unit) : bool := ((48 <=? c) && (c <=? 57))%N.

Fixpoint span_digits (s : jstring) : jstring * jstring :=
  match s with
  | c :: s' =>
      if is_digit c then let (ds, rest) := span_digits s' in (c :: ds, rest)
      else ([], s)
  | [] => ([], [])
  end.

Definition digits_value (ds : jstring) : Z :=
  fold_left (fun acc c => (acc * 10 + Z.of_N (c - 48))%Z) ds 0%Z.

(** The binary64 number nearest to [d * 10^e] (ties to even), [d >= 0]. *)
Definition decimal_to_float (neg : bool) (d e : Z) : float :=
  match d with
  | Zpos p =>
      if (0 <=? e)%Z
      then SF2Prim (binary_normalize prec emax
                      (if neg then Zneg p * 10 ^ e else Zpos p * 10 ^ e)%Z 0 neg)
      else SF2Prim (SFdiv prec emax (S754_finite neg p 0)
                      (S754_finite false (Z.to_pos (10 ^ (- e))) 0))
  | _ => if neg then (-0)%float else 0%float
  end.

(** A number literal: an optional minus sign; an integer part, either the
    digit 0 alone or digits that do not start with 0; an optional fraction,
    a dot and at least one digit; an optional exponent, e or E, an optional
    sign and at least one digit. *)
Definition number_of_lexeme (s : jstring) : option float :=
  let (neg, s1) :=
    match s with
    | c :: r => if (c =? ch "-")%N then (true, r) else (false, s)
    | [] => (false, s)
    end in
  let (int_ds, s2) := span_digits s1 in
  let int_ok :=
    match int_ds with
    | [] => false
    | [_] => true
    | c :: _ => negb (c =? ch "0")%N
    end in
  if negb int_ok then None else
  let frac :=
    match s2 with
    | c :: r =>
        if (c =? ch ".")%N
        then let (fs, r') := span_digits r in
             match fs with [] => None | _ => Some (fs, r') end
        else Some ([], s2)
    | [] => Some ([], s2)
    end in
  match frac with
  | None => None
  | Some (frac_ds, s3) =>
      let expo :=
        match s3 with
        | [] => Some 0%Z
        | c :: r =>
            if ((c =? ch "e") || (c =? ch "E"))%N then
              let (eneg, r1) :=
                match r with
                | c' :: r' =>
                    if (c' =? ch "-")%N then (true, r')
                    else if (c' =? ch "+")%N then (false, r')
                    else (false, r)
                | [] => (false, r)
                end in
              let (es, r2) := span_digits r1 in
              match es, r2 with
              | _ :: _, [] =>
                  Some (if eneg then (- digits_value es)%Z else digits_value es)
              | _, _ => None
              end
            else None
        end in
      match expo with
      | None => None
      | Some e =>
          Some (decimal_to_float neg (digits_value (int_ds ++ frac_ds))
                  (e - Z.of_nat (List.length frac_ds)))
      end
  end.

(** ** Lexer: one pass over the code units *)

Inductive lex_state :=
| LIdle
| LString (acc : jstring)
| LEscape (acc : jstring)
| LUnicode (acc : jstring) (hex : list N)
| LNumber (lexeme : jstring)
| LWord (lexeme : jstring).

Definition is_space (c : code_unit) : bool :=
  ((c =? 32) || (c =? 9) || (c =? 10) || (c =? 13))%N.

Definition is_lower (c : code_unit) : bool := ((97 <=? c) && (c <=? 122))%N.

Definition is_number_char (c : code_unit) : bool :=
  (is_digit c || (c =? ch "-") || (c =? ch "+") || (c =? ch ".")
   || (c =? ch "e") || (c =? ch "E"))%N.

Definition hex_value (c : code_unit) : option N :=
  if is_digit c then Some (c - 48)%N
  else if ((97 <=? c) && (c <=? 102))%N then Some (c - 87)%N
  else if ((65 <=? c) && (c <=? 70))%N then Some (c - 55)%N
  else None.

Definition word_token (w : jstring) : option token :=
  if str_eqb w (u "true") then Some TTrue
  else if str_eqb w (u "false") then Some TFalse
  else if str_eqb w (u "null") then Some TNullLit
  else None.

Definition escape_char (c : code_unit) : option code_unit :=
  if (c =? DQUOTE)%N then Some DQUOTE
  else if (c =? ch "\")%N then Some (ch "\")
  else if (c =? ch "/")%N then Some (ch "/")
  else if (c =? ch "b")%N then Some 8%N
  else if (c =? ch "f")%N then Some 12%N
  else if (c =? ch "n")%N then Some 10%N
  else if (c =? ch "r")%N then Some 13%N
  else if (c =? ch "t")%N then Some 9%N
  else None.

(** A code unit read between tokens. [out] holds the tokens, reversed. *)
Definition lex_idle (c : code_unit) (out : list token)
  : option (lex_state * list token) :=
  if is_space c then Some (LIdle, out)
  else if (c =? ch "{")%N then Some (LIdle, TLBrace :: out)
  else if (c =? ch "}")%N then Some (LIdle, TRBrace :: out)
  else if (c =? ch "[")%N then Some (LIdle, TLBracket :: out)
  else if (c =? ch "]")%N then Some (LIdle, TRBracket :: out)
  else if (c =? ch ":")%N then Some (LIdle, TColon :: out)
  else if (c =? ch ",")%N then Some (LIdle, TComma :: out)
  else if (c =? DQUOTE)%N then Some (LString [], out)
  else if (is_digit c || (c =? ch "-")%N) then Some (LNumber [c], out)
  else if is_lower c then Some (LWord [c], out)
  else None.

Definition lex_step (st : lex_state) (c : code_unit) (out : list token)
  : option (lex_state * list token) :=
  match st with
  | LIdle => lex_idle c out
  | LString acc =>
      if (c =? DQUOTE)%N then Some (LIdle, TStr (rev acc) :: out)
      else if (c =? ch "\")%N then Some (LEscape acc, out)
      else if (c <? 32)%N then None
      else Some (LString (c :: acc), out)
  | LEscape acc =>
      if (c =? ch "u")%N then Some (LUnicode acc [], out)
      else match escape_char c with
           | Some e => Some (LString (e :: acc), out)
           | None => None
           end
  | LUnicode acc hex =>
      match hex_value c with
      | None => None
      | Some h =>
          match hex with
          | [h3; h2; h1] =>
              Some (LString ((((h1 * 16 + h2) * 16 + h3) * 16 + h)%N :: acc), out)
          | _ => Some (LUnicode acc (h :: hex), out)
          end
      end
  | LNumber lexeme =>
      if is_number_char c then Some (LNumber (c :: lexeme), out)
      else match number_of_lexeme (rev lexeme) with
           | Some f => lex_idle c (TNum f :: out)
           | None => None
           end
  | LWord lexeme =>
      if is_lower c then Some (LWord (c :: lexeme), out)
      else match word_token (rev lexeme) with
           | Some t => lex_idle c (t :: out)
           | None => None
           end
  end.

Definition lex_end (st : lex_state) (out : list token) : option (list token) :=
  match st with
  | LIdle => Some (rev out)
  | LNumber lexeme =>
      match number_of_lexeme (rev lexeme) with
      | Some f => Some (rev (TNum f :: out))
      | None => None
      end
  | LWord lexeme =>
      match word_token (rev lexeme) with
      | Some t => Some (rev (t :: out))
      | None => None
      end
  | _ => None
  end.

Fixpoint lex_from (s : jstring) (st : lex_state) (out : list token)
  : option (list token) :=
  match s with
  | [] => lex_end st out
  | c :: s' =>
      match lex_step st c out with
      | Some (st', out') => lex_from s' st' out'
      | None => None
      end
  end.

Definition lex (s : jstring) : option (list token) := lex_from s LIdle [].

(** ** Parser: one pass over the tokens, with the open containers on a
    stack *)

Inductive frame :=
| FArray (items : list JsVal)
| FObject (props : list (jstring * JsVal)) (key : option jstring).

Inductive expect :=
| EValue | EValueOrClose | EKey | EKeyOrClose | EColon | ECommaOrClose.

Inductive pstate :=
| Running (stack : list frame) (e : expect)
| Done (v : JsVal).

Definition push_value (v : JsVal) (stack : list frame) : option pstate :=
  match stack with
  | [] => Some (Done v)
  | FArray items :: st => Some (Running (FArray (v :: items) :: st) ECommaOrClose)
  | FObject props (Some k) :: st =>
      Some (Running (FObject (set_prop k v props) None :: st) ECommaOrClose)
  | FObject _ None :: _ => None
  end.

Definition value_start (t : token) (stack : list frame) : option pstate :=
  match t with
  | TLBrace => Some (Running (FObject [] None :: stack) EKeyOrClose)
  | TLBracket => Some (Running (FArray [] :: stack) EValueOrClose)
  | TStr s => push_value (JString s) stack
  | TNum f => push_value (JNumber f) stack
  | TTrue => push_value (JBool true) stack
  | TFalse => push_value (JBool false) stack
  | TNullLit => push_value JNull stack
  | _ => None
  end.

Definition close_array (stack : list frame) : option pstate :=
  match stack with
  | FArray items :: st => push_value (JArray (rev items)) st
  | _ => None
  end.

Definition close_object (stack : list frame) : option pstate :=
  match stack with
  | FObject props None :: st => push_value (JObject props) st
  | _ => None
  end.

Definition key_start (t : token) (stack : list frame) : option pstate :=
  match t, stack with
  | TStr k, FObject props None :: st =>
      Some (Running (FObject props (Some k) :: st) EColon)
  | _, _ => None
  end.

Definition parse_step (st : pstate) (t : token) : option pstate :=
  match st with
  | Done _ => None
  | Running stack EValue => value_start t stack
  | Running stack EValueOrClose =>
      match t with TRBracket => close_array stack | _ => value_start t stack end
  | Running stack EKey => key_start t stack
  | Running stack EKeyOrClose =>
      match t with TRBrace => close_object stack | _ => key_start t stack end
  | Running stack EColon =>
      match t with TColon => Some (Running stack EValue) | _ => None end
  | Running stack ECommaOrClose =>
      match t, stack with
      | TComma, FArray _ :: _ => Some (Running stack EValue)
      | TComma, FObject _ None :: _ => Some (Running stack EKey)
      | TRBracket, _ => close_array stack
      | TRBrace, _ => close_object stack
      | _, _ => None
      end
  end.

Fixpoint parse_tokens (ts : list token) (st : pstate) : option JsVal :=
  match ts with
  | [] => match st with Done v => Some v | Running _ _ => None end
  | t :: ts' =>
      match parse_step st t with
      | Some st' => parse_tokens ts' st'
      | None => None
      end
  end.

(** [JSON.parse(text)]; [None] stands for the [SyntaxError]. *)
Definition parse (text : jstring) : option JsVal :=
  match lex text with
  | Some ts => parse_tokens ts (Running [] EValue)
  | None => None
  end.

End Json.

#[export] Instance ecma_parser : JsonParser := Json.parse.

(* ===================================================================== *)
(** * The proxy server *)
(* ===================================================================== *)

Module Tracer.

Local Open Scope js_scope.

(** ** Usage Extractor *)

(** [typeof v === "number" && isFinite(v)] *)
Definition finite_number (v : JsVal) : bool :=
  match v with JNumber f => isFinite f | _ => false end.

(** [typeof v === "number" ? v : 0] *)
Definition number_or_zero (v : JsVal) : float :=
  match v with JNumber f => f | _ => 0%float end.

(** Calculate total tokens from a usage object. *)
Definition calculateTokens (usage : JsVal) : Result JsVal :=
  if negb (truthy usage) || negb (JsType_eqb (typeof usage) TObject)
  then Ret (JNumber 0)
  else
    total <- get usage (u "total_tokens") ;;
    if finite_number total then Ret total
    else
      input_tokens <- get usage (u "input_tokens") ;;
      let input := number_or_zero input_tokens in
      output_tokens <- get usage (u "output_tokens") ;;
      let output := number_or_zero output_tokens in
      Ret (JNumber (input + output)).


(** ** SSE Reassembler *)

Section Reassembler.
Context {parser : JsonParser}.

(** [JSON.parse(text)] *)
Definition json_parse (text : jstring) : Result JsVal :=
  match JSON_parse text with
  | Some v => Ret v
  | None => Throw SyntaxError
  end.

Definition isJsonLine (line : jstring) : bool :=
  startsWith line (u "{") && endsWith line (u "}").

Definition nonEmpty (line : jstring) : bool := truthy (JString line).

Definition parseStreamingResponse (fullResponse : jstring) : Result JsVal :=
  try_catch
    (let lines :=
       filter nonEmpty (List.map trim (split fullResponse [LF])) in
     let lastJsonLine := find isJsonLine (rev lines) in
     match lastJsonLine with
     | Some line =>
         if truthy (JString line) then json_parse line else Ret JNull
     | None => Ret JNull
     end)
    (fun _e => Ret JNull).

(** The inner loop over the lines of one record: the event name and the
    data parts read so far. *)
Definition scanLine (st : JsVal * list jstring) (line : jstring)
  : JsVal * list jstring :=
  let (evt, dataParts) := st in
  let t := trim line in
  if negb (nonEmpty t) then st
  else if startsWith t (u "event:") then (JString (trim (slice 6 t)), dataParts)
  else if startsWith t (u "data:") then (evt, dataParts ++ [trim (slice 5 t)])
  else st.

(** The body of the loop over the records; [usage] is the loop's variable. *)
Definition scanRecord (usage : JsVal) (rec : jstring) : Result JsVal :=
  if negb (nonEmpty rec) then Ret usage
  else
    let lines := split rec [LF] in
    let (evt, dataParts) := fold_left scanLine lines (JNull, []) in
    if negb (is_string evt (u "message_delta"))
       && negb (is_string evt (u "message_start"))
    then Ret usage
    else
      let rawData := join dataParts [LF] in
      try_catch
        (parsed <- json_parse rawData ;;
         if is_string evt (u "message_delta") then
           if truthy parsed && JsType_eqb (typeof parsed) TObject then
             parsed_usage <- get parsed (u "usage") ;;
             if truthy parsed_usage then Ret parsed_usage else Ret usage
           else Ret usage
         else if is_string evt (u "message_start") then
           if truthy parsed && JsType_eqb (typeof parsed) TObject then
             message <- get parsed (u "message") ;;
             if truthy message && JsType_eqb (typeof message) TObject then
               message_usage <- get message (u "usage") ;;
               if truthy message_usage then Ret message_usage else Ret usage
             else Ret usage
           else Ret usage
         else Ret usage)
        (fun _e => Ret usage).

Fixpoint scanRecords (records : list jstring) (usage : JsVal)
  : Result JsVal :=
  match records with
  | [] => Ret usage
  | rec :: rest => usage' <- scanRecord usage rec ;; scanRecords rest usage'
  end.

(** Extract token usage from Anthropic SSE by scanning for usage in
    message_delta (preferred) or message_start. *)
Definition extractUsageFromSSE (sse : jstring) : Result JsVal :=
  try_catch
    (let records := split sse [LF; LF] in
     scanRecords records JNull)
    (fun _e => Ret JNull).

(** ** Reading a stored body back *)

Definition safeParseJSON (maybeJSON : JsVal) : Result JsVal :=
  if negb (truthy maybeJSON) then Ret JNull
  else
    match maybeJSON with
    | JString text =>
        (* If it looks like SSE format, return as-is *)
        if startsWith (trim text) (u "event:") then Ret maybeJSON
        else try_catch (json_parse text) (fun _e => Ret maybeJSON)
    | _ => Ret maybeJSON
    end.

End Reassembler.


(** ** Trace Store

    The SQLite database behind [this.db].  A row is the object a [SELECT *]
    yields: the columns of the table, in the order of the schema. *)

Definition Row := list (jstring * JsVal).

Inductive Table := Sessions | Requests | Responses | ToolCalls.

Record Tables := mkTables {
  sessions : list Row;
  requests : list Row;
  responses : list Row;
  tool_calls : list Row;
  tool_calls_seq : float   (* the AUTOINCREMENT counter of [tool_calls.id] *)
}.

(** [txn] holds the tables as they were at [BEGIN] while a transaction is
    open. *)
Record Db := mkDb {
  tables : Tables;
  txn : option Tables
}.

Definition rows_of (t : Table) (ts : Tables) : list Row :=
  match t with
  | Sessions => sessions ts
  | Requests => requests ts
  | Responses => responses ts
  | ToolCalls => tool_calls ts
  end.

Definition set_rows (t : Table) (rows : list Row) (ts : Tables) : Tables :=
  match t with
  | Sessions => mkTables rows (requests ts) (responses ts) (tool_calls ts) (tool_calls_seq ts)
  | Requests => mkTables (sessions ts) rows (responses ts) (tool_calls ts) (tool_calls_seq ts)
  | Responses => mkTables (sessions ts) (requests ts) rows (tool_calls ts) (tool_calls_seq ts)
  | ToolCalls => mkTables (sessions ts) (requests ts) (responses ts) rows (tool_calls_seq ts)
  end.

(** The columns of [setupDatabase], each with its default. *)
Definition schema (t : Table) : list (jstring * JsVal) :=
  match t with
  | Sessions =>
      [(u "id", JNull); (u "started_at", JNull); (u "ended_at", JNull);
       (u "project_name", JNull); (u "total_requests", JNumber 0);
       (u "total_tokens", JNumber 0)]
  | Requests =>
      [(u "id", JNull); (u "session_id", JNull); (u "timestamp", JNull);
       (u "method", JNull); (u "endpoint", JNull); (u "headers", JNull);
       (u "body", JNull); (u "stream", JNumber 0)]
  | Responses =>
      [(u "id", JNull); (u "request_id", JNull); (u "timestamp", JNull);
       (u "status", JNull); (u "headers", JNull); (u "body", JNull);
       (u "latency", JNull); (u "tokens_used", JNull)]
  | ToolCalls =>
      [(u "id", JNull); (u "request_id", JNull); (u "tool_name", JNull);
       (u "input", JNull); (u "output", JNull); (u "timestamp", JNull)]
  end.

(** A prepared [INSERT INTO table (columns) VALUES (?, ..., ?)]. *)
Record Insert := mkInsert {
  into : Table;
  columns : list jstring
}.

Fixpoint bound (c : jstring) (cols : list jstring) (args : list JsVal)
  : option JsVal :=
  match cols, args with
  | c' :: cols', a :: args' =>
      if str_eqb c' c then Some a else bound c cols' args'
  | _, _ => None
  end.

Definition make_row (sch : list (jstring * JsVal)) (cols : list jstring)
  (args : list JsVal) : Row :=
  List.map (fun cd =>
              (fst cd, match bound (fst cd) cols args with
                       | Some v => v
                       | None => snd cd
                       end)) sch.

(** The effect of a successful [stmt.run(args)]. *)
Definition insert_row (sch : Table -> list (jstring * JsVal)) (stmt : Insert)
  (args : list JsVal) (ts : Tables) : Tables :=
  let row := make_row (sch (into stmt)) (columns stmt) args in
  match into stmt with
  | ToolCalls =>
      let id := (tool_calls_seq ts + 1)%float in
      mkTables (sessions ts) (requests ts) (responses ts)
        (tool_calls ts ++ [set_prop (u "id") (JNumber id) row]) id
  | t => set_rows t (rows_of t ts ++ [row]) ts
  end.

(** The effect of a successful [DELETE FROM table]. *)
Definition delete_all (t : Table) (ts : Tables) : Tables := set_rows t [] ts.

(** [column = ?] *)
Definition sql_eqb (a b : JsVal) : bool :=
  match a, b with
  | JString x, JString y => str_eqb x y
  | JNumber x, JNumber y => PrimFloat.eqb x y
  | _, _ => false
  end.

Definition select_where (col : jstring) (v : JsVal) (rows : list Row)
  : list Row :=
  filter (fun r => sql_eqb (lookup col r) v) rows.

(** [ORDER BY column DESC] on a numeric column. *)
Definition sql_number (v : JsVal) : float :=
  match v with JNumber f => f | _ => neg_infinity end.

Fixpoint insert_desc (col : jstring) (r : Row) (sorted : list Row)
  : list Row :=
  match sorted with
  | [] => [r]
  | r' :: rest =>
      if PrimFloat.ltb (sql_number (lookup col r')) (sql_number (lookup col r))
      then r :: sorted
      else r' :: insert_desc col r rest
  end.

Definition order_by_desc (col : jstring) (rows : list Row) : list Row :=
  fold_left (fun sorted r => insert_desc col r sorted) rows [].

(** ** The state of the server and of its surroundings *)

(** What can go wrong with one statement: nothing; the statement fails and
    an open transaction stays open; the statement fails and SQLite rolls an
    open transaction back on its own. *)
Inductive Fault := NoFault | StmtError | TxnAbort.

(** No fault among the first [n] statements to come. *)
Fixpoint quiet (n : nat) (plan : list Fault) : bool :=
  match n, plan with
  | S k, NoFault :: rest => quiet k rest
  | S _, _ :: _ => false
  | _, _ => true
  end.

(** An observer connection of the Broadcast Hub. *)
Record Client := mkClient {
  readyState : N;
  received : list JsVal
}.

(** The response being written to the caller. *)
Record Res := mkRes {
  res_status : option JsVal;
  res_headers : list (jstring * jstring);
  res_written : list jstring;
  res_json : option JsVal;
  res_ended : bool
}.

Definition fresh_res : Res := mkRes None [] [] None false.

Record World := mkWorld {
  db : Db;
  faults : list Fault;            (* the fate of the statements to come *)
  currentSessionId : JsVal;
  clients : list Client;
  published : list JsVal;         (* the messages handed to [broadcast] *)
  console : list (jstring * Exn); (* [console.error] *)
  forwarded : list (JsVal * JsVal); (* headers and body of the upstream calls *)
  ids_drawn : nat;                (* calls of [uuidv4] so far *)
  clock_reads : nat;              (* calls of [Date.now] so far *)
  res : Res
}.

Definition with_db (d : Db) (w : World) : World :=
  mkWorld d (faults w) (currentSessionId w) (clients w) (published w)
    (console w) (forwarded w) (ids_drawn w) (clock_reads w) (res w).
Definition with_faults (f : list Fault) (w : World) : World :=
  mkWorld (db w) f (currentSessionId w) (clients w) (published w)
    (console w) (forwarded w) (ids_drawn w) (clock_reads w) (res w).
Definition with_session (sid : JsVal) (w : World) : World :=
  mkWorld (db w) (faults w) sid (clients w) (published w)
    (console w) (forwarded w) (ids_drawn w) (clock_reads w) (res w).
Definition with_hub (cs : list Client) (p : list JsVal) (w : World) : World :=
  mkWorld (db w) (faults w) (currentSessionId w) cs p
    (console w) (forwarded w) (ids_drawn w) (clock_reads w) (res w).
Definition with_console (c : list (jstring * Exn)) (w : World) : World :=
  mkWorld (db w) (faults w) (currentSessionId w) (clients w) (published w)
    c (forwarded w) (ids_drawn w) (clock_reads w) (res w).
Definition with_forwarded (f : list (JsVal * JsVal)) (w : World) : World :=
  mkWorld (db w) (faults w) (currentSessionId w) (clients w) (published w)
    (console w) f (ids_drawn w) (clock_reads w) (res w).
Definition with_ids_drawn (n : nat) (w : World) : World :=
  mkWorld (db w) (faults w) (currentSessionId w) (clients w) (published w)
    (console w) (forwarded w) n (clock_reads w) (res w).
Definition with_clock_reads (n : nat) (w : World) : World :=
  mkWorld (db w) (faults w) (currentSessionId w) (clients w) (published w)
    (console w) (forwarded w) (ids_drawn w) n (res w).
Definition with_res (r : Res) (w : World) : World :=
  mkWorld (db w) (faults w) (currentSessionId w) (clients w) (published w)
    (console w) (forwarded w) (ids_drawn w) (clock_reads w) r.

(** What the caller has been sent as JSON, after a handler has run. *)
Definition res_json_of {A} (outcome : Result A * World) : option JsVal :=
  res_json (res (snd outcome)).

(** A handler: it runs on the state and returns or throws. *)
Definition M (A : Type) : Type := World -> Result A * World.

Definition mret {A} (a : A) : M A := fun w => (Ret a, w).

Definition mbind {A B} (c : M A) (k : A -> M B) : M B :=
  fun w =>
    match c w with
    | (Ret a, w') => k a w'
    | (Throw e, w') => (Throw e, w')
    end.

Definition lift {A} (r : Result A) : M A := fun w => (r, w).

Definition mtry {A} (body : M A) (handler : Exn -> M A) : M A :=
  fun w =>
    match body w with
    | (Ret a, w') => (Ret a, w')
    | (Throw e, w') => handler e w'
    end.

Fixpoint for_each {A} (xs : list A) (body : A -> M unit) : M unit :=
  match xs with
  | [] => mret tt
  | x :: rest => mbind (body x) (fun _ => for_each rest body)
  end.

Notation "x <- c ;; k" := (mbind c (fun x => k))
  (at level 61, c at next level, right associativity) : handler_scope.
Notation "c ;; k" := (mbind c (fun _ => k))
  (at level 61, right associativity) : handler_scope.

Section Server.
Context {parser : JsonParser} {printer : JsonPrinter} {runtime : Runtime}.

Local Open Scope handler_scope.

(** ** Primitive effects *)

Definition uuidv4 : M JsVal :=
  fun w => (Ret (JString (uuidv4_nth (ids_drawn w))),
            with_ids_drawn (S (ids_drawn w)) w).

Definition Date_now : M float :=
  fun w => (Ret (Date_now_nth (clock_reads w)),
            with_clock_reads (S (clock_reads w)) w).

Definition console_error (message : jstring) (e : Exn) : M unit :=
  fun w => (Ret tt, with_console (console w ++ [(message, e)]) w).

Definition fetch (headers body : JsVal) : M Upstream :=
  fun w =>
    let w' := with_forwarded (forwarded w ++ [(headers, body)]) w in
    match fetch_upstream headers body with
    | Some response => (Ret response, w')
    | None => (Throw FetchError, w')
    end.

Definition set_currentSessionId (sid : JsVal) : M unit :=
  fun w => (Ret tt, with_session sid w).

Definition get_currentSessionId : M JsVal :=
  fun w => (Ret (currentSessionId w), w).

Definition update_res (f : Res -> Res) : M unit :=
  fun w => (Ret tt, with_res (f (res w)) w).

Definition res_setHeader (name value : jstring) : M unit :=
  update_res (fun r => mkRes (res_status r) (res_headers r ++ [(name, value)])
                         (res_written r) (res_json r) (res_ended r)).

Definition res_write (chunk : jstring) : M unit :=
  update_res (fun r => mkRes (res_status r) (res_headers r)
                         (res_written r ++ [chunk]) (res_json r) (res_ended r)).

Definition res_end : M unit :=
  update_res (fun r => mkRes (res_status r) (res_headers r)
                         (res_written r) (res_json r) true).

(** [res.json(data)] *)
Definition res_send_json (data : JsVal) : M unit :=
  update_res (fun r => mkRes (res_status r) (res_headers r)
                         (res_written r) (Some data) true).

(** [res.status(code).json(data)] *)
Definition res_status_json (code data : JsVal) : M unit :=
  update_res (fun r => mkRes (Some code) (res_headers r)
                         (res_written r) (Some data) true).

(** ** Statements against the store *)

Definition abort (d : Db) : Db :=
  match txn d with
  | Some before => mkDb before None
  | None => d
  end.

(** One statement that writes: the next fault decides its fate. *)
Definition statement (effect : Db -> Result Db) : M unit :=
  fun w =>
    let fault := hd NoFault (faults w) in
    let w1 := with_faults (tl (faults w)) w in
    match fault with
    | NoFault =>
        match effect (db w1) with
        | Ret d => (Ret tt, with_db d w1)
        | Throw e => (Throw e, w1)
        end
    | StmtError => (Throw SqliteError, w1)
    | TxnAbort => (Throw SqliteError, with_db (abort (db w1)) w1)
    end.

Inductive Sql :=
| PRAGMA_foreign_keys_ON
| BEGIN
| DELETE_FROM (t : Table)
| COMMIT
| ROLLBACK
| VACUUM.

(** [this.db.exec(sql)].  [ROLLBACK] puts the tables back as they were at
    [BEGIN]; outside a transaction it is an error. *)
Definition exec (sql : Sql) : M unit :=
  match sql with
  | PRAGMA_foreign_keys_ON => statement (fun d => Ret d)
  | BEGIN =>
      statement (fun d =>
        match txn d with
        | Some _ => Throw SqliteError
        | None => Ret (mkDb (tables d) (Some (tables d)))
        end)
  | DELETE_FROM t =>
      statement (fun d => Ret (mkDb (delete_all t (tables d)) (txn d)))
  | COMMIT =>
      statement (fun d =>
        match txn d with
        | Some _ => Ret (mkDb (tables d) None)
        | None => Throw SqliteError
        end)
  | ROLLBACK =>
      fun w =>
        match txn (db w) with
        | Some before => (Ret tt, with_db (mkDb before None) w)
        | None => (Throw SqliteError, w)
        end
  | VACUUM =>
      statement (fun d =>
        match txn d with
        | Some _ => Throw SqliteError
        | None => Ret d
        end)
  end.

(** [stmt.run(args)] of a prepared insert, over the tables of [sch]. *)
Definition run_insert (sch : Table -> list (jstring * JsVal)) (stmt : Insert)
  (args : list JsVal) : M unit :=
  statement (fun d => Ret (mkDb (insert_row sch stmt args (tables d)) (txn d))).

(** What a prepared select finds in the tables. *)
Definition query {A} (q : Tables -> A) : M A :=
  fun w => (Ret (q (tables (db w))), w).

(** ** What a select hands to JavaScript

    A column declared INTEGER keeps a bound number as an INTEGER when the
    number is whole and within the 64-bit integers, and as a REAL otherwise;
    a NaN is kept as NULL.  [node:sqlite] hands a REAL over as the number it
    is, NULL as [null], and an INTEGER as a number when it is a safe integer;
    an INTEGER beyond the safe integers it refuses, and the select throws a
    RangeError.  The other columns are declared TEXT; the handlers bind texts
    and [null] to them, which come back as they were bound.

    The trace query reads what the calls left in the store, token counts of
    the upstream among it, and goes through [stmt_all] and [stmt_get].  The
    rows of [sessions] hold an identifier, a reading of the clock and the
    defaults of the schema; the sessions query takes them as they are. *)

Fixpoint map_result {A B} (f : A -> Result B) (xs : list A) : Result (list B) :=
  match xs with
  | [] => Ret []
  | x :: rest =>
      (y <- f x ;; ys <- map_result f rest ;; Ret (y :: ys))%js
  end.

(** The columns [setupDatabase] declares INTEGER. *)
Definition integer_columns (t : Table) : list jstring :=
  match t with
  | Sessions =>
      names ["started_at"; "ended_at"; "total_requests"; "total_tokens"]%string
  | Requests => names ["timestamp"; "stream"]%string
  | Responses => names ["timestamp"; "status"; "latency"; "tokens_used"]%string
  | ToolCalls => names ["id"; "timestamp"]%string
  end.

Definition MAX_SAFE_INTEGER : Z := (2 ^ 53 - 1)%Z.

(** The magnitude of the finite number [m * 2^e], when the number is
    whole. *)
Definition whole_magnitude (m : positive) (e : Z) : option Z :=
  if (0 <=? e)%Z then Some (Z.pos m * 2 ^ e)%Z
  else if (Z.pos m mod 2 ^ (- e) =? 0)%Z then Some (Z.pos m / 2 ^ (- e))%Z
  else None.

(** A number that was bound to an INTEGER column, as a select hands it
    over. *)
Definition read_integer_column (f : float) : Result JsVal :=
  match Prim2SF f with
  | S754_nan => Ret JNull
  | S754_zero _ => Ret (JNumber 0)
  | S754_infinity _ => Ret (JNumber f)
  | S754_finite _ m e =>
      match whole_magnitude m e with
      | Some n =>
          if (n <? 2 ^ 63)%Z && (MAX_SAFE_INTEGER <? n)%Z
          then Throw RangeError
          else Ret (JNumber f)
      | None => Ret (JNumber f)
      end
  end.

Definition read_column (t : Table) (column : jstring * JsVal)
  : Result (jstring * JsVal) :=
  match snd column with
  | JNumber f =>
      if existsb (str_eqb (fst column)) (integer_columns t)
      then (v <- read_integer_column f ;; Ret (fst column, v))%js
      else Ret column
  | _ => Ret column
  end.

Definition read_row (t : Table) (row : Row) : Result Row :=
  map_result (read_column t) row.

(** [stmt.all(...)] of a select on table [t] that finds [rows]. *)
Definition stmt_all (t : Table) (rows : list Row) : Result (list Row) :=
  map_result (read_row t) rows.

(** [stmt.get(...)]: the first row found, or [undefined]. *)
Definition stmt_get (t : Table) (rows : list Row) : Result (option Row) :=
  match rows with
  | [] => Ret None
  | row :: _ => (first <- read_row t row ;; Ret (Some first))%js
  end.

(** The statements of [setupStatements]. *)
Definition insertRequest : Insert :=
  mkInsert Requests (names ["id"; "session_id"; "timestamp"; "method";
                            "endpoint"; "headers"; "body"; "stream"]%string).
Definition insertResponseFull : Insert :=
  mkInsert Responses (names ["id"; "request_id"; "timestamp"; "status";
                             "headers"; "body"; "latency"; "tokens_used"]%string).
Definition insertResponseStream : Insert :=
  mkInsert Responses (names ["id"; "request_id"; "timestamp"; "status";
                             "body"; "latency"; "tokens_used"]%string).
Definition insertToolCall : Insert :=
  mkInsert ToolCalls (names ["request_id"; "tool_name"; "input"; "timestamp"]%string).
Definition insertSession : Insert :=
  mkInsert Sessions (names ["id"; "started_at"]%string).

Definition selectResponsesByRequest (id : JsVal) (ts : Tables) : list Row :=
  select_where (u "request_id") id (responses ts).
Definition selectToolCallsByRequest (id : JsVal) (ts : Tables) : list Row :=
  select_where (u "request_id") id (tool_calls ts).
Definition selectRequestsBySession (sid : JsVal) (ts : Tables) : list Row :=
  order_by_desc (u "timestamp") (select_where (u "session_id") sid (requests ts)).
Definition selectRecentRequests (ts : Tables) : list Row :=
  firstn 100 (order_by_desc (u "timestamp") (requests ts)).

Definition run : Insert -> list JsVal -> M unit := run_insert schema.

(** ** Broadcast Hub *)

Definition WEBSOCKET_READY_STATE_OPEN : N := 1.

(** Every open client is sent [JSON.stringify(message)]; [received] keeps
    the message so sent. *)
Definition broadcast (message : JsVal) : M unit :=
  fun w =>
    (Ret tt,
     with_hub
       (List.map (fun client =>
                    if (readyState client =? WEBSOCKET_READY_STATE_OPEN)%N
                    then mkClient (readyState client) (received client ++ [message])
                    else client) (clients w))
       (published w ++ [message]) w).

(** ** Session Manager *)

Definition createSession : M unit :=
  id <- uuidv4 ;;
  set_currentSessionId id ;;
  sid <- get_currentSessionId ;;
  started_at <- Date_now ;;
  run insertSession [sid; JNumber started_at].

End Server.

Section Pipeline.
Context {parser : JsonParser} {printer : JsonPrinter} {runtime : Runtime}.

Local Open Scope handler_scope.

(** An inbound call. *)
Record Req := mkReq {
  req_headers : JsVal;
  req_body : JsVal
}.

Definition ANTHROPIC_DEFAULT_VERSION : JsVal := str "2023-06-01".

Definition buildAnthropicHeaders (requestHeaders : JsVal) : Result JsVal :=
  (api_key <- get requestHeaders (u "x-api-key") ;;
   version <- get requestHeaders (u "anthropic-version") ;;
   Ret (JObject
          [(u "x-api-key", or_else api_key ANTHROPIC_API_KEY);
           (u "anthropic-version", or_else version ANTHROPIC_DEFAULT_VERSION);
           (u "content-type", str "application/json")]))%js.

Definition extractAndStoreToolCalls (requestId responseData : JsVal) : M unit :=
  match get_opt responseData (u "content") with
  | JArray blocks =>
      for_each blocks (fun content =>
        if is_string (get_opt content (u "type")) (u "tool_use") then
          name <- lift (get content (u "name")) ;;
          input <- lift (get content (u "input")) ;;
          now <- Date_now ;;
          run insertToolCall
            [requestId; name; JSON_stringify (nullish input JNull); JNumber now] ;;
          broadcast
            (JObject
               [(u "type", str "tool_call");
                (u "data",
                 JObject [(u "requestId", requestId); (u "toolName", name);
                          (u "input", input)])])
        else mret tt)
  | _ => mret tt
  end.

(** [await anthropicResponse.json()] *)
Definition response_json (r : Upstream) : Result JsVal :=
  json_parse (List.concat (up_chunks r)).

Definition handleRegularRequest (req : Req) (requestId : JsVal) : M unit :=
  startTime <- Date_now ;;
  headers <- lift (buildAnthropicHeaders (req_headers req)) ;;
  anthropicResponse <- fetch headers (JSON_stringify (req_body req)) ;;
  responseData <- lift (response_json anthropicResponse) ;;
  finished <- Date_now ;;
  let latency := (finished - startTime)%float in
  mtry
    (id <- uuidv4 ;;
     now <- Date_now ;;
     tokens <- lift (calculateTokens (get_opt responseData (u "usage"))) ;;
     run insertResponseFull
       [id; requestId; JNumber now; JNumber (up_status anthropicResponse);
        JNull; JSON_stringify responseData; JNumber latency; tokens] ;;
     extractAndStoreToolCalls requestId responseData)
    (fun dbError =>
       console_error (u "Database error storing response:") dbError) ;;
  tokens <- lift (calculateTokens (get_opt responseData (u "usage"))) ;;
  broadcast
    (JObject
       [(u "type", str "response");
        (u "data",
         JObject [(u "requestId", requestId); (u "response", responseData);
                  (u "latency", JNumber latency);
                  (u "tokensUsedTotal", tokens)])]) ;;
  res_status_json (JNumber (up_status anthropicResponse)) responseData.

(** A stream that was opened: the handler has returned, the [data] and
    [end] callbacks are still to run. *)
Record OpenStream := mkOpenStream {
  startTime : float;
  reader : list jstring
}.

Definition handleStreamingRequest (req : Req) (requestId : JsVal)
  : M OpenStream :=
  startTime <- Date_now ;;
  res_setHeader (u "Content-Type") (u "text/event-stream") ;;
  res_setHeader (u "Cache-Control") (u "no-cache") ;;
  res_setHeader (u "Connection") (u "keep-alive") ;;
  headers <- lift (buildAnthropicHeaders (req_headers req)) ;;
  anthropicResponse <- fetch headers (JSON_stringify (req_body req)) ;;
  mret (mkOpenStream startTime (up_chunks anthropicResponse)).

(** [reader.on("data", ...)], run over the chunks in turn; it returns the
    accumulated [fullResponse]. *)
Fixpoint onData (chunks : list jstring) (fullResponse : jstring) : M jstring :=
  match chunks with
  | [] => mret fullResponse
  | chunkStr :: rest =>
      res_write chunkStr ;;
      onData rest (fullResponse ++ chunkStr)
  end.

(** [reader.on("end", ...)] *)
Definition onEnd (requestId : JsVal) (startTime : float)
  (fullResponse : jstring) : M unit :=
  finished <- Date_now ;;
  let latency := (finished - startTime)%float in
  mtry
    (sseUsage <- lift (extractUsageFromSSE fullResponse) ;;
     parsedFinal <- lift (parseStreamingResponse fullResponse) ;;
     let usage := or_else (get_opt parsedFinal (u "usage")) sseUsage in
     tokensTotal <- lift (calculateTokens usage) ;;
     id <- uuidv4 ;;
     now <- Date_now ;;
     run insertResponseStream
       [id; requestId; JNumber now; JNumber 200; JString fullResponse;
        JNumber latency; tokensTotal] ;;
     broadcast
       (JObject
          [(u "type", str "response");
           (u "data",
            JObject [(u "requestId", requestId);
                     (u "response", or_else parsedFinal (JString fullResponse));
                     (u "latency", JNumber latency);
                     (u "tokensUsedTotal", tokensTotal)])]))
    (fun dbError =>
       console_error (u "Database error storing streaming response:") dbError ;;
       parsedFinal <- lift (parseStreamingResponse fullResponse) ;;
       usage <- lift (extractUsageFromSSE fullResponse) ;;
       tokens <- lift (calculateTokens usage) ;;
       broadcast
         (JObject
            [(u "type", str "response");
             (u "data",
              JObject [(u "requestId", requestId);
                       (u "response", or_else parsedFinal (JString fullResponse));
                       (u "latency", JNumber latency);
                       (u "tokensUsedTotal", tokens)])])) ;;
  res_end.

(** The route [POST /v1/messages], up to the point where it returns. *)
Definition postMessages (req : Req) : M (JsVal * option OpenStream) :=
  requestId <- uuidv4 ;;
  timestamp <- Date_now ;;
  mtry
    (let headers := JNull in
     let body := JSON_stringify (req_body req) in
     sid <- get_currentSessionId ;;
     run insertRequest
       [requestId; sid; JNumber timestamp; str "POST"; str "/v1/messages";
        headers; body;
        JNumber (if truthy (get_opt (req_body req) (u "stream")) then 1 else 0)])
    (fun dbError =>
       console_error (u "Database error storing request:") dbError) ;;
  broadcast
    (JObject
       [(u "type", str "request");
        (u "data",
         JObject [(u "id", requestId); (u "timestamp", JNumber timestamp);
                  (u "model", get_opt (req_body req) (u "model"));
                  (u "messages", get_opt (req_body req) (u "messages"));
                  (u "tools", get_opt (req_body req) (u "tools"));
                  (u "temperature", get_opt (req_body req) (u "temperature"));
                  (u "max_tokens", get_opt (req_body req) (u "max_tokens"));
                  (u "stream", get_opt (req_body req) (u "stream"))])]) ;;
  opened <-
    mtry
      (if truthy (get_opt (req_body req) (u "stream")) then
         stream <- handleStreamingRequest req requestId ;;
         mret (Some stream)
       else
         handleRegularRequest req requestId ;;
         mret None)
      (fun error =>
         console_error (u "Proxy error:") error ;;
         res_status_json (JNumber 500)
           (JObject [(u "error", str "Proxy error");
                     (u "details", JString (error_message error))]) ;;
         mret None) ;;
  mret (requestId, opened).

(** One captured call from its arrival to the end of the upstream answer:
    the route, then the callbacks of the stream it opened, if any. *)
Definition capture (req : Req) : M unit :=
  routed <- postMessages req ;;
  match snd routed with
  | Some stream =>
      fullResponse <- onData (reader stream) [] ;;
      onEnd (fst routed) (startTime stream) fullResponse
  | None => mret tt
  end.

(** ** The query surface *)

Fixpoint spread (props : list (jstring * JsVal)) (target : list (jstring * JsVal))
  : list (jstring * JsVal) :=
  match props with
  | [] => target
  | (k, v) :: rest => spread rest (set_prop k v target)
  end.

Definition fullTrace (ts : Tables) (trace : Row) : Result JsVal :=
  (response <-
     stmt_get Responses (selectResponsesByRequest (lookup (u "id") trace) ts) ;;
   toolCalls <-
     stmt_all ToolCalls (selectToolCallsByRequest (lookup (u "id") trace) ts) ;;
   parsedBody <- safeParseJSON (lookup (u "body") trace) ;;
   response' <-
     match response with
     | Some row =>
         body <- safeParseJSON (lookup (u "body") row) ;;
         Ret (JObject (spread [(u "body", body)] row))
     | None => Ret JNull
     end ;;
   Ret (JObject
          (spread
             [(u "body", parsedBody);
              (u "stream",
               JBool (sql_eqb (lookup (u "stream") trace) (JNumber 1)
                      || match get_opt parsedBody (u "stream") with
                         | JBool true => true
                         | _ => false
                         end));
              (u "response", response');
              (u "toolCalls", JArray (List.map JObject toolCalls))]
             trace)))%js.

(** The route [GET /api/traces/:sessionId?].  It has no [try]: what a select
    throws leaves the route. *)
Definition getTraces (sessionId : JsVal) : M unit :=
  ts <- query (fun ts => ts) ;;
  traces <- lift (stmt_all Requests
                    (if truthy sessionId
                     then selectRequestsBySession sessionId ts
                     else selectRecentRequests ts)) ;;
  fullTraces <- lift (map_result (fullTrace ts) traces) ;;
  res_send_json (JArray fullTraces).

(** The route [POST /api/clear] *)
Definition postClear : M unit :=
  mtry
    (exec PRAGMA_foreign_keys_ON ;;
     exec BEGIN ;;
     exec (DELETE_FROM ToolCalls) ;;
     exec (DELETE_FROM Responses) ;;
     exec (DELETE_FROM Requests) ;;
     exec (DELETE_FROM Sessions) ;;
     exec COMMIT ;;
     createSession ;;
     mtry (exec VACUUM) (fun _e => mret tt) ;;
     broadcast (JObject [(u "type", str "cleared")]) ;;
     res_send_json (JObject [(u "ok", JBool true)]))
    (fun e =>
       console_error (u "Failed to clear traces:") e ;;
       mtry (exec ROLLBACK) (fun _e => mret tt) ;;
       res_status_json (JNumber 500)
         (JObject [(u "ok", JBool false);
                   (u "error", str "Failed to clear traces")])).

End Pipeline.

End Tracer.

(* ===================================================================== *)
(** * The older copy of the server, [proxy/server.js] *)
(* ===================================================================== *)

(** It shares the tool-call extraction, [parseStreamingResponse], the
    broadcast hub, the session manager and the clear route with the server
    above, and differs in what it stores and publishes, and in what its
    trace query makes of a stored body that cannot be parsed. *)

Module Legacy.

Import Tracer.

(** Its [requests] table has no [stream] column. *)
Definition schema (t : Table) : list (jstring * JsVal) :=
  match t with
  | Requests =>
      [(u "id", JNull); (u "session_id", JNull); (u "timestamp", JNull);
       (u "method", JNull); (u "endpoint", JNull); (u "headers", JNull);
       (u "body", JNull)]
  | t => Tracer.schema t
  end.

Section Server.
Context {parser : JsonParser} {printer : JsonPrinter} {runtime : Runtime}.

Local Open Scope handler_scope.

Definition run : Insert -> list JsVal -> M unit := run_insert schema.

(** The statements it prepares where it uses them. *)
Definition insertRequest : Insert :=
  mkInsert Requests (names ["id"; "session_id"; "timestamp"; "method";
                            "endpoint"; "headers"; "body"]%string).
Definition insertResponse : Insert :=
  mkInsert Responses (names ["id"; "request_id"; "timestamp"; "status";
                             "headers"; "body"; "latency"; "tokens_used"]%string).
Definition insertStreamResponse : Insert :=
  mkInsert Responses (names ["id"; "request_id"; "timestamp"; "status";
                             "body"; "latency"]%string).

Definition handleRegularRequest (req : Req) (requestId : JsVal) : M unit :=
  startTime <- Date_now ;;
  headers <- lift (buildAnthropicHeaders (req_headers req)) ;;
  anthropicResponse <- fetch headers (JSON_stringify (req_body req)) ;;
  responseData <- lift (response_json anthropicResponse) ;;
  finished <- Date_now ;;
  let latency := (finished - startTime)%float in
  mtry
    (id <- uuidv4 ;;
     now <- Date_now ;;
     run insertResponse
       [id; requestId; JNumber now; JNumber (up_status anthropicResponse);
        JSON_stringify (up_headers anthropicResponse);
        JSON_stringify responseData; JNumber latency;
        or_else (get_opt (get_opt responseData (u "usage")) (u "output_tokens"))
                (JNumber 0)] ;;
     extractAndStoreToolCalls requestId responseData)
    (fun dbError =>
       console_error (u "Database error storing response:") dbError) ;;
  broadcast
    (JObject
       [(u "type", str "response");
        (u "data",
         JObject [(u "requestId", requestId); (u "response", responseData);
                  (u "latency", JNumber latency);
                  (u "tokensUsed", get_opt responseData (u "usage"))])]) ;;
  res_status_json (JNumber (up_status anthropicResponse)) responseData.

Fixpoint onData (requestId : JsVal) (chunks : list jstring)
  (fullResponse : jstring) : M jstring :=
  match chunks with
  | [] => mret fullResponse
  | chunkStr :: rest =>
      res_write chunkStr ;;
      broadcast
        (JObject
           [(u "type", str "stream_chunk");
            (u "data",
             JObject [(u "requestId", requestId); (u "chunk", JString chunkStr)])]) ;;
      onData requestId rest (fullResponse ++ chunkStr)
  end.

Definition onEnd (requestId : JsVal) (startTime : float)
  (fullResponse : jstring) : M unit :=
  finished <- Date_now ;;
  let latency := (finished - startTime)%float in
  mtry
    (id <- uuidv4 ;;
     now <- Date_now ;;
     run insertStreamResponse
       [id; requestId; JNumber now; JNumber 200; JString fullResponse;
        JNumber latency])
    (fun dbError =>
       console_error (u "Database error storing streaming response:") dbError) ;;
  parsedFinal <- lift (parseStreamingResponse fullResponse) ;;
  broadcast
    (JObject
       [(u "type", str "response");
        (u "data",
         JObject [(u "requestId", requestId);
                  (u "response", or_else parsedFinal (JString fullResponse));
                  (u "latency", JNumber latency);
                  (u "tokensUsed", get_opt parsedFinal (u "usage"))])]) ;;
  res_end.

(** The route [POST /v1/messages], up to the point where it returns. *)
Definition postMessages (req : Req) : M (JsVal * option OpenStream) :=
  requestId <- uuidv4 ;;
  timestamp <- Date_now ;;
  mtry
    (let headers := JSON_stringify (req_headers req) in
     let body := JSON_stringify (req_body req) in
     sid <- get_currentSessionId ;;
     run insertRequest
       [requestId; sid; JNumber timestamp; str "POST"; str "/v1/messages";
        headers; body])
    (fun dbError =>
       console_error (u "Database error storing request:") dbError) ;;
  broadcast
    (JObject
       [(u "type", str "request");
        (u "data",
         JObject [(u "id", requestId); (u "timestamp", JNumber timestamp);
                  (u "model", get_opt (req_body req) (u "model"));
                  (u "messages", get_opt (req_body req) (u "messages"));
                  (u "tools", get_opt (req_body req) (u "tools"));
                  (u "temperature", get_opt (req_body req) (u "temperature"));
                  (u "max_tokens", get_opt (req_body req) (u "max_tokens"))])]) ;;
  opened <-
    mtry
      (if truthy (get_opt (req_body req) (u "stream")) then
         stream <- handleStreamingRequest req requestId ;;
         mret (Some stream)
       else
         handleRegularRequest req requestId ;;
         mret None)
      (fun error =>
         console_error (u "Proxy error:") error ;;
         res_status_json (JNumber 500)
           (JObject [(u "error", str "Proxy error");
                     (u "details", JString (error_message error))]) ;;
         mret None) ;;
  mret (requestId, opened).

Definition capture (req : Req) : M unit :=
  routed <- postMessages req ;;
  match snd routed with
  | Some stream =>
      fullResponse <- onData (fst routed) (reader stream) [] ;;
      onEnd (fst routed) (startTime stream) fullResponse
  | None => mret tt
  end.

(** It reads the [body] of a row, a text or [NULL], which [JSON.parse]
    takes as the text [null]. *)
Definition safeParseJSON (maybeJSON : option jstring) : Result JsVal :=
  try_catch
    (match maybeJSON with
     | Some text => json_parse text
     | None => Ret JNull
     end)
    (fun _e => Ret JNull).

(** What a column declared TEXT holds: a text, or NULL. *)
Definition column_text (v : JsVal) : option jstring :=
  match v with
  | JString text => Some text
  | _ => None
  end.

Definition fullTrace (ts : Tables) (trace : Row) : Result JsVal :=
  (response <-
     stmt_get Responses (selectResponsesByRequest (lookup (u "id") trace) ts) ;;
   toolCalls <-
     stmt_all ToolCalls (selectToolCallsByRequest (lookup (u "id") trace) ts) ;;
   body <- safeParseJSON (column_text (lookup (u "body") trace)) ;;
   response' <-
     match response with
     | Some row =>
         body <- safeParseJSON (column_text (lookup (u "body") row)) ;;
         Ret (JObject (spread [(u "body", body)] row))
     | None => Ret JNull
     end ;;
   Ret (JObject
          (spread
             [(u "body", body);
              (u "response", response');
              (u "toolCalls", JArray (List.map JObject toolCalls))]
             trace)))%js.

(** The route [GET /api/traces/:sessionId?], with the statements it
    prepares on the way.  The rows are read as the server reads them; a
    [tokens_used] that the older copy bound from [usage.output_tokens] and
    that is not a number comes back here as it was bound. *)
Definition getTraces (sessionId : JsVal) : M unit :=
  ts <- query (fun ts => ts) ;;
  traces <- lift (stmt_all Requests
                    (if truthy sessionId
                     then selectRequestsBySession sessionId ts
                     else selectRecentRequests ts)) ;;
  fullTraces <- lift (map_result (fullTrace ts) traces) ;;
  res_send_json (JArray fullTraces).

End Server.

End Legacy.


(* ===================================================================== *)
(** * The rest of the query surface and the observer connections *)
(* ===================================================================== *)

Module Queries.

Import Tracer.

Section Routes.

Local Open Scope handler_scope.

(** [SELECT * FROM sessions ORDER BY started_at DESC] *)
Definition selectSessions (ts : Tables) : list Row :=
  order_by_desc (u "started_at") (sessions ts).

(** The route [GET /api/sessions] *)
Definition getSessions : M unit :=
  sessions <- query selectSessions ;;
  res_send_json (JArray (List.map JObject sessions)).

End Routes.

End Queries.

(** [setupWebSocket]: what the server does when an observer connects and
    when its connection closes.  A connection is known by its place among
    the connections, which the set keeps in the order they were added. *)

Module Connections.

Import Tracer.

Definition connected_greeting : JsVal :=
  JObject [(u "type", str "connected");
           (u "data",
            JObject [(u "message", str "Connected to Claude Code Tracer")])].

(** [this.wss.on("connection", ...)]: the socket is open, it joins the
    clients and is sent the greeting. *)
Definition onConnection : M unit :=
  fun w =>
    (Ret tt,
     with_hub
       (clients w ++ [mkClient WEBSOCKET_READY_STATE_OPEN [connected_greeting]])
       (published w) w).

Fixpoint delete_nth {A} (i : nat) (xs : list A) : list A :=
  match i, xs with
  | _, [] => []
  | O, _ :: rest => rest
  | S k, x :: rest => x :: delete_nth k rest
  end.

(** [ws.on("close", () => this.clients.delete(ws))] *)
Definition onClose (ws : nat) : M unit :=
  fun w => (Ret tt, with_hub (delete_nth ws (clients w)) (published w) w).

End Connections.

(* ===================================================================== *)
(** * The specification's contracts *)
(* ===================================================================== *)

Module Spec.

(** The number an object holds under a name, when it holds one. *)
Definition numeric_field (usage : JsVal) (name : jstring) : option float :=
  match usage with
  | JObject props =>
      match lookup name props with
      | JNumber f => Some f
      | _ => None
      end
  | _ => None
  end.

Definition or_zero (field : option float) : float :=
  match field with Some f => f | None => 0%float end.

(** The contract of the Usage Extractor: the combined total when it is
    present and a finite number; otherwise the sum of the input and the
    output field, each 0 when absent or not a number; 0 for a shape that is
    not an object. *)
Definition tokensOf (usage : JsVal) : float :=
  let sum := (or_zero (numeric_field usage (u "input_tokens"))
              + or_zero (numeric_field usage (u "output_tokens")))%float in
  match usage with
  | JObject _ =>
      match numeric_field usage (u "total_tokens") with
      | Some total => if isFinite total then total else sum
      | None => sum
      end
  | _ => 0%float
  end.

Section Reassembly.
Context {parser : JsonParser}.

(** The structured final object, in the specification's words: the last
    syntactically complete JSON object on a line of its own, after
    trimming; [null] when there is none. *)
Definition complete_object (line : jstring) : option JsVal :=
  match JSON_parse (trim line) with
  | Some (JObject props) => Some (JObject props)
  | _ => None
  end.

Fixpoint last_complete_object (lines : list jstring) (found : JsVal) : JsVal :=
  match lines with
  | [] => found
  | line :: rest =>
      last_complete_object rest
        (match complete_object line with Some v => v | None => found end)
  end.

Definition finalObject (text : jstring) : JsVal :=
  last_complete_object (split text [LF]) JNull.

End Reassembly.

Import Tracer.

(** The session row a rotation writes. *)
Definition session_row (id : jstring) (started_at : float) : Row :=
  [(u "id", JString id); (u "started_at", JNumber started_at);
   (u "ended_at", JNull); (u "project_name", JNull);
   (u "total_requests", JNumber 0); (u "total_tokens", JNumber 0)].

Definition cleared_reply (r : Res) : Res :=
  mkRes (res_status r) (res_headers r) (res_written r)
    (Some (JObject [(u "ok", JBool true)])) true.

Definition clear_failed_reply (r : Res) : Res :=
  mkRes (Some (JNumber 500)) (res_headers r) (res_written r)
    (Some (JObject [(u "ok", JBool false);
                    (u "error", str "Failed to clear traces")])) true.

Section Forwarding.
Context {parser : JsonParser} {printer : JsonPrinter} {runtime : Runtime}.

(** The failure reply of the proxy. *)
Definition proxy_error_reply (e : Exn) (r : Res) : Res :=
  mkRes (Some (JNumber 500)) (res_headers r) (res_written r)
    (Some (JObject [(u "error", str "Proxy error");
                    (u "details", JString (error_message e))])) true.

Definition event_stream_headers (r : Res) : Res :=
  mkRes (res_status r)
    (res_headers r
     ++ [(u "Content-Type", u "text/event-stream");
         (u "Cache-Control", u "no-cache");
         (u "Connection", u "keep-alive")])
    (res_written r) (res_json r) (res_ended r).

(** What a forwarder without any bookkeeping hands to the caller: the
    upstream JSON body under the upstream status, or the upstream chunks in
    their order, or the failure reply when the upstream call fails. *)
Definition forwarded_reply (req : Req) (r : Res) : Res :=
  let body := JSON_stringify (req_body req) in
  if truthy (get_opt (req_body req) (u "stream")) then
    let r1 := event_stream_headers r in
    match buildAnthropicHeaders (req_headers req) with
    | Throw e => proxy_error_reply e r1
    | Ret headers =>
        match fetch_upstream headers body with
        | None => proxy_error_reply FetchError r1
        | Some upstream =>
            mkRes (res_status r1) (res_headers r1)
              (res_written r1 ++ up_chunks upstream) (res_json r1) true
        end
    end
  else
    match buildAnthropicHeaders (req_headers req) with
    | Throw e => proxy_error_reply e r
    | Ret headers =>
        match fetch_upstream headers body with
        | None => proxy_error_reply FetchError r
        | Some upstream =>
            match response_json upstream with
            | Throw e => proxy_error_reply e r
            | Ret data =>
                mkRes (Some (JNumber (up_status upstream))) (res_headers r)
                  (res_written r) (Some data) true
            end
        end
    end.

(** The calls it makes upstream. *)
Definition upstream_calls (req : Req) (sent : list (JsVal * JsVal))
  : list (JsVal * JsVal) :=
  match buildAnthropicHeaders (req_headers req) with
  | Throw _ => sent
  | Ret headers => sent ++ [(headers, JSON_stringify (req_body req))]
  end.

(** The row of a call in [requests]. *)
Definition request_row (req : Req) (id : jstring) (session : JsVal)
  (timestamp : float) : Row :=
  [(u "id", JString id); (u "session_id", session);
   (u "timestamp", JNumber timestamp); (u "method", str "POST");
   (u "endpoint", str "/v1/messages"); (u "headers", JNull);
   (u "body", JSON_stringify (req_body req));
   (u "stream",
    JNumber (if truthy (get_opt (req_body req) (u "stream")) then 1 else 0))].

(** The "request" event of a call. *)
Definition request_event (req : Req) (id : jstring) (timestamp : float)
  : JsVal :=
  JObject
    [(u "type", str "request");
     (u "data",
      JObject [(u "id", JString id); (u "timestamp", JNumber timestamp);
               (u "model", get_opt (req_body req) (u "model"));
               (u "messages", get_opt (req_body req) (u "messages"));
               (u "tools", get_opt (req_body req) (u "tools"));
               (u "temperature", get_opt (req_body req) (u "temperature"));
               (u "max_tokens", get_opt (req_body req) (u "max_tokens"));
               (u "stream", get_opt (req_body req) (u "stream"))])].

(** The "response" event of a buffered call. *)
Definition response_event (requestId response : JsVal) (latency tokens : float)
  : JsVal :=
  JObject
    [(u "type", str "response");
     (u "data",
      JObject [(u "requestId", requestId); (u "response", response);
               (u "latency", JNumber latency);
               (u "tokensUsedTotal", JNumber tokens)])].

End Forwarding.

End Spec.

(* ===================================================================== *)
(** * Frames: what a computation leaves alone *)
(* ===================================================================== *)

Module Frame.

Import Tracer.

(** [respects R c]: whatever the state [c] starts from, the state it ends in
    is related to it by [R]. *)
Definition respects (R : World -> World -> Prop) {A} (c : M A) : Prop :=
  forall w, R w (snd (c w)).

(** The reply and the upstream calls are as they were; publications were
    at most added. *)
Definition bookkeeping (w w' : World) : Prop :=
  res w' = res w
  /\ forwarded w' = forwarded w
  /\ exists more, published w' = published w ++ more.

(** The reply, the upstream calls and the publications are as they were. *)
Definition silent (w w' : World) : Prop :=
  res w' = res w
  /\ forwarded w' = forwarded w
  /\ published w' = published w.

(** Outside a transaction: still outside a transaction, and the rows of
    table [t] are as they were. *)
Definition table_kept (t : Table) (w w' : World) : Prop :=
  txn (db w) = None ->
  txn (db w') = None
  /\ rows_of t (tables (db w')) = rows_of t (tables (db w)).

(** The error log was at most added to. *)
Definition log_grows (w w' : World) : Prop :=
  exists more, console w' = console w ++ more.

(** The error log and the faults to come are as they were. *)
Definition log_kept (w w' : World) : Prop :=
  console w' = console w /\ faults w' = faults w.

(** What the rules for handlers need of a relation: it is a preorder, and
    drawing an identifier or reading the clock stays within it. *)
Class Framing (R : World -> World -> Prop) : Prop := {
  framing_refl : forall w, R w w;
  framing_trans : forall w1 w2 w3, R w1 w2 -> R w2 w3 -> R w1 w3;
  framing_ids : forall n w, R w (with_ids_drawn n w);
  framing_clock : forall n w, R w (with_clock_reads n w)
}.

End Frame.


(* ===================================================================== *)
(** * Rows and events, as the handlers leave them *)
(* ===================================================================== *)

Module Expect.

Import Tracer.

(** ** Observers *)

(** An observer after [events] were broadcast: it has received them if its
    socket is open, and nothing otherwise. *)
Definition deliver (events : list JsVal) (client : Client) : Client :=
  if (readyState client =? WEBSOCKET_READY_STATE_OPEN)%N
  then mkClient (readyState client) (received client ++ events)
  else client.

(** The observers are the same connections, and the open ones have received
    what was published, in the order of publication. *)
Definition delivered (w w' : World) : Prop :=
  exists events,
    published w' = published w ++ events
    /\ clients w' = List.map (deliver events) (clients w).

Definition cleared_event : JsVal := JObject [(u "type", str "cleared")].

(** ** Sessions *)

(** The session the server files requests under has its row. *)
Definition session_stored (w : World) : Prop :=
  exists row,
    In row (sessions (tables (db w))) /\ lookup (u "id") row = currentSessionId w.

(** The active session is the one it was. *)
Definition session_kept (w w' : World) : Prop :=
  currentSessionId w' = currentSessionId w.

(** ** Reading back *)

(** A select hands the row over as it was bound: none of its INTEGER
    columns holds a NaN, a negative zero or a whole number beyond the safe
    integers. *)
Definition handed_back (t : Table) (row : Row) : Prop :=
  read_row t row = Ret row.

(** The trace query finds every row as it was bound. *)
Definition store_handed_back (ts : Tables) : Prop :=
  Forall (handed_back Requests) (requests ts)
  /\ Forall (handed_back Responses) (responses ts)
  /\ Forall (handed_back ToolCalls) (tool_calls ts).

(** ** Ordering *)

(** No entry is followed by an entry that holds a greater number under
    [column]. *)
Definition newest_first (column : jstring) (entries : list JsVal) : Prop :=
  Sorted (fun a b =>
            PrimFloat.ltb (sql_number (get_opt a column))
              (sql_number (get_opt b column)) = false) entries.

Section Shapes.
Context {parser : JsonParser} {printer : JsonPrinter} {runtime : Runtime}.

(** ** Tool calls *)

Definition is_tool_use (content : JsVal) : bool :=
  is_string (get_opt content (u "type")) (u "tool_use").

(** A response that has [blocks] for its content and nothing else. *)
Definition only_content (blocks : list JsVal) : JsVal :=
  JObject [(u "content", JArray blocks)].

Definition tool_call_row (requestId : JsVal) (id now : float) (content : JsVal)
  : Row :=
  [(u "id", JNumber id); (u "request_id", requestId);
   (u "tool_name", get_opt content (u "name"));
   (u "input", JSON_stringify (nullish (get_opt content (u "input")) JNull));
   (u "output", JNull); (u "timestamp", JNumber now)].

Definition tool_call_event (requestId content : JsVal) : JsVal :=
  JObject
    [(u "type", str "tool_call");
     (u "data",
      JObject [(u "requestId", requestId);
               (u "toolName", get_opt content (u "name"));
               (u "input", get_opt content (u "input"))])].

(** The rows of the [tool_use] blocks [uses], stored one after the other
    from the counter [seq] and the clock reading [clock] on. *)
Fixpoint tool_call_rows (requestId : JsVal) (seq : float) (clock : nat)
  (uses : list JsVal) : list Row :=
  match uses with
  | [] => []
  | content :: rest =>
      tool_call_row requestId (seq + 1) (Date_now_nth clock) content
      :: tool_call_rows requestId (seq + 1) (S clock) rest
  end.

(** ** The upstream exchange *)

(** The exchange of a buffered call with the upstream API: the parsed body
    of the answer, or what goes wrong on the way. *)
Definition upstream_answer (req : Req) : Result JsVal :=
  (headers <- buildAnthropicHeaders (req_headers req) ;;
   match fetch_upstream headers (JSON_stringify (req_body req)) with
   | Some upstream => response_json upstream
   | None => Throw FetchError
   end)%js.

(** The opening of the stream of a streamed call: the answer of the
    upstream, or what goes wrong on the way. *)
Definition upstream_stream (req : Req) : Result Upstream :=
  (headers <- buildAnthropicHeaders (req_headers req) ;;
   match fetch_upstream headers (JSON_stringify (req_body req)) with
   | Some upstream => Ret upstream
   | None => Throw FetchError
   end)%js.

(** ** The error log *)

(** The [tool_use] blocks of an answer. *)
Definition tool_uses (responseData : JsVal) : list JsVal :=
  match get_opt responseData (u "content") with
  | JArray blocks => filter is_tool_use blocks
  | _ => []
  end.

(** The line a guarded write leaves in the log: none when it was stored. *)
Definition logged (message : jstring) (stored : bool) : list (jstring * Exn) :=
  if stored then [] else [(message, SqliteError)].

(** What one captured call adds to the error log when [plan] tells the fate
    of its statements: the request insert comes first; a buffered call that
    the upstream answers then inserts its response and one tool call for
    each [tool_use] block, under one [try]; a streamed call inserts its
    response at the end of the stream. *)
Definition capture_log (req : Req) (plan : list Fault) : list (jstring * Exn) :=
  logged (u "Database error storing request:") (quiet 1 plan)
  ++ if truthy (get_opt (req_body req) (u "stream")) then
       match upstream_stream req with
       | Ret _ =>
           logged (u "Database error storing streaming response:")
             (quiet 1 (tl plan))
       | Throw e => [(u "Proxy error:", e)]
       end
     else
       match upstream_answer req with
       | Ret responseData =>
           logged (u "Database error storing response:")
             (quiet (1 + List.length (tool_uses responseData)) (tl plan))
       | Throw e => [(u "Proxy error:", e)]
       end.

(** ** Responses *)

(** The row of a buffered call in [responses]. *)
Definition response_row (id requestId : JsVal) (now status : float)
  (data : JsVal) (latency tokens : float) : Row :=
  [(u "id", id); (u "request_id", requestId); (u "timestamp", JNumber now);
   (u "status", JNumber status); (u "headers", JNull);
   (u "body", JSON_stringify data); (u "latency", JNumber latency);
   (u "tokens_used", JNumber tokens)].

(** The row of a streamed call in [responses]. *)
Definition stream_response_row (id requestId : JsVal) (now : float)
  (fullResponse : jstring) (latency tokens : float) : Row :=
  [(u "id", id); (u "request_id", requestId); (u "timestamp", JNumber now);
   (u "status", JNumber 200); (u "headers", JNull);
   (u "body", JString fullResponse); (u "latency", JNumber latency);
   (u "tokens_used", JNumber tokens)].

(** The "response" event of a streamed call. *)
Definition stream_response_event (requestId parsedFinal : JsVal)
  (fullResponse : jstring) (latency tokens : float) : JsVal :=
  JObject
    [(u "type", str "response");
     (u "data",
      JObject [(u "requestId", requestId);
               (u "response", or_else parsedFinal (JString fullResponse));
               (u "latency", JNumber latency);
               (u "tokensUsedTotal", JNumber tokens)])].

(** ** The older copy *)

Definition legacy_request_event (req : Req) (id : jstring) (timestamp : float)
  : JsVal :=
  JObject
    [(u "type", str "request");
     (u "data",
      JObject [(u "id", JString id); (u "timestamp", JNumber timestamp);
               (u "model", get_opt (req_body req) (u "model"));
               (u "messages", get_opt (req_body req) (u "messages"));
               (u "tools", get_opt (req_body req) (u "tools"));
               (u "temperature", get_opt (req_body req) (u "temperature"));
               (u "max_tokens", get_opt (req_body req) (u "max_tokens"))])].

Definition stream_chunk_event (requestId : JsVal) (chunk : jstring) : JsVal :=
  JObject
    [(u "type", str "stream_chunk");
     (u "data",
      JObject [(u "requestId", requestId); (u "chunk", JString chunk)])].

Definition legacy_stream_response_event (requestId parsedFinal : JsVal)
  (fullResponse : jstring) (latency : float) : JsVal :=
  JObject
    [(u "type", str "response");
     (u "data",
      JObject [(u "requestId", requestId);
               (u "response", or_else parsedFinal (JString fullResponse));
               (u "latency", JNumber latency);
               (u "tokensUsed", get_opt parsedFinal (u "usage"))])].

Definition legacy_stream_response_row (id requestId : JsVal) (now : float)
  (fullResponse : jstring) (latency : float) : Row :=
  [(u "id", id); (u "request_id", requestId); (u "timestamp", JNumber now);
   (u "status", JNumber 200); (u "headers", JNull);
   (u "body", JString fullResponse); (u "latency", JNumber latency);
   (u "tokens_used", JNull)].

End Shapes.

End Expect.

(* ===================================================================== *)
(** * Sample surroundings and stores *)
(* ===================================================================== *)

Module Samples.

Import Tracer.

Fixpoint float_of_nat (n : nat) : float :=
  match n with
  | O => 0%float
  | S k => (float_of_nat k + 1)%float
  end.

(** Identifiers [id-0], [id-1], ...; a clock that starts at 1000 and moves
    5 ms with every reading; an upstream that gives [answer] to every
    call. *)
Definition runtime (answer : option Upstream) : Runtime :=
  {| uuidv4_nth := fun n => u "id-" ++ [(48 + N.of_nat n)%N];
     Date_now_nth := fun n => (1000 + 5 * float_of_nat n)%float;
     fetch_upstream := fun _ _ => answer;
     ANTHROPIC_API_KEY := JUndefined;
     error_message := fun _ => u "upstream failed" |}.

Definition no_tables : Tables := mkTables [] [] [] [] 0.

(** A server that has just been constructed: nothing stored, nobody
    connected, no session yet. *)
Definition idle (ts : Tables) (plan : list Fault) : World :=
  mkWorld (mkDb ts None) plan JUndefined [] [] [] [] 0 0 fresh_res.

(** A streamed call whose upstream closed the stream without a byte: the
    stored response body is the empty text. *)
Definition streamed_request : Row :=
  [(u "id", str "r1"); (u "session_id", str "s1");
   (u "timestamp", JNumber 1000); (u "method", str "POST");
   (u "endpoint", str "/v1/messages"); (u "headers", JNull);
   (u "body", JString (jtext "{'model':'m','stream':true}"));
   (u "stream", JNumber 1)].

Definition empty_response : Row :=
  [(u "id", str "p1"); (u "request_id", str "r1");
   (u "timestamp", JNumber 1010); (u "status", JNumber 200);
   (u "headers", JNull); (u "body", JString []);
   (u "latency", JNumber 10); (u "tokens_used", JNumber 0)].

Definition empty_stream_store : Tables :=
  mkTables [] [streamed_request] [empty_response] [] 0.

(** A clear whose second [DELETE] fails, and one that meets no fault. *)
Definition interrupted_clear : World :=
  idle empty_stream_store [NoFault; NoFault; NoFault; StmtError].

Definition quiet_clear : World := idle empty_stream_store [].

(** A server whose store is already empty. *)
Definition empty_server : World := idle no_tables [].

(** A buffered call and the answer of the upstream to it. *)
Definition buffered_call : Req :=
  mkReq
    (JObject [(u "x-api-key", str "sk-ant-secret");
              (u "anthropic-version", str "2023-06-01")])
    (JObject [(u "model", str "claude-3-5-sonnet-20241022");
              (u "max_tokens", JNumber 64);
              (u "messages",
               JArray [JObject [(u "role", str "user");
                                (u "content", str "Say hi")]])]).

Definition usage_answer : Upstream :=
  mkUpstream 200 (JObject [(u "content-type", str "application/json")])
    [jtext "{'id':'msg_1','content':[{'type':'text','text':'Hi'}],";
     jtext "'usage':{'input_tokens':10,'output_tokens':5}}"].

Definition usage_answer_body : JsVal :=
  JObject
    [(u "id", str "msg_1");
     (u "content",
      JArray [JObject [(u "type", str "text"); (u "text", str "Hi")]]);
     (u "usage",
      JObject [(u "input_tokens", JNumber 10); (u "output_tokens", JNumber 5)])].

(** A request whose stored body is not JSON. *)
Definition garbled_request : Row :=
  [(u "id", str "r2"); (u "session_id", str "s1");
   (u "timestamp", JNumber 1000); (u "method", str "POST");
   (u "endpoint", str "/v1/messages"); (u "headers", JNull);
   (u "body", str "{model: m"); (u "stream", JNumber 0)].

(** A usage record whose total is a number, but not a finite one. *)
Definition nan_total_usage : JsVal :=
  JObject [(u "total_tokens", JNumber nan); (u "input_tokens", JNumber 10);
           (u "output_tokens", JNumber 5)].

(** A stream with two object lines between other lines, its last object
    line, and a stream cut in the middle of its last line. *)
Definition two_objects_stream : jstring := jtext "data: x
{'a':1}
  {'b':{'c':2}}  
data: y".

Definition last_object_line : jstring := jtext "{'b':{'c':2}}".

Definition truncated_stream : jstring := jtext "{'a':1}
{'b':{'c':2}".

End Samples.


(** ** A [JSON.stringify] for the samples

    The texts [JSON.stringify] produces for the values the samples are made
    of: [null], booleans, strings, arrays, objects, and numbers that are
    integers of magnitude at most 2^53.  On a value that holds another
    number it yields [undefined], as it does on [undefined] itself. *)

Module Printing.

Definition digit (n : N) : code_unit := (48 + n)%N.

Fixpoint decimal (fuel : nat) (n : N) (acc : jstring) : jstring :=
  match fuel with
  | O => acc
  | S k =>
      let acc' := digit (n mod 10) :: acc in
      if (n / 10 =? 0)%N then acc' else decimal k (n / 10) acc'
  end.

Definition safe_integer (f : float) : option Z :=
  match Prim2SF f with
  | S754_zero _ => Some 0%Z
  | S754_finite s m e =>
      let magnitude :=
        if (0 <=? e)%Z then Some (Z.pos m * 2 ^ e)%Z
        else if (Z.pos m mod 2 ^ (- e) =? 0)%Z
             then Some (Z.pos m / 2 ^ (- e))%Z
             else None in
      match magnitude with
      | Some z =>
          if (z <=? 2 ^ 53)%Z then Some (if s then (- z)%Z else z) else None
      | None => None
      end
  | _ => None
  end.

Definition print_number (f : float) : option jstring :=
  if isFinite f then
    match safe_integer f with
    | Some z =>
        Some ((if (z <? 0)%Z then [ch "-"] else [])
              ++ decimal 20 (Z.abs_N z) [])
    | None => None
    end
  else Some (u "null").

Definition hex_digit (n : N) : code_unit :=
  if (n <? 10)%N then (48 + n)%N else (87 + n)%N.

Definition unicode_escape (c : code_unit) : jstring :=
  [ch "\"; ch "u"; hex_digit (c / 4096); hex_digit ((c / 256) mod 16);
   hex_digit ((c / 16) mod 16); hex_digit (c mod 16)].

Definition escape (c : code_unit) : jstring :=
  if (c =? DQUOTE)%N then [ch "\"; DQUOTE]
  else if (c =? ch "\")%N then [ch "\"; ch "\"]
  else if (c =? 8)%N then [ch "\"; ch "b"]
  else if (c =? 12)%N then [ch "\"; ch "f"]
  else if (c =? 10)%N then [ch "\"; ch "n"]
  else if (c =? 13)%N then [ch "\"; ch "r"]
  else if (c =? 9)%N then [ch "\"; ch "t"]
  else if (c <? 32)%N then unicode_escape c
  else [c].

Definition is_high_surrogate (c : code_unit) : bool :=
  ((55296 <=? c) && (c <=? 56319))%N.
Definition is_low_surrogate (c : code_unit) : bool :=
  ((56320 <=? c) && (c <=? 57343))%N.

Fixpoint quote_units (s : jstring) : jstring :=
  match s with
  | [] => []
  | c :: rest =>
      if is_high_surrogate c then
        match rest with
        | d :: rest' =>
            if is_low_surrogate d then c :: d :: quote_units rest'
            else unicode_escape c ++ quote_units rest
        | [] => unicode_escape c
        end
      else if is_low_surrogate c then unicode_escape c ++ quote_units rest
      else escape c ++ quote_units rest
  end.

Definition quote (s : jstring) : jstring :=
  DQUOTE :: quote_units s ++ [DQUOTE].

Definition all_some {A} (xs : list (option A)) : option (list A) :=
  fold_right (fun x acc =>
                match x, acc with
                | Some a, Some l => Some (a :: l)
                | _, _ => None
                end) (Some []) xs.

Fixpoint print (v : JsVal) : option jstring :=
  match v with
  | JUndefined => None
  | JNull => Some (u "null")
  | JBool true => Some (u "true")
  | JBool false => Some (u "false")
  | JNumber f => print_number f
  | JString s => Some (quote s)
  | JArray items =>
      match all_some
              (List.map (fun item =>
                           match item with
                           | JUndefined => Some (u "null")
                           | _ => print item
                           end) items) with
      | Some texts => Some (ch "[" :: join texts (u ",") ++ [ch "]"])
      | None => None
      end
  | JObject props =>
      match all_some
              ((fix members (ps : list (jstring * JsVal))
                  : list (option jstring) :=
                  match ps with
                  | [] => []
                  | (k, JUndefined) :: rest => members rest
                  | (k, value) :: rest =>
                      match print value with
                      | Some text => Some (quote k ++ ch ":" :: text)
                      | None => None
                      end :: members rest
                  end) props) with
      | Some texts => Some (ch "{" :: join texts (u ",") ++ [ch "}"])
      | None => None
      end
  end.

Definition stringify (v : JsVal) : JsVal :=
  match print v with
  | Some text => JString text
  | None => JUndefined
  end.

End Printing.

(** ** Calls, answers and states to run the handlers on *)

Module Cases.

Import Tracer.

Definition printer : JsonPrinter := Printing.stringify.

(** A server after [start]: one session, the active one. *)
Definition started (plan : list Fault) : World :=
  mkWorld (mkDb (mkTables [Spec.session_row (u "s1") 990] [] [] [] 0) None)
    plan (str "s1") [] [] [] [] 0 0 fresh_res.

(** The content of an answer that asks for two tools, the second without an
    input, after a line of text. *)
Definition tool_blocks : list JsVal :=
  [JObject [(u "type", str "text"); (u "text", str "Let me look.")];
   JObject [(u "type", str "tool_use"); (u "id", str "toolu_1");
            (u "name", str "Read");
            (u "input", JObject [(u "file_path", str "a.txt")])];
   JObject [(u "type", str "tool_use"); (u "id", str "toolu_2");
            (u "name", str "Bash")]].

Definition tool_answer_body : JsVal :=
  JObject [(u "id", str "msg_2"); (u "content", JArray tool_blocks)].

(** The upstream answering the buffered call with that body. *)
Definition tool_answer : Upstream :=
  mkUpstream 200 (JObject [(u "content-type", str "application/json")])
    [jtext "{'id':'msg_2','content':[{'type':'text','text':'Let me look.'},";
     jtext "{'type':'tool_use','id':'toolu_1','name':'Read','input':{'file_path':'a.txt'}},";
     jtext "{'type':'tool_use','id':'toolu_2','name':'Bash'}]}"].

(** A streamed call and the two chunks the upstream answers it with. *)
Definition streamed_call : Req :=
  mkReq
    (JObject [(u "x-api-key", str "sk-ant-secret")])
    (JObject [(u "model", str "claude-3-5-sonnet-20241022");
              (u "stream", JBool true);
              (u "messages",
               JArray [JObject [(u "role", str "user");
                                (u "content", str "Say hi")]])]).

Definition sse_answer : Upstream :=
  mkUpstream 200 (JObject [(u "content-type", str "text/event-stream")])
    [jtext "event: message_start
data: {'type':'message_start','message':{'usage':{'input_tokens':3,'output_tokens':0}}}

";
     jtext "event: message_delta
data: {'type':'message_delta','usage':{'input_tokens':3,'output_tokens':7}}

"].

(** The server after it has captured the streamed call, and the older copy
    after the same call. *)
Definition streamed : World :=
  snd (capture (printer := printer) (runtime := Samples.runtime (Some sse_answer))
         streamed_call (started [])).

Definition legacy_streamed : World :=
  snd (Legacy.capture (printer := printer)
         (runtime := Samples.runtime (Some sse_answer))
         streamed_call (started [])).

(** The server after a clear. *)
Definition cleared : World :=
  snd (postClear (runtime := Samples.runtime None) (started [])).

(** A store whose response row holds a token count of 2^53, the total of
    the usage the upstream reported. *)
Definition unsafe_count_store : Tables :=
  mkTables [Spec.session_row (u "s1") 990]
    [[(u "id", str "r1"); (u "session_id", str "s1");
      (u "timestamp", JNumber 1000); (u "method", str "POST");
      (u "endpoint", str "/v1/messages"); (u "headers", JNull);
      (u "body", JString (jtext "{'model':'m'}")); (u "stream", JNumber 0)]]
    [[(u "id", str "p1"); (u "request_id", str "r1");
      (u "timestamp", JNumber 1010); (u "status", JNumber 200);
      (u "headers", JNull);
      (u "body",
       JString (jtext "{'usage':{'total_tokens':9007199254740992}}"));
      (u "latency", JNumber 10);
      (u "tokens_used", JNumber 9007199254740992)]]
    [] 0.

End Cases.

(* ===================================================================== *)
(** * Theorems *)
(* ===================================================================== *)

Import Tracer Frame.

(** ** Strings and objects *)

Lemma str_eqb_refl (s : jstring) : str_eqb s s = true.
Proof.
  induction s as [|c s IH]; simpl; [reflexivity|].
  now rewrite N.eqb_refl, IH.
Qed.

Lemma str_eqb_eq (a b : jstring) : str_eqb a b = true <-> a = b.
Proof.
  split.
  - revert b; induction a as [|x a IH]; intros [|y b] H; simpl in H;
      try discriminate; [reflexivity|].
    apply andb_true_iff in H as [Hxy Hab].
    apply N.eqb_eq in Hxy. apply IH in Hab. now subst.
  - intros ->. apply str_eqb_refl.
Qed.

Lemma str_eqb_neq (a b : jstring) : a <> b -> str_eqb a b = false.
Proof.
  intros Hne. destruct (str_eqb a b) eqn:E; [|reflexivity].
  apply str_eqb_eq in E. contradiction.
Qed.

Lemma lookup_set_prop_same k v props : lookup k (set_prop k v props) = v.
Proof.
  induction props as [|[k' v'] rest IH]; simpl.
  - now rewrite str_eqb_refl.
  - destruct (str_eqb k' k) eqn:E; simpl; rewrite E; [reflexivity|exact IH].
Qed.

Lemma lookup_set_prop_other k k' v props :
  k' <> k -> lookup k (set_prop k' v props) = lookup k props.
Proof.
  intros Hne. induction props as [|[k0 v0] rest IH]; simpl.
  - now rewrite (str_eqb_neq _ _ Hne).
  - destruct (str_eqb k0 k') eqn:E; simpl.
    + apply str_eqb_eq in E. subst k0. now rewrite (str_eqb_neq _ _ Hne).
    + destruct (str_eqb k0 k); [reflexivity|exact IH].
Qed.

(** ** Usage Extractor *)

Section UsageExtractor.
Import Tracer.

(** The extractor returns a number on every value. *)
Lemma calculateTokens_returns_number (usage : JsVal) :
  exists n, calculateTokens usage = Ret (JNumber n).
Proof.
  destruct usage as [ | |b|f|s|items|props]; unfold calculateTokens; simpl;
    try (eexists; reflexivity).
  - destruct b; eexists; reflexivity.
  - destruct (PrimFloat.eqb f 0 || PrimFloat.is_nan f); eexists; reflexivity.
  - destruct s; eexists; reflexivity.
  - destruct (finite_number (lookup (u "total_tokens") props)) eqn:E.
    + destruct (lookup (u "total_tokens") props); try discriminate.
      eexists; reflexivity.
    + eexists; reflexivity.
Qed.

(** The extractor computes the contract of the specification. *)
Lemma calculateTokens_spec (usage : JsVal) :
  calculateTokens usage = Ret (JNumber (Spec.tokensOf usage)).
Proof.
  destruct usage as [ | |b|f|s|items|props]; try reflexivity.
  - destruct b; reflexivity.
  - unfold calculateTokens; simpl.
    destruct (PrimFloat.eqb f 0 || PrimFloat.is_nan f); reflexivity.
  - unfold calculateTokens; simpl. destruct s; reflexivity.
  - unfold calculateTokens, Spec.tokensOf, Spec.numeric_field; simpl.
    destruct (lookup (u "total_tokens") props) as [ | |b|t|s|items|ps]; simpl;
      try (destruct (isFinite t); try reflexivity);
      destruct (lookup (u "input_tokens") props);
      destruct (lookup (u "output_tokens") props); reflexivity.
Qed.

(** C1, as amended: on every usage value [calculateTokens] returns a number
    and does not throw.  It returns [total_tokens] when that field is
    present and a finite number; otherwise the sum of [input_tokens] and
    [output_tokens], each taken as 0 when absent or not a number.  On
    [{total_tokens: 42, input_tokens: 1, output_tokens: 1}] it returns 42,
    on [{input_tokens: 10, output_tokens: 5}] 15, on [{}] 0 and on
    [undefined] 0. *)
Theorem calculateTokens_meets_contract :
  (forall usage, calculateTokens usage = Ret (JNumber (Spec.tokensOf usage)))
  /\ calculateTokens
       (JObject [(u "total_tokens", JNumber 42); (u "input_tokens", JNumber 1);
                 (u "output_tokens", JNumber 1)]) = Ret (JNumber 42)
  /\ calculateTokens
       (JObject [(u "input_tokens", JNumber 10); (u "output_tokens", JNumber 5)])
     = Ret (JNumber 15)
  /\ calculateTokens (JObject []) = Ret (JNumber 0)
  /\ calculateTokens JUndefined = Ret (JNumber 0).
Proof.
  split; [exact calculateTokens_spec|].
  repeat split; rewrite calculateTokens_spec; reflexivity.
Qed.

(** C1, as stated, fails: a fractional total is returned as it is, so the
    result need not be an integer, and a total that is a number but not
    finite is not returned. *)
Lemma calculateTokens_not_always_integer :
  JSON_parse (jtext "{'total_tokens': 1.5}")
    = Some (JObject [(u "total_tokens", JNumber 1.5)])
  /\ calculateTokens (JObject [(u "total_tokens", JNumber 1.5)])
     = Ret (JNumber 1.5)
  /\ isInteger 1.5 = false
  /\ JSON_parse (jtext "{'total_tokens': 1e999, 'input_tokens': 1, 'output_tokens': 1}")
     = Some (JObject [(u "total_tokens", JNumber infinity);
                      (u "input_tokens", JNumber 1); (u "output_tokens", JNumber 1)])
  /\ calculateTokens
       (JObject [(u "total_tokens", JNumber infinity);
                 (u "input_tokens", JNumber 1); (u "output_tokens", JNumber 1)])
     = Ret (JNumber 2).
Proof. repeat split; vm_compute; reflexivity. Qed.

(** C10: a [total_tokens] that is not a finite number (NaN, Infinity, a
    numeric string) is ignored and the sum of [input_tokens] and
    [output_tokens] is returned, each 0 when absent or not a number; on
    every value, [null], arrays and primitives included, the result is a
    number and nothing is thrown. *)
Theorem calculateTokens_ignores_unusable_total :
  forall usage,
    (exists n, calculateTokens usage = Ret (JNumber n))
    /\ (forall props,
          usage = JObject props ->
          finite_number (lookup (u "total_tokens") props) = false ->
          calculateTokens usage
          = Ret (JNumber
                   (Spec.or_zero (Spec.numeric_field usage (u "input_tokens"))
                    + Spec.or_zero (Spec.numeric_field usage (u "output_tokens"))))).
Proof.
  intros usage. split; [apply calculateTokens_returns_number|].
  intros props -> Hnf.
  unfold calculateTokens, Spec.numeric_field; simpl. rewrite Hnf.
  destruct (lookup (u "input_tokens") props);
    destruct (lookup (u "output_tokens") props); reflexivity.
Qed.

Lemma calculateTokens_ignores_unusable_total_witness :
  finite_number (JNumber nan) = false
  /\ calculateTokens Samples.nan_total_usage = Ret (JNumber 15).
Proof.
  split; [reflexivity|].
  exact (proj2 (calculateTokens_ignores_unusable_total Samples.nan_total_usage)
           _ eq_refl eq_refl).
Defined.

(** The edge cases of C10, run. *)
Lemma calculateTokens_edge_cases :
  calculateTokens
    (JObject [(u "total_tokens", JNumber infinity); (u "input_tokens", JNumber 10);
              (u "output_tokens", JNumber 5)]) = Ret (JNumber 15)
  /\ calculateTokens
       (JObject [(u "total_tokens", str "42"); (u "input_tokens", JNumber 10);
                 (u "output_tokens", str "5")]) = Ret (JNumber 10)
  /\ calculateTokens JNull = Ret (JNumber 0)
  /\ calculateTokens (JArray [JNumber 1; JNumber 2]) = Ret (JNumber 0)
  /\ calculateTokens (str "usage") = Ret (JNumber 0)
  /\ calculateTokens (JNumber 7) = Ret (JNumber 0)
  /\ calculateTokens (JBool true) = Ret (JNumber 0).
Proof. repeat split; reflexivity. Qed.

End UsageExtractor.

(** ** SSE Reassembler *)

Lemma find_app_none {A} (p : A -> bool) (xs ys : list A) :
  forallb (fun x => negb (p x)) xs = true -> find p (xs ++ ys) = find p ys.
Proof.
  induction xs as [|x xs IH]; simpl; [reflexivity|].
  intros H. apply andb_true_iff in H as [Hx Hxs].
  destruct (p x); [discriminate|]. now apply IH.
Qed.

Lemma forallb_rev {A} (p : A -> bool) (xs : list A) :
  forallb p (rev xs) = forallb p xs.
Proof.
  induction xs as [|x xs IH]; simpl; [reflexivity|].
  rewrite forallb_app, IH. simpl. rewrite andb_true_r. apply andb_comm.
Qed.

Lemma forallb_filter {A} (p q : A -> bool) (xs : list A) :
  forallb p xs = true -> forallb p (filter q xs) = true.
Proof.
  induction xs as [|x xs IH]; simpl; [reflexivity|].
  intros H. apply andb_true_iff in H as [Hx Hxs].
  destruct (q x); simpl; [rewrite Hx|]; auto.
Qed.

(** The last element that satisfies [p] is what [reverse().find(p)] finds. *)
Lemma find_rev_last {A} (p : A -> bool) (pre post : list A) (l : A) :
  p l = true ->
  forallb (fun x => negb (p x)) post = true ->
  find p (rev (pre ++ l :: post)) = Some l.
Proof.
  intros Hl Hpost.
  rewrite rev_app_distr. simpl. rewrite <- app_assoc.
  rewrite find_app_none by now rewrite forallb_rev.
  simpl. now rewrite Hl.
Qed.

Section Reassembler.
Context {parser : JsonParser}.
Import Tracer.

Lemma isJsonLine_nonEmpty (line : jstring) :
  isJsonLine line = true -> nonEmpty line = true.
Proof.
  unfold isJsonLine. destruct line; simpl; [discriminate|reflexivity].
Qed.

Lemma parseStreamingResponse_returns (text : jstring) :
  exists v, parseStreamingResponse text = Ret v.
Proof.
  unfold parseStreamingResponse.
  destruct (find isJsonLine
              (rev (filter nonEmpty (List.map trim (split text [LF])))))
    as [line|]; simpl; [|eexists; reflexivity].
  destruct (match line with [] => false | _ => true end);
    [|eexists; reflexivity].
  unfold json_parse. destruct (JSON_parse line); eexists; reflexivity.
Qed.

(** C8, as amended: the structured final object is what [JSON.parse] makes
    of the last line that, once trimmed, begins with an opening and ends
    with a closing brace, when that line parses; it is [null] when there is
    no such line and when that line does not parse.  Deriving it never
    throws. *)
Theorem parseStreamingResponse_last_braced_line :
  forall text,
    (exists v, parseStreamingResponse text = Ret v)
    /\ (forallb (fun l => negb (isJsonLine l)) (List.map trim (split text [LF]))
        = true ->
        parseStreamingResponse text = Ret JNull)
    /\ (forall pre line post,
          List.map trim (split text [LF]) = pre ++ line :: post ->
          isJsonLine line = true ->
          forallb (fun l => negb (isJsonLine l)) post = true ->
          parseStreamingResponse text
          = Ret (match JSON_parse line with Some v => v | None => JNull end)).
Proof.
  intros text. unfold parseStreamingResponse.
  set (trimmed := List.map trim (split text [LF])).
  split; [|split].
  - apply parseStreamingResponse_returns.
  - intros Hnone.
    replace (rev (filter nonEmpty trimmed))
      with (rev (filter nonEmpty trimmed) ++ []) by apply app_nil_r.
    rewrite find_app_none; [reflexivity|].
    rewrite forallb_rev. now apply forallb_filter.
  - intros pre line post Hsplit Hline Hpost.
    pose proof (isJsonLine_nonEmpty _ Hline) as Hne.
    rewrite Hsplit, filter_app. cbn [filter]. rewrite Hne.
    rewrite find_rev_last; auto using forallb_filter.
    unfold nonEmpty in Hne. rewrite Hne. unfold json_parse.
    destruct (JSON_parse line); reflexivity.
Qed.

End Reassembler.

Lemma parseStreamingResponse_last_braced_line_witness :
  List.map trim (split Samples.two_objects_stream [LF])
  = [u "data: x"; jtext "{'a':1}"] ++ Samples.last_object_line :: [u "data: y"]
  /\ Tracer.isJsonLine Samples.last_object_line = true
  /\ forallb (fun l => negb (Tracer.isJsonLine l)) [u "data: y"] = true
  /\ Tracer.parseStreamingResponse Samples.two_objects_stream
     = Ret (JObject [(u "b", JObject [(u "c", JNumber 2)])]).
Proof.
  assert (Hsplit : List.map trim (split Samples.two_objects_stream [LF])
                   = [u "data: x"; jtext "{'a':1}"]
                     ++ Samples.last_object_line :: [u "data: y"])
    by (vm_compute; reflexivity).
  assert (Hline : Tracer.isJsonLine Samples.last_object_line = true)
    by (vm_compute; reflexivity).
  assert (Hpost : forallb (fun l => negb (Tracer.isJsonLine l)) [u "data: y"] = true)
    by (vm_compute; reflexivity).
  split; [exact Hsplit|]. split; [exact Hline|]. split; [exact Hpost|].
  exact (proj2 (proj2 (parseStreamingResponse_last_braced_line
                         Samples.two_objects_stream))
           _ _ _ Hsplit Hline Hpost).
Defined.

(** C8, as stated, fails: on a stream cut in the middle of its last line the
    earlier line holds a complete JSON object, yet the result is [null]. *)
Lemma parseStreamingResponse_truncated_stream :
  Spec.finalObject Samples.truncated_stream = JObject [(u "a", JNumber 1)]
  /\ Tracer.parseStreamingResponse Samples.truncated_stream = Ret JNull.
Proof. split; vm_compute; reflexivity. Qed.

Section UsageFromSSE.
Context {parser : JsonParser}.
Import Tracer.

(** One record either leaves the usage found so far alone or replaces it,
    whatever it was and whichever kind of record had set it. *)
Lemma scanRecord_keeps_or_replaces (rec : jstring) :
  (forall usage, scanRecord usage rec = Ret usage)
  \/ (exists found, forall usage, scanRecord usage rec = Ret found).
Proof.
  unfold scanRecord.
  destruct (negb (nonEmpty rec)); [left; reflexivity|].
  destruct (fold_left scanLine (split rec [LF]) (JNull, [])) as [evt dataParts].
  destruct (negb (is_string evt (u "message_delta"))
            && negb (is_string evt (u "message_start")));
    [left; reflexivity|].
  unfold json_parse.
  destruct (JSON_parse (join dataParts [LF])) as [parsed|];
    [|left; reflexivity].
  cbn [rbind try_catch].
  destruct (is_string evt (u "message_delta")).
  - destruct parsed as [ | |b|f|s|items|props]; cbn;
      try (left; reflexivity).
    + destruct b; left; reflexivity.
    + destruct (negb _ && false); left; reflexivity.
    + destruct s; left; reflexivity.
    + destruct (truthy (lookup (u "usage") props)).
      * right. eexists. intros usage. reflexivity.
      * left; reflexivity.
  - destruct (is_string evt (u "message_start")); [|left; reflexivity].
    destruct parsed as [ | |b|f|s|items|props]; cbn;
      try (left; reflexivity).
    + destruct b; left; reflexivity.
    + destruct (negb _ && false); left; reflexivity.
    + destruct s; left; reflexivity.
    + destruct (lookup (u "message") props) as [ | |b|f|s|items|mprops]; cbn;
        try (left; reflexivity).
      * destruct b; left; reflexivity.
      * destruct (negb _ && false); left; reflexivity.
      * destruct s; left; reflexivity.
      * destruct (truthy (lookup (u "usage") mprops)).
        -- right. eexists. intros usage. reflexivity.
        -- left; reflexivity.
Qed.

Lemma scanRecords_returns (records : list jstring) (usage : JsVal) :
  exists found, scanRecords records usage = Ret found.
Proof.
  revert usage. induction records as [|rec rest IH]; intros usage; simpl.
  - eexists; reflexivity.
  - destruct (scanRecord_keeps_or_replaces rec) as [H|[x H]];
      rewrite H; simpl; apply IH.
Qed.

Lemma scanRecords_app (xs ys : list jstring) (usage : JsVal) :
  scanRecords (xs ++ ys) usage
  = rbind (scanRecords xs usage) (scanRecords ys).
Proof.
  revert usage. induction xs as [|x xs IH]; intros usage; simpl.
  - reflexivity.
  - destruct (scanRecord usage x); simpl; [apply IH|reflexivity].
Qed.

(** Scanning never throws. *)
Lemma extractUsageFromSSE_returns (sse : jstring) :
  exists usage, extractUsageFromSSE sse = Ret usage.
Proof.
  unfold extractUsageFromSSE.
  destruct (scanRecords_returns (split sse [LF; LF]) JNull) as [x ->].
  eexists; reflexivity.
Qed.

(** The position of a record decides, not its kind: when the last record
    that carries usage replaces the usage found so far, its usage is the
    result, whatever the records before it carried. *)
Lemma extractUsageFromSSE_last_carrier_wins
  (sse : jstring) (before after : list jstring) (rec : jstring) (found : JsVal) :
  split sse [LF; LF] = before ++ rec :: after ->
  (forall usage, scanRecord usage rec = Ret found) ->
  (forall r usage, In r after -> scanRecord usage r = Ret usage) ->
  extractUsageFromSSE sse = Ret found.
Proof.
  intros Hsplit Hrec Hafter. unfold extractUsageFromSSE.
  rewrite Hsplit, scanRecords_app.
  destruct (scanRecords_returns before JNull) as [x ->]. simpl.
  rewrite Hrec. simpl.
  assert (Hkeep : forall rs usage,
             (forall r usage', In r rs -> scanRecord usage' r = Ret usage') ->
             scanRecords rs usage = Ret usage).
  { induction rs as [|r rs IH]; intros usage H; simpl; [reflexivity|].
    rewrite H by (left; reflexivity). simpl.
    apply IH. intros r' usage' Hin. apply H. now right. }
  rewrite Hkeep by exact Hafter. reflexivity.
Qed.

End UsageFromSSE.

(** C3: the specification's example holds.  With a [message_start] record
    followed by a [message_delta] record the derived usage is that of the
    [message_delta] record. *)
Lemma extractUsageFromSSE_start_then_delta :
  Tracer.extractUsageFromSSE
    (jtext "event: message_start
data: {'type':'message_start','message':{'usage':{'input_tokens':3,'output_tokens':0}}}

event: message_delta
data: {'type':'message_delta','usage':{'input_tokens':3,'output_tokens':7}}

")
  = Ret (JObject [(u "input_tokens", JNumber 3); (u "output_tokens", JNumber 7)]).
Proof. vm_compute. reflexivity. Qed.

(** C3: the preference fails when the records come the other way round.
    With a [message_delta] record that carries usage followed by a
    [message_start] record that carries usage, the derived usage is that of
    the [message_start] record. *)
Theorem extractUsageFromSSE_start_after_delta :
  Tracer.extractUsageFromSSE
    (jtext "event: message_delta
data: {'type':'message_delta','usage':{'input_tokens':3,'output_tokens':7}}

event: message_start
data: {'type':'message_start','message':{'usage':{'input_tokens':3,'output_tokens':0}}}

")
  = Ret (JObject [(u "input_tokens", JNumber 3); (u "output_tokens", JNumber 0)]).
Proof. vm_compute. reflexivity. Qed.

(** ** Reading stored bodies back *)

Section StoredBodies.
Context {parser : JsonParser}.
Import Tracer.

Lemma safeParseJSON_returns (maybeJSON : JsVal) :
  exists v, safeParseJSON maybeJSON = Ret v.
Proof.
  unfold safeParseJSON.
  destruct (negb (truthy maybeJSON)); [eexists; reflexivity|].
  destruct maybeJSON; try (eexists; reflexivity).
  destruct (startsWith (trim s) (u "event:")); [eexists; reflexivity|].
  unfold json_parse. destruct (JSON_parse s); eexists; reflexivity.
Qed.

Lemma safeParseJSON_raw_text (text : jstring) :
  text <> [] -> JSON_parse text = None ->
  safeParseJSON (JString text) = Ret (JString text).
Proof.
  intros Hne Hparse. unfold safeParseJSON.
  destruct text as [|c text]; [contradiction|]. cbn [truthy negb].
  destruct (startsWith (trim (c :: text)) (u "event:")); [reflexivity|].
  unfold json_parse. now rewrite Hparse.
Qed.

Lemma lookup_body_spread (a b c d : JsVal) (row : Row) :
  lookup (u "body")
    (spread [(u "body", a); (u "stream", b); (u "response", c);
             (u "toolCalls", d)] row) = a.
Proof.
  cbn [spread].
  rewrite !lookup_set_prop_other by (intros H; vm_compute in H; discriminate).
  apply lookup_set_prop_same.
Qed.

Lemma lookup_response_spread (a b c d : JsVal) (row : Row) :
  lookup (u "response")
    (spread [(u "body", a); (u "stream", b); (u "response", c);
             (u "toolCalls", d)] row) = c.
Proof.
  cbn [spread].
  rewrite !lookup_set_prop_other by (intros H; vm_compute in H; discriminate).
  apply lookup_set_prop_same.
Qed.

(** *** When the store hands its rows back *)

Lemma map_result_same {A} (f : A -> Result A) (xs : list A) :
  Forall (fun x => f x = Ret x) xs -> map_result f xs = Ret xs.
Proof.
  induction 1 as [|x rest Hx _ IH]; simpl; [reflexivity|].
  now rewrite Hx, IH.
Qed.

Lemma stmt_all_handed_back t rows :
  Forall (Expect.handed_back t) rows -> stmt_all t rows = Ret rows.
Proof. apply map_result_same. Qed.

Lemma stmt_get_handed_back t rows :
  Forall (Expect.handed_back t) rows -> stmt_get t rows = Ret (hd_error rows).
Proof.
  intros H. destruct H as [|row rest Hrow _]; [reflexivity|].
  unfold stmt_get. now rewrite Hrow.
Qed.

Lemma Forall_select_where (P : Row -> Prop) col v rows :
  Forall P rows -> Forall P (select_where col v rows).
Proof.
  unfold select_where. rewrite !Forall_forall. intros H x Hx.
  apply filter_In in Hx. now apply H.
Qed.

Lemma insert_desc_In col r sorted x :
  In x (insert_desc col r sorted) -> x = r \/ In x sorted.
Proof.
  induction sorted as [|r' rest IH]; simpl.
  - intros [<-|[]]. now left.
  - destruct (PrimFloat.ltb _ _); simpl.
    + intros [<-|[<-|H]]; auto.
    + intros [<-|H]; auto. destruct (IH H); auto.
Qed.

Lemma Forall_order_by_desc (P : Row -> Prop) col rows :
  Forall P rows -> Forall P (order_by_desc col rows).
Proof.
  unfold order_by_desc. intros H.
  assert (G : forall acc,
            Forall P acc ->
            Forall P (fold_left (fun sorted r => insert_desc col r sorted)
                        rows acc)).
  { induction H as [|r rest Hr _ IH]; intros acc Hacc; simpl; [exact Hacc|].
    apply IH. rewrite Forall_forall in *. intros x Hx.
    destruct (insert_desc_In _ _ _ _ Hx) as [->|Hin]; auto. }
  apply G. constructor.
Qed.

Lemma Forall_firstn {A} (P : A -> Prop) n (xs : list A) :
  Forall P xs -> Forall P (firstn n xs).
Proof.
  intros H. rewrite <- (firstn_skipn n xs) in H.
  now apply Forall_app in H.
Qed.

(** The trace of a request on a store that hands its rows back: the
    response and the tool calls are the rows the selects find. *)
Lemma fullTrace_handed_back (ts : Tables) (trace : Row) :
  Expect.store_handed_back ts ->
  fullTrace ts trace
  = (let response :=
       hd_error (selectResponsesByRequest (lookup (u "id") trace) ts) in
     let toolCalls := selectToolCallsByRequest (lookup (u "id") trace) ts in
     parsedBody <- safeParseJSON (lookup (u "body") trace) ;;
     response' <-
       match response with
       | Some row =>
           body <- safeParseJSON (lookup (u "body") row) ;;
           Ret (JObject (spread [(u "body", body)] row))
       | None => Ret JNull
       end ;;
     Ret (JObject
            (spread
               [(u "body", parsedBody);
                (u "stream",
                 JBool (sql_eqb (lookup (u "stream") trace) (JNumber 1)
                        || match get_opt parsedBody (u "stream") with
                           | JBool true => true
                           | _ => false
                           end));
                (u "response", response');
                (u "toolCalls", JArray (List.map JObject toolCalls))]
               trace)))%js.
Proof.
  intros (_ & Hrs & Htc). unfold fullTrace.
  rewrite stmt_get_handed_back
    by (unfold selectResponsesByRequest; apply Forall_select_where, Hrs).
  cbn [rbind].
  rewrite stmt_all_handed_back
    by (unfold selectToolCallsByRequest; apply Forall_select_where, Htc).
  reflexivity.
Qed.

(** What the query makes of one request row. *)
Lemma fullTrace_returns (ts : Tables) (trace : Row) :
  Expect.store_handed_back ts ->
  exists props,
    fullTrace ts trace = Ret (JObject props)
    /\ safeParseJSON (lookup (u "body") trace) = Ret (lookup (u "body") props)
    /\ match hd_error (selectResponsesByRequest (lookup (u "id") trace) ts) with
       | Some row =>
           exists rprops,
             lookup (u "response") props = JObject rprops
             /\ safeParseJSON (lookup (u "body") row)
                = Ret (lookup (u "body") rprops)
       | None => lookup (u "response") props = JNull
       end.
Proof.
  intros Hstore. rewrite (fullTrace_handed_back _ _ Hstore). cbv zeta.
  destruct (safeParseJSON_returns (lookup (u "body") trace)) as [pb Hpb].
  rewrite Hpb. cbn [rbind].
  destruct (hd_error (selectResponsesByRequest (lookup (u "id") trace) ts))
    as [row|].
  - destruct (safeParseJSON_returns (lookup (u "body") row)) as [rb Hrb].
    rewrite Hrb. cbn [rbind]. eexists. split; [reflexivity|].
    rewrite lookup_body_spread, lookup_response_spread.
    split; [reflexivity|]. eexists. split; [reflexivity|].
    cbn [spread]. now rewrite lookup_set_prop_same.
  - cbn [rbind]. eexists. split; [reflexivity|].
    rewrite lookup_body_spread, lookup_response_spread. split; reflexivity.
Qed.

Lemma map_fullTrace_returns (ts : Tables) (traces : list Row) :
  Expect.store_handed_back ts ->
  exists out, map_result (fullTrace ts) traces = Ret out.
Proof.
  intros Hstore. induction traces as [|trace rest [out IH]]; simpl.
  - eexists; reflexivity.
  - destruct (fullTrace_returns ts trace Hstore) as [props [H _]].
    rewrite H, IH. simpl. eexists; reflexivity.
Qed.

(** On a store that hands its rows back, a stored body that is a non-empty
    text and cannot be parsed is read back as that text, unmodified, for the
    request and for its response; an empty or absent body is read back as
    [null]. *)
Lemma fullTrace_keeps_unparsable_bodies :
  (forall ts trace text,
     Expect.store_handed_back ts ->
     lookup (u "body") trace = JString text ->
     text <> [] -> JSON_parse text = None ->
     exists props,
       fullTrace ts trace = Ret (JObject props)
       /\ lookup (u "body") props = JString text)
  /\ (forall ts trace row text,
        Expect.store_handed_back ts ->
        hd_error (selectResponsesByRequest (lookup (u "id") trace) ts) = Some row ->
        lookup (u "body") row = JString text ->
        text <> [] -> JSON_parse text = None ->
        exists props rprops,
          fullTrace ts trace = Ret (JObject props)
          /\ lookup (u "response") props = JObject rprops
          /\ lookup (u "body") rprops = JString text)
  /\ safeParseJSON (JString []) = Ret JNull
  /\ safeParseJSON JNull = Ret JNull.
Proof.
  split; [|split; [|split; reflexivity]].
  - intros ts trace text Hstore Hbody Hne Hparse.
    destruct (fullTrace_returns ts trace Hstore) as [props [H [Hb _]]].
    exists props. split; [exact H|].
    rewrite Hbody, (safeParseJSON_raw_text _ Hne Hparse) in Hb.
    now injection Hb.
  - intros ts trace row text Hstore Hrow Hbody Hne Hparse.
    destruct (fullTrace_returns ts trace Hstore) as [props [H [_ Hr]]].
    rewrite Hrow in Hr. destruct Hr as [rprops [Hresp Hb]].
    exists props, rprops. split; [exact H|]. split; [exact Hresp|].
    rewrite Hbody, (safeParseJSON_raw_text _ Hne Hparse) in Hb.
    now injection Hb.
Qed.

End StoredBodies.

(** The trace query does not survive a stored INTEGER beyond the safe
    integers: the select of the response throws, and the route sends
    nothing. *)
Lemma getTraces_refuses_unsafe_integer :
  Tracer.read_integer_column 9007199254740992 = Throw RangeError
  /\ fst (Tracer.getTraces JUndefined (Samples.idle Cases.unsafe_count_store []))
     = Throw RangeError
  /\ Tracer.res_json_of
       (Tracer.getTraces JUndefined (Samples.idle Cases.unsafe_count_store []))
     = None.
Proof. repeat split; vm_compute; reflexivity. Qed.

(** C9: the server itself presents [null] for the empty text, which cannot
    be parsed either.  A streamed call whose upstream sent nothing leaves
    such a body behind. *)
Lemma getTraces_empty_body_reads_null :
  JSON_parse [] = None
  /\ Tracer.safeParseJSON (JString []) = Ret JNull
  /\ exists trace response,
       Tracer.res_json_of (Tracer.getTraces JUndefined
                      (Samples.idle Samples.empty_stream_store []))
       = Some (JArray [JObject trace])
       /\ lookup (u "response") trace = JObject response
       /\ lookup (u "body") Samples.empty_response = JString []
       /\ lookup (u "body") response = JNull.
Proof.
  split; [reflexivity|]. split; [reflexivity|].
  eexists. eexists. split; [vm_compute; reflexivity|].
  split; [vm_compute; reflexivity|]. split; reflexivity.
Qed.

(** The older copy of the server presents [null] for every stored body that
    cannot be parsed. *)
Lemma legacy_safeParseJSON_drops_raw_text {parser : JsonParser} (text : jstring) :
  JSON_parse text = None -> Legacy.safeParseJSON (Some text) = Ret JNull.
Proof.
  intros H. unfold Legacy.safeParseJSON, Tracer.json_parse. now rewrite H.
Qed.

(** C9: the older copy loses a stored body that cannot be parsed.  A
    streamed call leaves the text of the stream as the body of its response
    row; the text is not JSON; the trace query of the older copy presents
    [null] in its place, where the trace query of the server presents the
    text as it was stored.  The same holds of a request body that is not
    JSON. *)
Theorem legacy_getTraces_drops_unparsable_body :
  JSON_parse (List.concat (up_chunks Cases.sse_answer)) = None
  /\ List.map (lookup (u "body"))
       (Tracer.responses (Tracer.tables (Tracer.db Cases.legacy_streamed)))
     = [JString (List.concat (up_chunks Cases.sse_answer))]
  /\ (exists trace response,
        Tracer.res_json_of (Legacy.getTraces JUndefined Cases.legacy_streamed)
        = Some (JArray [JObject trace])
        /\ lookup (u "response") trace = JObject response
        /\ lookup (u "body") response = JNull)
  /\ (exists trace response,
        Tracer.res_json_of (Tracer.getTraces JUndefined Cases.streamed)
        = Some (JArray [JObject trace])
        /\ lookup (u "response") trace = JObject response
        /\ lookup (u "body") response
           = JString (List.concat (up_chunks Cases.sse_answer)))
  /\ Legacy.safeParseJSON (Some (u "{model: m")) = Ret JNull
  /\ Tracer.safeParseJSON (str "{model: m") = Ret (str "{model: m").
Proof.
  split; [vm_compute; reflexivity|]. split; [vm_compute; reflexivity|].
  split; [|split; [|split; vm_compute; reflexivity]].
  - eexists. eexists. split; [vm_compute; reflexivity|].
    split; vm_compute; reflexivity.
  - eexists. eexists. split; [vm_compute; reflexivity|].
    split; vm_compute; reflexivity.
Qed.

(** ** The bulk clear *)

Section Clear.
Context {parser : JsonParser} {runtime : Runtime}.
Import Tracer.

(** C6: when no statement fails the clear deletes every row of the four
    tables and then writes a fresh session; when a statement fails before
    the transaction is committed, every row that was there is still there,
    no transaction stays open, and the caller of the clear is told of the
    failure. *)
Theorem postClear_all_or_nothing :
  forall w,
    txn (db w) = None ->
    (quiet 8 (faults w) = true ->
     fst (postClear w) = Ret tt
     /\ tables (db (snd (postClear w)))
        = mkTables
            [Spec.session_row (uuidv4_nth (ids_drawn w)) (Date_now_nth (clock_reads w))]
            [] [] [] (tool_calls_seq (tables (db w)))
     /\ txn (db (snd (postClear w))) = None
     /\ currentSessionId (snd (postClear w)) = JString (uuidv4_nth (ids_drawn w))
     /\ res (snd (postClear w)) = Spec.cleared_reply (res w))
    /\ (forall n kind rest,
          faults w = repeat NoFault n ++ kind :: rest ->
          kind <> NoFault -> n < 7 ->
          fst (postClear w) = Ret tt
          /\ tables (db (snd (postClear w))) = tables (db w)
          /\ txn (db (snd (postClear w))) = None
          /\ currentSessionId (snd (postClear w)) = currentSessionId w
          /\ res (snd (postClear w)) = Spec.clear_failed_reply (res w)).
Proof.
  intros [[ts tx] plan sid cs pub con fwd ids clock r] Htxn.
  cbn in Htxn. subst tx. split.
  - intros Hquiet. cbn in Hquiet.
    do 8 (try (destruct plan as [|[] plan]; cbn in Hquiet;
               try discriminate Hquiet));
      try (destruct plan as [|[] plan]);
      vm_compute; repeat split.
  - intros n kind rest Hplan Hkind Hn. cbn in Hplan. subst plan.
    destruct kind; [contradiction| |];
      do 7 (try (destruct n as [|n]));
      try (exfalso; clear - Hn; lia);
      vm_compute; repeat split.
Qed.

Lemma getTraces_no_requests (sessionId : JsVal) (w : World) :
  requests (tables (db w)) = [] ->
  fst (getTraces sessionId w) = Ret tt
  /\ res_json_of (getTraces sessionId w) = Some (JArray []).
Proof.
  intros Hreq.
  unfold res_json_of, getTraces, mbind, query, selectRequestsBySession,
    selectRecentRequests.
  cbn [fst snd]. rewrite Hreq. destruct (truthy sessionId); split; reflexivity.
Qed.

(** C7: the clear succeeds on every store, on one that is already empty as
    on one that was just cleared, when no statement fails: it leaves one
    fresh session, the active one, and no request, response or tool call;
    it publishes [cleared]; and the trace query that follows returns the
    empty list. *)
Theorem postClear_on_any_store :
  forall w sessionId,
    txn (db w) = None -> quiet 8 (faults w) = true ->
    fst (postClear w) = Ret tt
    /\ res (snd (postClear w)) = Spec.cleared_reply (res w)
    /\ currentSessionId (snd (postClear w)) = JString (uuidv4_nth (ids_drawn w))
    /\ sessions (tables (db (snd (postClear w))))
       = [Spec.session_row (uuidv4_nth (ids_drawn w)) (Date_now_nth (clock_reads w))]
    /\ requests (tables (db (snd (postClear w)))) = []
    /\ responses (tables (db (snd (postClear w)))) = []
    /\ tool_calls (tables (db (snd (postClear w)))) = []
    /\ published (snd (postClear w))
       = published w ++ [JObject [(u "type", str "cleared")]]
    /\ fst (getTraces sessionId (snd (postClear w))) = Ret tt
    /\ res_json_of (getTraces sessionId (snd (postClear w))) = Some (JArray []).
Proof.
  intros [[ts tx] plan sid cs pub con fwd ids clock r] sessionId Htxn Hquiet.
  cbn in Htxn, Hquiet. subst tx.
  match goal with
  | |- _ /\ _ /\ _ /\ _ /\ ?G /\ _ => assert (Hreq : G)
  end.
  { do 8 (try (destruct plan as [|[] plan]; cbn in Hquiet;
               try discriminate Hquiet));
      try (destruct plan as [|[] plan]);
      vm_compute; reflexivity. }
  do 4 (split;
        [ clear Hreq;
          do 8 (try (destruct plan as [|[] plan]; cbn in Hquiet;
                     try discriminate Hquiet));
          try (destruct plan as [|[] plan]);
          vm_compute; reflexivity | ]).
  split; [exact Hreq|].
  do 3 (split;
        [ clear Hreq;
          do 8 (try (destruct plan as [|[] plan]; cbn in Hquiet;
                     try discriminate Hquiet));
          try (destruct plan as [|[] plan]);
          vm_compute; reflexivity | ]).
  apply getTraces_no_requests; exact Hreq.
Qed.

End Clear.

Lemma postClear_all_or_nothing_witness :
  txn (db Samples.interrupted_clear) = None
  /\ faults Samples.interrupted_clear = repeat NoFault 3 ++ StmtError :: []
  /\ StmtError <> NoFault
  /\ 3 < 7
  /\ tables (db (snd (Tracer.postClear (runtime := Samples.runtime None)
                        Samples.interrupted_clear)))
     = Samples.empty_stream_store
  /\ Tracer.res_json_of (Tracer.postClear (runtime := Samples.runtime None)
                           Samples.interrupted_clear)
     = Some (JObject [(u "ok", JBool false);
                      (u "error", str "Failed to clear traces")])
  /\ quiet 8 (faults Samples.quiet_clear) = true
  /\ tables (db (snd (Tracer.postClear (runtime := Samples.runtime None)
                        Samples.quiet_clear)))
     = mkTables [Spec.session_row (u "id-0") 1000] [] [] [] 0.
Proof.
  assert (Htxn : txn (db Samples.interrupted_clear) = None) by reflexivity.
  assert (Hplan : faults Samples.interrupted_clear
                  = repeat NoFault 3 ++ StmtError :: []) by reflexivity.
  assert (Hkind : StmtError <> NoFault) by discriminate.
  assert (Hn : 3 < 7) by lia.
  assert (Hquiet : quiet 8 (faults Samples.quiet_clear) = true) by reflexivity.
  pose proof (proj2 (postClear_all_or_nothing (runtime := Samples.runtime None)
                       Samples.interrupted_clear Htxn) _ _ _ Hplan Hkind Hn)
    as (_ & Htables & _ & _ & Hres).
  pose proof (proj1 (postClear_all_or_nothing (runtime := Samples.runtime None)
                       Samples.quiet_clear eq_refl) Hquiet)
    as (_ & Hcleared & _).
  split; [exact Htxn|]. split; [exact Hplan|]. split; [exact Hkind|].
  split; [exact Hn|]. split; [exact Htables|].
  split; [unfold Tracer.res_json_of; rewrite Hres; reflexivity|].
  split; [exact Hquiet|exact Hcleared].
Defined.

Lemma postClear_on_any_store_witness :
  txn (db Cases.cleared) = None
  /\ quiet 8 (faults Cases.cleared) = true
  /\ sessions (tables (db Cases.cleared)) = [Spec.session_row (u "id-0") 1000]
  /\ fst (Tracer.postClear (runtime := Samples.runtime None) Cases.cleared)
     = Ret tt
  /\ sessions (tables (db (snd (Tracer.postClear
                                  (runtime := Samples.runtime None)
                                  Cases.cleared))))
     = [Spec.session_row (u "id-1") 1005]
  /\ Tracer.res_json_of
       (Tracer.getTraces JUndefined
          (snd (Tracer.postClear (runtime := Samples.runtime None)
                  Cases.cleared)))
     = Some (JArray []).
Proof.
  assert (Htxn : txn (db Cases.cleared) = None) by reflexivity.
  assert (Hquiet : quiet 8 (faults Cases.cleared) = true) by reflexivity.
  destruct (postClear_on_any_store (runtime := Samples.runtime None)
              Cases.cleared JUndefined Htxn Hquiet)
    as (Hfst & _ & _ & Hsessions & _ & _ & _ & _ & _ & Hjson).
  split; [exact Htxn|]. split; [exact Hquiet|]. split; [reflexivity|].
  split; [exact Hfst|]. split; [rewrite Hsessions; reflexivity|exact Hjson].
Defined.

(** ** Rules for frames *)

Section FrameRules.
Context {runtime : Runtime}.
Context (R : World -> World -> Prop) {framing : Framing R}.

Lemma respects_untouched {A} (c : M A) :
  (forall w, snd (c w) = w) -> respects R c.
Proof. intros H w. rewrite H. apply framing_refl. Qed.

Lemma respects_mret {A} (a : A) : respects R (mret a).
Proof. now apply respects_untouched. Qed.

Lemma respects_lift {A} (r : Result A) : respects R (lift r).
Proof. now apply respects_untouched. Qed.

Lemma respects_get_currentSessionId : respects R get_currentSessionId.
Proof. now apply respects_untouched. Qed.

Lemma respects_uuidv4 : respects R uuidv4.
Proof. intros w. apply framing_ids. Qed.

Lemma respects_Date_now : respects R Date_now.
Proof. intros w. apply framing_clock. Qed.

Lemma respects_mbind {A B} (c : M A) (k : A -> M B) :
  respects R c -> (forall a, respects R (k a)) -> respects R (mbind c k).
Proof.
  intros Hc Hk w. unfold mbind. specialize (Hc w).
  destruct (c w) as [[a|e] w1]; cbn [snd] in *; [|exact Hc].
  eapply framing_trans; [exact Hc|apply Hk].
Qed.

Lemma respects_mtry {A} (body : M A) (handler : Exn -> M A) :
  respects R body -> (forall e, respects R (handler e)) ->
  respects R (mtry body handler).
Proof.
  intros Hc Hk w. unfold mtry. specialize (Hc w).
  destruct (body w) as [[a|e] w1]; cbn [snd] in *; [exact Hc|].
  eapply framing_trans; [exact Hc|apply Hk].
Qed.

Lemma respects_for_each {A} (xs : list A) (body : A -> M unit) :
  (forall x, respects R (body x)) -> respects R (for_each xs body).
Proof.
  intros Hbody. induction xs as [|x xs IH]; simpl.
  - apply respects_mret.
  - apply respects_mbind; auto.
Qed.

End FrameRules.


(** The four relations are framings. *)

#[local] Instance bookkeeping_framing : Framing bookkeeping.
Proof.
  split.
  - intros w. repeat split. exists []. now rewrite app_nil_r.
  - intros w1 w2 w3 (Hr & Hf & m & Hp) (Hr' & Hf' & m' & Hp').
    split; [now rewrite Hr'|]. split; [now rewrite Hf'|].
    exists (m ++ m'). now rewrite Hp', Hp, app_assoc.
  - intros n w. repeat split. exists []. now rewrite app_nil_r.
  - intros n w. repeat split. exists []. now rewrite app_nil_r.
Qed.

#[local] Instance silent_framing : Framing silent.
Proof.
  split.
  - intros w. repeat split.
  - intros w1 w2 w3 (Hr & Hf & Hp) (Hr' & Hf' & Hp').
    split; [now rewrite Hr'|]. split; [now rewrite Hf'|now rewrite Hp'].
  - intros n w. repeat split.
  - intros n w. repeat split.
Qed.

#[local] Instance table_kept_framing (t : Table) : Framing (table_kept t).
Proof.
  split.
  - intros w Htxn. now split.
  - intros w1 w2 w3 H12 H23 Htxn.
    destruct (H12 Htxn) as [Htxn2 Hrows2].
    destruct (H23 Htxn2) as [Htxn3 Hrows3].
    split; [exact Htxn3|]. now rewrite Hrows3.
  - intros n w Htxn. now split.
  - intros n w Htxn. now split.
Qed.

#[local] Instance log_grows_framing : Framing log_grows.
Proof.
  split.
  - intros w. exists []. now rewrite app_nil_r.
  - intros w1 w2 w3 [m Hm] [m' Hm'].
    exists (m ++ m'). now rewrite Hm', Hm, app_assoc.
  - intros n w. exists []. now rewrite app_nil_r.
  - intros n w. exists []. now rewrite app_nil_r.
Qed.

(** The primitive effects, relation by relation. *)

Section Primitives.
Context {runtime : Runtime}.

Lemma bookkeeping_console_error m e : respects bookkeeping (console_error m e).
Proof. intros w. cbn. repeat split. exists []. now rewrite app_nil_r. Qed.

Lemma bookkeeping_broadcast message : respects bookkeeping (broadcast message).
Proof. intros w. cbn. repeat split. now exists [message]. Qed.

Lemma bookkeeping_statement effect : respects bookkeeping (statement effect).
Proof.
  intros w. unfold statement.
  destruct (hd NoFault (faults w)); [destruct (effect _)| |]; cbn;
    repeat split; exists []; now rewrite app_nil_r.
Qed.

Lemma silent_console_error m e : respects silent (console_error m e).
Proof. intros w. cbn. repeat split. Qed.

Lemma silent_statement effect : respects silent (statement effect).
Proof.
  intros w. unfold statement.
  destruct (hd NoFault (faults w)); [destruct (effect _)| |]; cbn;
    repeat split.
Qed.

Lemma table_kept_outside_store t {A} (c : M A) :
  (forall w, db (snd (c w)) = db w) -> respects (table_kept t) c.
Proof. intros H w Htxn. rewrite H. now split. Qed.

Lemma table_kept_console_error t m e :
  respects (table_kept t) (console_error m e).
Proof. now apply table_kept_outside_store. Qed.

Lemma table_kept_broadcast t message :
  respects (table_kept t) (broadcast message).
Proof. now apply table_kept_outside_store. Qed.

Lemma table_kept_update_res t f : respects (table_kept t) (update_res f).
Proof. now apply table_kept_outside_store. Qed.

Lemma table_kept_fetch t headers body :
  respects (table_kept t) (fetch headers body).
Proof.
  apply table_kept_outside_store. intros w. unfold fetch.
  destruct (fetch_upstream headers body); reflexivity.
Qed.

Lemma rows_of_insert_other sch stmt args t ts :
  into stmt <> t ->
  rows_of t (insert_row sch stmt args ts) = rows_of t ts.
Proof.
  intros Hne. unfold insert_row.
  destruct (into stmt), t; try contradiction; reflexivity.
Qed.

(** An insert into another table. *)
Lemma table_kept_run_insert t sch stmt args :
  into stmt <> t -> respects (table_kept t) (run_insert sch stmt args).
Proof.
  intros Hne w Htxn. unfold run_insert, statement.
  destruct (hd NoFault (faults w)); cbn.
  - split; [exact Htxn|]. now apply rows_of_insert_other.
  - now split.
  - unfold abort. cbn. rewrite Htxn. now split.
Qed.

Lemma log_grows_console_error m e : respects log_grows (console_error m e).
Proof. intros w. now exists [(m, e)]. Qed.

Lemma log_grows_outside_log {A} (c : M A) :
  (forall w, console (snd (c w)) = console w) -> respects log_grows c.
Proof. intros H w. exists []. now rewrite H, app_nil_r. Qed.

Lemma log_grows_broadcast message : respects log_grows (broadcast message).
Proof. now apply log_grows_outside_log. Qed.

Lemma log_grows_update_res f : respects log_grows (update_res f).
Proof. now apply log_grows_outside_log. Qed.

Lemma log_grows_fetch headers body : respects log_grows (fetch headers body).
Proof.
  apply log_grows_outside_log. intros w. unfold fetch.
  destruct (fetch_upstream headers body); reflexivity.
Qed.

Lemma log_grows_statement effect : respects log_grows (statement effect).
Proof.
  apply log_grows_outside_log. intros w. unfold statement.
  destruct (hd NoFault (faults w)); [destruct (effect _)| |]; reflexivity.
Qed.

End Primitives.

Create HintDb frame.
#[local] Hint Resolve respects_mret respects_lift respects_get_currentSessionId
  respects_uuidv4 respects_Date_now
  bookkeeping_console_error bookkeeping_broadcast bookkeeping_statement
  silent_console_error silent_statement
  table_kept_console_error table_kept_broadcast table_kept_update_res
  table_kept_fetch
  log_grows_console_error log_grows_broadcast log_grows_update_res
  log_grows_fetch log_grows_statement : frame.

(** The rules, applied along the structure of a handler. *)
Ltac frame :=
  repeat first
    [ solve [auto with frame typeclass_instances]
    | apply table_kept_run_insert; discriminate
    | apply respects_mbind; [exact _| |intros ?]
    | apply respects_mtry; [exact _| |intros ?]
    | apply respects_for_each; [exact _|intros ?]
    | progress cbn [fst snd]
    | match goal with
      | |- respects _ (if ?b then _ else _) => destruct b
      | |- respects _ (match ?x with _ => _ end) => destruct x
      end ].

(** The handlers, relation by relation. *)

Section Handlers.
Context {parser : JsonParser} {printer : JsonPrinter} {runtime : Runtime}.

Lemma bookkeeping_extractAndStoreToolCalls requestId responseData :
  respects bookkeeping (extractAndStoreToolCalls requestId responseData).
Proof. unfold extractAndStoreToolCalls, run, run_insert. frame. Qed.

Lemma table_kept_extractAndStoreToolCalls t requestId responseData :
  t <> ToolCalls ->
  respects (table_kept t) (extractAndStoreToolCalls requestId responseData).
Proof.
  intros Hne. unfold extractAndStoreToolCalls, run. frame.
  apply table_kept_run_insert. cbn. congruence.
Qed.

Lemma log_grows_extractAndStoreToolCalls requestId responseData :
  respects log_grows (extractAndStoreToolCalls requestId responseData).
Proof. unfold extractAndStoreToolCalls, run, run_insert. frame. Qed.

Lemma table_kept_handleStreamingRequest t req requestId :
  respects (table_kept t) (handleStreamingRequest req requestId).
Proof. unfold handleStreamingRequest, res_setHeader. frame. Qed.

Lemma log_grows_handleStreamingRequest req requestId :
  respects log_grows (handleStreamingRequest req requestId).
Proof. unfold handleStreamingRequest, res_setHeader. frame. Qed.

Lemma table_kept_onData t chunks fullResponse :
  respects (table_kept t) (onData chunks fullResponse).
Proof.
  revert fullResponse. induction chunks as [|c rest IH]; intros full; simpl.
  - frame.
  - unfold res_write. frame.
Qed.

Lemma log_grows_onData chunks fullResponse :
  respects log_grows (onData chunks fullResponse).
Proof.
  revert fullResponse. induction chunks as [|c rest IH]; intros full; simpl.
  - frame.
  - unfold res_write. frame.
Qed.

End Handlers.

#[local] Hint Resolve bookkeeping_extractAndStoreToolCalls
  log_grows_extractAndStoreToolCalls table_kept_handleStreamingRequest
  log_grows_handleStreamingRequest table_kept_onData log_grows_onData : frame.

Section MoreHandlers.
Context {parser : JsonParser} {printer : JsonPrinter} {runtime : Runtime}.

Lemma requests_kept_handleRegularRequest req requestId :
  respects (table_kept Requests) (handleRegularRequest req requestId).
Proof.
  unfold handleRegularRequest, run, res_status_json. frame.
  apply table_kept_extractAndStoreToolCalls; discriminate.
Qed.

Lemma log_grows_handleRegularRequest req requestId :
  respects log_grows (handleRegularRequest req requestId).
Proof. unfold handleRegularRequest, run, run_insert, res_status_json. frame. Qed.

Lemma requests_kept_onEnd requestId startTime fullResponse :
  respects (table_kept Requests) (onEnd requestId startTime fullResponse).
Proof. unfold onEnd, run, res_end. frame. Qed.

Lemma log_grows_onEnd requestId startTime fullResponse :
  respects log_grows (onEnd requestId startTime fullResponse).
Proof. unfold onEnd, run, run_insert, res_end. frame. Qed.

End MoreHandlers.

#[local] Hint Resolve requests_kept_handleRegularRequest
  log_grows_handleRegularRequest requests_kept_onEnd log_grows_onEnd : frame.

(** A captured call leaves no transaction open and does not touch the
    sessions, so that a clear can follow it. *)
Lemma capture_keeps_sessions
  {parser : JsonParser} {printer : JsonPrinter} {runtime : Runtime}
  (req : Req) (w : World) :
  txn (db w) = None ->
  txn (db (snd (capture req w))) = None
  /\ sessions (tables (db (snd (capture req w)))) = sessions (tables (db w)).
Proof.
  assert (H : respects (table_kept Sessions) (capture req)).
  { unfold capture, postMessages, handleRegularRequest, onEnd, run,
      res_status_json, res_end.
    frame; apply table_kept_extractAndStoreToolCalls; discriminate. }
  exact (H w).
Qed.

(** ** Persistence failures and the caller *)

Section Caller.
Context {parser : JsonParser} {printer : JsonPrinter} {runtime : Runtime}.

(** Stepping through a handler. *)
Lemma mbind_Date_now {B} (k : float -> M B) w :
  mbind Date_now k w
  = k (Date_now_nth (clock_reads w)) (with_clock_reads (S (clock_reads w)) w).
Proof. reflexivity. Qed.

Lemma mbind_uuidv4 {B} (k : JsVal -> M B) w :
  mbind uuidv4 k w
  = k (JString (uuidv4_nth (ids_drawn w))) (with_ids_drawn (S (ids_drawn w)) w).
Proof. reflexivity. Qed.

Lemma mbind_lift {A B} (r : Result A) (k : A -> M B) w :
  mbind (lift r) k w
  = match r with Ret a => k a w | Throw e => (Throw e, w) end.
Proof. destruct r; reflexivity. Qed.

Lemma mbind_fetch {B} headers body (k : Upstream -> M B) w :
  mbind (fetch headers body) k w
  = let w' := with_forwarded (forwarded w ++ [(headers, body)]) w in
    match fetch_upstream headers body with
    | Some response => k response w'
    | None => (Throw FetchError, w')
    end.
Proof. unfold mbind, fetch. destruct (fetch_upstream headers body); reflexivity. Qed.

Lemma mbind_broadcast {B} message (k : unit -> M B) w :
  mbind (broadcast message) k w
  = k tt (snd (broadcast message w)).
Proof. reflexivity. Qed.

Lemma mbind_update_res {B} f (k : unit -> M B) w :
  mbind (update_res f) k w = k tt (with_res (f (res w)) w).
Proof. reflexivity. Qed.

Lemma mbind_mret {A B} (a : A) (k : A -> M B) w : mbind (mret a) k w = k a w.
Proof. reflexivity. Qed.

(** A [try] whose handler only logs returns, whatever its body does. *)
Lemma mtry_logged_returns (body : M unit) message w :
  fst (mtry body (fun e => console_error message e) w) = Ret tt.
Proof.
  unfold mtry. destruct (body w) as [[[]|e] w1]; reflexivity.
Qed.

Lemma mbind_returns {B} (c : M unit) (k : unit -> M B) w :
  fst (c w) = Ret tt -> mbind c k w = k tt (snd (c w)).
Proof. unfold mbind. destruct (c w) as [r w1]. cbn. now intros ->. Qed.

Lemma mbind_assoc {A B C} (c : M A) (k : A -> M B) (k' : B -> M C) w :
  mbind (mbind c k) k' w = mbind c (fun a => mbind (k a) k') w.
Proof. unfold mbind. destruct (c w) as [[a|e] w1]; reflexivity. Qed.

(** One step inside a [try]. *)
Lemma mtry_step {A B} (c : M A) (k : A -> M B) (h : Exn -> M B) w a w' :
  c w = (Ret a, w') -> mtry (mbind c k) h w = mtry (k a) h w'.
Proof. intros H. unfold mtry, mbind. now rewrite H. Qed.

Lemma mtry_returns (body : M unit) (handler : Exn -> M unit) w :
  (forall e w0, fst (handler e w0) = Ret tt) ->
  fst (mtry body handler w) = Ret tt.
Proof.
  intros H. unfold mtry. destruct (body w) as [[[]|e] w1]; [reflexivity|].
  apply H.
Qed.

Lemma run_insert_done sch stmt args w :
  hd NoFault (faults w) = NoFault ->
  run_insert sch stmt args w
  = (Ret tt,
     with_db (mkDb (insert_row sch stmt args (tables (db w))) (txn (db w)))
       (with_faults (tl (faults w)) w)).
Proof. intros H. unfold run_insert, statement. now rewrite H. Qed.

(** A computation that returns and respects [R] hands a state related by [R]
    to what follows it. *)
Lemma mbind_respects {B} (R : World -> World -> Prop) (c : M unit)
  (k : unit -> M B) w :
  respects R c -> (forall w0, fst (c w0) = Ret tt) ->
  exists w1, mbind c k w = k tt w1 /\ R w w1.
Proof.
  intros Hb Hr. exists (snd (c w)). split; [|apply Hb].
  now apply mbind_returns.
Qed.

(** The buffered path, as the caller and the upstream see it. *)
Lemma handleRegularRequest_caller req requestId w :
  forwarded (snd (handleRegularRequest req requestId w))
  = Spec.upstream_calls req (forwarded w)
  /\ (exists more,
        published (snd (handleRegularRequest req requestId w))
        = published w ++ more)
  /\ match buildAnthropicHeaders (req_headers req) with
     | Throw e =>
         fst (handleRegularRequest req requestId w) = Throw e
         /\ res (snd (handleRegularRequest req requestId w)) = res w
     | Ret headers =>
         match fetch_upstream headers (JSON_stringify (req_body req)) with
         | None =>
             fst (handleRegularRequest req requestId w) = Throw FetchError
             /\ res (snd (handleRegularRequest req requestId w)) = res w
         | Some upstream =>
             match response_json upstream with
             | Throw e =>
                 fst (handleRegularRequest req requestId w) = Throw e
                 /\ res (snd (handleRegularRequest req requestId w)) = res w
             | Ret data =>
                 fst (handleRegularRequest req requestId w) = Ret tt
                 /\ res (snd (handleRegularRequest req requestId w))
                    = mkRes (Some (JNumber (up_status upstream)))
                        (res_headers (res w)) (res_written (res w))
                        (Some data) true
             end
         end
     end.
Proof.
  unfold handleRegularRequest, Spec.upstream_calls.
  rewrite mbind_Date_now, mbind_lift.
  destruct (buildAnthropicHeaders (req_headers req)) as [headers|e].
  2: { cbn. repeat split. exists []. now rewrite app_nil_r. }
  rewrite mbind_fetch. cbv zeta.
  destruct (fetch_upstream headers (JSON_stringify (req_body req)))
    as [upstream|].
  2: { cbn. repeat split. exists []. now rewrite app_nil_r. }
  rewrite mbind_lift.
  destruct (response_json upstream) as [data|e].
  2: { cbn. repeat split. exists []. now rewrite app_nil_r. }
  rewrite mbind_Date_now.
  match goal with
  | |- context [mbind (mtry ?b ?h) ?k ?w] =>
      assert (Hb : respects bookkeeping (mtry b h))
        by (unfold run, run_insert; frame);
      destruct (mbind_respects bookkeeping (mtry b h) k w Hb
                  (fun w0 => mtry_logged_returns _ _ w0))
        as (w1 & Heq & Hres & Hfwd & more & Hpub);
      rewrite Heq; clear Heq Hb
  end.
  destruct (calculateTokens_returns_number (get_opt data (u "usage")))
    as [tokens Htokens].
  rewrite mbind_lift, Htokens, mbind_broadcast.
  cbn. rewrite Hres, Hfwd, Hpub. cbn.
  repeat split. eexists. rewrite <- app_assoc. reflexivity.
Qed.

(** The streaming path up to the point where the handler returns. *)
Lemma handleStreamingRequest_caller req requestId w :
  forwarded (snd (handleStreamingRequest req requestId w))
  = Spec.upstream_calls req (forwarded w)
  /\ published (snd (handleStreamingRequest req requestId w)) = published w
  /\ res (snd (handleStreamingRequest req requestId w))
     = Spec.event_stream_headers (res w)
  /\ match buildAnthropicHeaders (req_headers req) with
     | Throw e => fst (handleStreamingRequest req requestId w) = Throw e
     | Ret headers =>
         match fetch_upstream headers (JSON_stringify (req_body req)) with
         | None => fst (handleStreamingRequest req requestId w) = Throw FetchError
         | Some upstream =>
             exists t,
               fst (handleStreamingRequest req requestId w)
               = Ret (mkOpenStream t (up_chunks upstream))
         end
     end.
Proof.
  unfold handleStreamingRequest, Spec.upstream_calls, res_setHeader.
  rewrite mbind_Date_now. rewrite !mbind_update_res. rewrite mbind_lift.
  destruct (buildAnthropicHeaders (req_headers req)) as [headers|e].
  2: { cbn. unfold Spec.event_stream_headers. cbn.
       rewrite <- !app_assoc. repeat split. }
  rewrite mbind_fetch. cbv zeta.
  destruct (fetch_upstream headers (JSON_stringify (req_body req)))
    as [upstream|]; cbn; unfold Spec.event_stream_headers; cbn;
    rewrite <- !app_assoc; repeat split.
  eexists; reflexivity.
Qed.

Lemma onData_caller chunks fullResponse w :
  fst (onData chunks fullResponse w) = Ret (fullResponse ++ List.concat chunks)
  /\ res (snd (onData chunks fullResponse w))
     = mkRes (res_status (res w)) (res_headers (res w))
         (res_written (res w) ++ chunks) (res_json (res w)) (res_ended (res w))
  /\ forwarded (snd (onData chunks fullResponse w)) = forwarded w
  /\ published (snd (onData chunks fullResponse w)) = published w.
Proof.
  revert fullResponse w.
  induction chunks as [|chunk rest IH]; intros fullResponse w; simpl.
  - rewrite !app_nil_r. destruct (res w). repeat split.
  - unfold res_write. rewrite mbind_update_res.
    destruct (IH (fullResponse ++ chunk)
                (with_res (mkRes (res_status (res w)) (res_headers (res w))
                             (res_written (res w) ++ [chunk])
                             (res_json (res w)) (res_ended (res w))) w))
      as (Hfst & Hres & Hfwd & Hpub).
    rewrite Hfst, Hres, Hfwd, Hpub. cbn.
    rewrite <- !app_assoc. repeat split.
Qed.

(** The end of the stream, as the caller and the upstream see it. *)
Lemma onEnd_caller requestId startTime fullResponse w :
  fst (onEnd requestId startTime fullResponse w) = Ret tt
  /\ res (snd (onEnd requestId startTime fullResponse w))
     = mkRes (res_status (res w)) (res_headers (res w)) (res_written (res w))
         (res_json (res w)) true
  /\ forwarded (snd (onEnd requestId startTime fullResponse w)) = forwarded w
  /\ exists more,
       published (snd (onEnd requestId startTime fullResponse w))
       = published w ++ more.
Proof.
  unfold onEnd. rewrite mbind_Date_now.
  match goal with
  | |- context [mbind (mtry ?b ?h) ?k ?w] =>
      assert (Hb : respects bookkeeping (mtry b h))
        by (unfold run, run_insert; frame);
      assert (Hr : forall w0, fst (mtry b h w0) = Ret tt);
      [ intros w0; apply mtry_returns; intros e w1
      | destruct (mbind_respects bookkeeping (mtry b h) k w Hb Hr)
          as (w1 & Heq & Hres & Hfwd & more & Hpub);
        rewrite Heq; clear Heq Hb Hr ]
  end.
  - destruct (parseStreamingResponse_returns fullResponse) as [pf Hpf].
    destruct (extractUsageFromSSE_returns fullResponse) as [us Hus].
    destruct (calculateTokens_returns_number us) as [tokens Htokens].
    unfold mbind, console_error, lift, broadcast.
    rewrite Hpf, Hus, Htokens. reflexivity.
  - cbn. rewrite Hres, Hfwd, Hpub. cbn. repeat split. now exists more.
Qed.

(** One captured call, as the caller, the upstream and the observers see
    it, whatever happens to the statements against the store. *)
Lemma capture_caller req w :
  fst (capture req w) = Ret tt
  /\ res (snd (capture req w)) = Spec.forwarded_reply req (res w)
  /\ forwarded (snd (capture req w)) = Spec.upstream_calls req (forwarded w)
  /\ exists later,
       published (snd (capture req w))
       = published w
         ++ Spec.request_event req (uuidv4_nth (ids_drawn w))
              (Date_now_nth (clock_reads w)) :: later.
Proof.
  destruct (capture req w) as [r wf] eqn:Hrun. cbn [fst snd].
  unfold capture, postMessages in Hrun.
  rewrite mbind_assoc, mbind_uuidv4 in Hrun.
  rewrite mbind_assoc, mbind_Date_now in Hrun.
  rewrite mbind_assoc in Hrun.
  match type of Hrun with
  | mbind (mtry ?b ?h) ?k ?w0 = _ =>
      assert (Hb : respects silent (mtry b h))
        by (unfold run, run_insert; frame);
      destruct (mbind_respects silent (mtry b h) k w0 Hb
                  (fun w1 => mtry_logged_returns _ _ w1))
        as (w1 & Heq & Hres1 & Hfwd1 & Hpub1);
      rewrite Heq in Hrun; clear Heq Hb
  end.
  cbn in Hres1, Hfwd1, Hpub1.
  rewrite mbind_assoc, mbind_broadcast in Hrun.
  rewrite mbind_assoc in Hrun.
  set (w2 := snd (broadcast _ w1)) in Hrun.
  assert (Hres2 : res w2 = res w) by (subst w2; cbn; exact Hres1).
  assert (Hfwd2 : forwarded w2 = forwarded w) by (subst w2; cbn; exact Hfwd1).
  assert (Hpub2 : published w2
                  = published w
                    ++ [Spec.request_event req (uuidv4_nth (ids_drawn w))
                          (Date_now_nth (clock_reads w))])
    by (subst w2; cbn; rewrite Hpub1; reflexivity).
  clearbody w2. clear w1 Hres1 Hfwd1 Hpub1.
  unfold Spec.forwarded_reply.
  unfold mbind at 1, mtry in Hrun.
  destruct (truthy (get_opt (req_body req) (u "stream"))).
  - (* the streaming path *)
    unfold mbind at 1 in Hrun.
    pose proof (handleStreamingRequest_caller req
                  (JString (uuidv4_nth (ids_drawn w))) w2)
      as (Hfwd3 & Hpub3 & Hres3 & Hout).
    destruct (handleStreamingRequest req (JString (uuidv4_nth (ids_drawn w))) w2)
      as [[stream|e] w3]; cbn [fst snd] in *.
    + destruct (buildAnthropicHeaders (req_headers req)) as [headers|e];
        [|discriminate Hout].
      destruct (fetch_upstream headers (JSON_stringify (req_body req)))
        as [upstream|]; [|discriminate Hout].
      destruct Hout as [t Hout]. injection Hout as ->. cbn in Hrun.
      unfold mbind in Hrun.
      pose proof (onData_caller (up_chunks upstream) [] w3)
        as (Hfst4 & Hres4 & Hfwd4 & Hpub4).
      destruct (onData (up_chunks upstream) [] w3) as [full w4].
      cbn [fst snd] in *. subst full.
      pose proof (onEnd_caller (JString (uuidv4_nth (ids_drawn w))) t
                    ([] ++ List.concat (up_chunks upstream)) w4)
        as (Hfst5 & Hres5 & Hfwd5 & more & Hpub5).
      rewrite Hrun in Hfst5, Hres5, Hfwd5, Hpub5. cbn [fst snd] in *.
      split; [exact Hfst5|].
      split; [rewrite Hres5, Hres4, Hres3, Hres2; reflexivity|].
      split; [rewrite Hfwd5, Hfwd4, Hfwd3, Hfwd2; reflexivity|].
      exists more. rewrite Hpub5, Hpub4, Hpub3, Hpub2, <- app_assoc.
      reflexivity.
    + cbn in Hrun. injection Hrun as <- <-. cbn.
      rewrite Hres3, Hfwd3, Hpub3, Hres2, Hfwd2, Hpub2.
      unfold Spec.upstream_calls in *.
      destruct (buildAnthropicHeaders (req_headers req)) as [headers|e'].
      * destruct (fetch_upstream headers (JSON_stringify (req_body req)))
          as [upstream|]; [destruct Hout; discriminate|].
        injection Hout as ->. repeat split. now exists [].
      * injection Hout as ->. repeat split. now exists [].
  - (* the buffered path *)
    unfold mbind at 1 in Hrun.
    pose proof (handleRegularRequest_caller req
                  (JString (uuidv4_nth (ids_drawn w))) w2)
      as (Hfwd3 & (more & Hpub3) & Hout).
    destruct (handleRegularRequest req (JString (uuidv4_nth (ids_drawn w))) w2)
      as [[[]|e] w3]; cbn [fst snd] in *.
    + cbn in Hrun. injection Hrun as <- <-.
      destruct (buildAnthropicHeaders (req_headers req)) as [headers|e];
        [|destruct Hout; discriminate].
      destruct (fetch_upstream headers (JSON_stringify (req_body req)))
        as [upstream|]; [|destruct Hout; discriminate].
      destruct (response_json upstream) as [data|e];
        [|destruct Hout; discriminate].
      destruct Hout as [_ Hres3].
      rewrite Hres3, Hfwd3, Hpub3, Hres2, Hfwd2, Hpub2.
      repeat split. exists more. now rewrite <- app_assoc.
    + cbn in Hrun. injection Hrun as <- <-. cbn.
      rewrite Hfwd3, Hpub3, Hfwd2, Hpub2.
      split; [reflexivity|]. split.
      * destruct (buildAnthropicHeaders (req_headers req)) as [headers|e'].
        -- destruct (fetch_upstream headers (JSON_stringify (req_body req)))
             as [upstream|].
           ++ destruct (response_json upstream) as [data|e''];
                destruct Hout as [Hr Hres3]; [discriminate|].
              injection Hr as ->. rewrite Hres3, Hres2. reflexivity.
           ++ destruct Hout as [Hr Hres3]. injection Hr as ->.
              rewrite Hres3, Hres2. reflexivity.
        -- destruct Hout as [Hr Hres3]. injection Hr as ->.
           rewrite Hres3, Hres2. reflexivity.
      * split; [reflexivity|]. exists more. now rewrite <- app_assoc.
Qed.


(** A guarded insert: the row is added unless the statement fails, the
    failure is logged, and the computation goes on either way. *)
Lemma mbind_guarded_insert {B} stmt (args : JsVal -> list JsVal) message
  (k : unit -> M B) w :
  exists w1,
    mbind (mtry (mbind get_currentSessionId (fun sid => run stmt (args sid)))
             (fun dbError => console_error message dbError)) k w
    = k tt w1
    /\ console w1
       = console w
         ++ match hd NoFault (faults w) with
            | NoFault => []
            | _ => [(message, SqliteError)]
            end
    /\ (txn (db w) = None ->
        txn (db w1) = None
        /\ tables (db w1)
           = match hd NoFault (faults w) with
             | NoFault => insert_row schema stmt (args (currentSessionId w))
                            (tables (db w))
             | _ => tables (db w)
             end).
Proof.
  destruct w as [[ts tx] plan sid cs pub con fwd ids clock r].
  unfold mbind, mtry, get_currentSessionId, run, run_insert, statement,
    console_error.
  cbn [fst snd faults db currentSessionId hd tl with_faults txn tables].
  destruct plan as [|[] plan]; cbn; eexists;
    (split; [reflexivity|]); (split; [now rewrite ?app_nil_r|]);
    intros ->; split; reflexivity.
Qed.

(** The store after one captured call holds one more request row, the row
    of [Spec.request_row], unless the insert failed; nothing in it comes
    from the headers of the call.  A failed insert is logged. *)
Lemma capture_request_row req w :
  (txn (db w) = None ->
   requests (tables (db (snd (capture req w))))
   = requests (tables (db w))
     ++ match hd NoFault (faults w) with
        | NoFault =>
            [Spec.request_row req (uuidv4_nth (ids_drawn w))
               (currentSessionId w) (Date_now_nth (clock_reads w))]
        | _ => []
        end)
  /\ exists later,
       console (snd (capture req w))
       = console w
         ++ match hd NoFault (faults w) with
            | NoFault => []
            | _ => [(u "Database error storing request:", SqliteError)]
            end
         ++ later.
Proof.
  destruct (capture req w) as [out wf] eqn:Hrun. cbn [snd].
  unfold capture, postMessages in Hrun.
  rewrite mbind_assoc, mbind_uuidv4, mbind_assoc, mbind_Date_now, mbind_assoc
    in Hrun.
  match type of Hrun with
  | mbind (mtry (mbind get_currentSessionId (fun sid => run ?stmt (@?args sid)))
             (fun e => console_error ?m e)) ?k ?w0 = _ =>
      assert (Hrest : respects (table_kept Requests) (k tt))
        by (unfold res_status_json; frame);
      assert (Hlog : respects log_grows (k tt))
        by (unfold res_status_json; frame);
      destruct (mbind_guarded_insert stmt args m k w0)
        as (w1 & Heq & Hcon1 & Hstore1);
      rewrite Heq in Hrun; clear Heq;
      specialize (Hrest w1); specialize (Hlog w1);
      cbv beta in Hrest, Hlog; rewrite Hrun in Hrest, Hlog
  end.
  cbn [snd] in Hrest, Hlog. split.
  - intros Htxn. destruct (Hstore1 Htxn) as [Htxn1 Htables1].
    destruct (Hrest Htxn1) as [_ Hrows]. cbn [rows_of] in Hrows.
    rewrite Hrows, Htables1.
    cbn [faults currentSessionId db tables with_clock_reads with_ids_drawn
         clock_reads ids_drawn].
    destruct (hd NoFault (faults w)); cbn; try (now rewrite app_nil_r).
    reflexivity.
  - destruct Hlog as [later Hlater]. exists later.
    rewrite Hlater, Hcon1. cbn. now rewrite <- app_assoc.
Qed.

(** C2, on the server: when the upstream answers a buffered call with a
    JSON body and the insert goes through, the response row holds
    [tokensOf(response.usage)] and the "response" event carries the body as
    it was parsed. *)
Lemma handleRegularRequest_stores_tokens req requestId w headers upstream data :
  txn (db w) = None ->
  buildAnthropicHeaders (req_headers req) = Ret headers ->
  fetch_upstream headers (JSON_stringify (req_body req)) = Some upstream ->
  response_json upstream = Ret data ->
  hd NoFault (faults w) = NoFault ->
  exists row latency tool_events,
    responses (tables (db (snd (handleRegularRequest req requestId w))))
    = responses (tables (db w)) ++ [row]
    /\ lookup (u "request_id") row = requestId
    /\ lookup (u "body") row = JSON_stringify data
    /\ lookup (u "tokens_used") row
       = JNumber (Spec.tokensOf (get_opt data (u "usage")))
    /\ published (snd (handleRegularRequest req requestId w))
       = published w ++ tool_events
         ++ [Spec.response_event requestId data latency
               (Spec.tokensOf (get_opt data (u "usage")))].
Proof.
  intros Htxn Hbuild Hfetch Hjson Hfault.
  destruct (handleRegularRequest req requestId w) as [out wf] eqn:Hrun.
  cbn [snd]. unfold handleRegularRequest in Hrun.
  rewrite mbind_Date_now, mbind_lift, Hbuild, mbind_fetch in Hrun.
  cbv zeta in Hrun. rewrite Hfetch, mbind_lift, Hjson, mbind_Date_now in Hrun.
  rewrite mbind_returns in Hrun by apply mtry_logged_returns.
  rewrite mbind_lift, calculateTokens_spec, mbind_broadcast in Hrun.
  match type of Hrun with
  | context [mtry ?b ?h ?w0] => remember (snd (mtry b h w0)) as wb eqn:Hwb
  end.
  assert (Hblock :
    exists row tool_events,
      responses (tables (db wb)) = responses (tables (db w)) ++ [row]
      /\ lookup (u "request_id") row = requestId
      /\ lookup (u "body") row = JSON_stringify data
      /\ lookup (u "tokens_used") row
         = JNumber (Spec.tokensOf (get_opt data (u "usage")))
      /\ published wb = published w ++ tool_events).
  { subst wb.
    erewrite mtry_step by reflexivity.
    erewrite mtry_step by reflexivity.
    erewrite mtry_step by reflexivity.
    erewrite mtry_step by (apply run_insert_done; exact Hfault).
    match goal with
    | |- context [mtry ?b ?h ?w0] =>
        assert (Hkept : respects (table_kept Responses) (mtry b h))
          by (frame; apply table_kept_extractAndStoreToolCalls; discriminate);
        destruct (Hkept w0 Htxn) as [_ Hrows];
        assert (Hbk : respects bookkeeping (mtry b h)) by frame;
        destruct (Hbk w0) as (_ & _ & tool_events & Hpub)
    end.
    cbn [rows_of] in Hrows. eexists. exists tool_events.
    rewrite Hrows, Hpub. cbn.
    split; [reflexivity|]. repeat split. }
  clear Hwb.
  destruct Hblock as (row & tool_events & Hrows & Hid & Hbody & Htok & Hpub).
  cbn in Hrun. injection Hrun as <- <-. cbn.
  exists row. eexists. exists tool_events.
  rewrite Hrows, Hpub, <- app_assoc. repeat split; auto.
Qed.

End Caller.


(** The request row and the "request" event of a call do not depend on its
    headers. *)
Lemma capture_request_trace_ignores_headers
  {parser : JsonParser} {printer : JsonPrinter} {runtime : Runtime}
  (headers headers' body : JsVal) (w : World) :
  txn (db w) = None ->
  requests (tables (db (snd (capture (mkReq headers body) w))))
  = requests (tables (db (snd (capture (mkReq headers' body) w))))
  /\ Spec.request_event (mkReq headers body)
     = Spec.request_event (mkReq headers' body).
Proof.
  intros Htxn. split; [|reflexivity].
  rewrite (proj1 (capture_request_row (mkReq headers body) w) Htxn).
  rewrite (proj1 (capture_request_row (mkReq headers' body) w) Htxn).
  reflexivity.
Qed.

(** C4: the older copy of the server writes the headers of the call, the
    API key among them, into the [headers] column of the request row; the
    server above writes [NULL] there. *)
Theorem legacy_request_row_holds_api_key :
  forall printer : JsonPrinter,
    get_opt (req_headers Samples.buffered_call) (u "x-api-key")
    = str "sk-ant-secret"
    /\ List.map (lookup (u "headers"))
         (requests (tables (db (snd
            (Legacy.capture (runtime := Samples.runtime (Some Samples.usage_answer))
               Samples.buffered_call Samples.empty_server)))))
       = [JSON_stringify (req_headers Samples.buffered_call)]
    /\ List.map (lookup (u "headers"))
         (requests (tables (db (snd
            (capture (runtime := Samples.runtime (Some Samples.usage_answer))
               Samples.buffered_call Samples.empty_server)))))
       = [JNull].
Proof. intros printer. repeat split; vm_compute; reflexivity. Qed.

(** C2: the older copy of the server stores the output tokens alone as the
    token count of a buffered call, 5 where [tokensOf(response.usage)] is
    15; the server above stores 15.  Both publish the body as it was
    parsed. *)
Theorem legacy_response_row_counts_output_tokens :
  forall printer : JsonPrinter,
    response_json Samples.usage_answer = Ret Samples.usage_answer_body
    /\ calculateTokens (get_opt Samples.usage_answer_body (u "usage"))
       = Ret (JNumber 15)
    /\ List.map (lookup (u "tokens_used"))
         (responses (tables (db (snd
            (Legacy.capture (runtime := Samples.runtime (Some Samples.usage_answer))
               Samples.buffered_call Samples.empty_server)))))
       = [JNumber 5]
    /\ List.map (lookup (u "tokens_used"))
         (responses (tables (db (snd
            (capture (runtime := Samples.runtime (Some Samples.usage_answer))
               Samples.buffered_call Samples.empty_server)))))
       = [JNumber 15]
    /\ List.map (fun event => get_opt (get_opt event (u "data")) (u "response"))
         (published (snd
            (Legacy.capture (runtime := Samples.runtime (Some Samples.usage_answer))
               Samples.buffered_call Samples.empty_server)))
       = [JUndefined; Samples.usage_answer_body].
Proof. intros printer. repeat split; vm_compute; reflexivity. Qed.

(* ===================================================================== *)
(** * The handlers, step by step *)
(* ===================================================================== *)

(** The fields of a state that was built by the setters. *)
Ltac state :=
  cbn [fst snd db faults currentSessionId clients published console forwarded
       ids_drawn clock_reads res with_db with_faults with_session with_hub
       with_console with_forwarded with_ids_drawn with_clock_reads with_res
       tables txn broadcast].

Section Running.
Context {parser : JsonParser} {printer : JsonPrinter} {runtime : Runtime}.

Lemma mbind_run {A B} (c : M A) (k : A -> M B) w a w' :
  c w = (Ret a, w') -> mbind c k w = k a w'.
Proof. intros H. unfold mbind. now rewrite H. Qed.

Lemma mbind_failed {A B} (c : M A) (k : A -> M B) w e w' :
  c w = (Throw e, w') -> mbind c k w = (Throw e, w').
Proof. intros H. unfold mbind. now rewrite H. Qed.

Lemma mtry_run {A} (body : M A) (h : Exn -> M A) w a w' :
  body w = (Ret a, w') -> mtry body h w = (Ret a, w').
Proof. intros H. unfold mtry. now rewrite H. Qed.

Lemma mtry_failed {A} (body : M A) (h : Exn -> M A) w e w' :
  body w = (Throw e, w') -> mtry body h w = h e w'.
Proof. intros H. unfold mtry. now rewrite H. Qed.


(** A guarded insert that goes through. *)
Lemma mbind_guarded_insert_done {B} sch stmt (args : JsVal -> list JsVal)
  message (k : unit -> M B) w :
  hd NoFault (faults w) = NoFault ->
  mbind (mtry (mbind get_currentSessionId
                 (fun sid => run_insert sch stmt (args sid)))
           (fun dbError => console_error message dbError)) k w
  = k tt (with_db (mkDb (insert_row sch stmt (args (currentSessionId w))
                           (tables (db w))) (txn (db w)))
            (with_faults (tl (faults w)) w)).
Proof.
  intros H. unfold mbind, mtry, get_currentSessionId, run_insert, statement.
  now rewrite H.
Qed.

(** A guarded insert that fails. *)
Lemma mbind_guarded_insert_failed {B} sch stmt (args : JsVal -> list JsVal)
  message (k : unit -> M B) w :
  hd NoFault (faults w) <> NoFault -> txn (db w) = None ->
  mbind (mtry (mbind get_currentSessionId
                 (fun sid => run_insert sch stmt (args sid)))
           (fun dbError => console_error message dbError)) k w
  = k tt (with_console (console w ++ [(message, SqliteError)])
            (with_faults (tl (faults w)) w)).
Proof.
  intros H Htxn.
  destruct w as [[ts tx] plan sid cs pub con fwd ids clock r].
  cbn in H, Htxn. subst tx.
  unfold mbind, mtry, get_currentSessionId, run_insert, statement,
    console_error.
  cbn [faults hd]. destruct (hd NoFault plan); [contradiction| |]; reflexivity.
Qed.

Lemma mbind_guarded_insert_cases {B} sch stmt (args : JsVal -> list JsVal)
  message (k : unit -> M B) w :
  txn (db w) = None ->
  mbind (mtry (mbind get_currentSessionId
                 (fun sid => run_insert sch stmt (args sid)))
           (fun dbError => console_error message dbError)) k w
  = k tt (match hd NoFault (faults w) with
          | NoFault =>
              with_db (mkDb (insert_row sch stmt (args (currentSessionId w))
                               (tables (db w))) (txn (db w)))
                (with_faults (tl (faults w)) w)
          | _ =>
              with_console (console w ++ [(message, SqliteError)])
                (with_faults (tl (faults w)) w)
          end).
Proof.
  intros Htxn. destruct (hd NoFault (faults w)) eqn:E.
  - now apply mbind_guarded_insert_done.
  - apply mbind_guarded_insert_failed; [now rewrite E|exact Htxn].
  - apply mbind_guarded_insert_failed; [now rewrite E|exact Htxn].
Qed.

Lemma onData_run chunks fullResponse w :
  onData chunks fullResponse w
  = (Ret (fullResponse ++ List.concat chunks),
     with_res (mkRes (res_status (res w)) (res_headers (res w))
                 (res_written (res w) ++ chunks) (res_json (res w))
                 (res_ended (res w))) w).
Proof.
  revert fullResponse w.
  induction chunks as [|chunk rest IH]; intros fullResponse w; simpl.
  - rewrite !app_nil_r. destruct w as [d f s c p co fw i cl []]. reflexivity.
  - unfold res_write. rewrite mbind_update_res, IH. cbn.
    rewrite <- !app_assoc. reflexivity.
Qed.

Lemma handleStreamingRequest_run req requestId w headers upstream :
  buildAnthropicHeaders (req_headers req) = Ret headers ->
  fetch_upstream headers (JSON_stringify (req_body req)) = Some upstream ->
  handleStreamingRequest req requestId w
  = (Ret (mkOpenStream (Date_now_nth (clock_reads w)) (up_chunks upstream)),
     with_forwarded (forwarded w ++ [(headers, JSON_stringify (req_body req))])
       (with_res (Spec.event_stream_headers (res w))
          (with_clock_reads (S (clock_reads w)) w))).
Proof.
  intros Hbuild Hfetch. unfold handleStreamingRequest, res_setHeader.
  rewrite mbind_Date_now, !mbind_update_res, mbind_lift, Hbuild, mbind_fetch.
  cbv zeta. rewrite Hfetch.
  destruct w as [d f s c p co fw i cl []]. unfold Spec.event_stream_headers.
  cbn. rewrite <- !app_assoc. reflexivity.
Qed.

(** The end of a stream whose response row is stored. *)
Lemma onEnd_run requestId startTime fullResponse w parsedFinal sseUsage :
  parseStreamingResponse fullResponse = Ret parsedFinal ->
  extractUsageFromSSE fullResponse = Ret sseUsage ->
  hd NoFault (faults w) = NoFault ->
  let latency := (Date_now_nth (clock_reads w) - startTime)%float in
  let tokens := Spec.tokensOf (or_else (get_opt parsedFinal (u "usage")) sseUsage) in
  let row :=
    Expect.stream_response_row (JString (uuidv4_nth (ids_drawn w))) requestId
      (Date_now_nth (S (clock_reads w))) fullResponse latency tokens in
  let event :=
    Expect.stream_response_event requestId parsedFinal fullResponse latency
      tokens in
  onEnd requestId startTime fullResponse w
  = (Ret tt,
     with_res (mkRes (res_status (res w)) (res_headers (res w))
                 (res_written (res w)) (res_json (res w)) true)
       (snd (broadcast event
          (with_db (mkDb (set_rows Responses
                            (responses (tables (db w)) ++ [row]) (tables (db w)))
                      (txn (db w)))
             (with_faults (tl (faults w))
                (with_clock_reads (S (S (clock_reads w)))
                   (with_ids_drawn (S (ids_drawn w)) w))))))).
Proof.
  intros Hpf Hus Hfault latency tokens row event. unfold onEnd.
  rewrite mbind_Date_now.
  erewrite mbind_run.
  2: { eapply mtry_run.
       rewrite mbind_lift, Hus, mbind_lift, Hpf, mbind_lift, calculateTokens_spec.
       rewrite mbind_uuidv4, mbind_Date_now.
       erewrite mbind_run; [|apply run_insert_done; exact Hfault].
       reflexivity. }
  reflexivity.
Qed.


(** The buffered path when the upstream answers with JSON and the response
    row is stored; the tool calls may be stored or not. *)
Lemma handleRegularRequest_run req requestId w headers upstream data :
  txn (db w) = None ->
  buildAnthropicHeaders (req_headers req) = Ret headers ->
  fetch_upstream headers (JSON_stringify (req_body req)) = Some upstream ->
  response_json upstream = Ret data ->
  hd NoFault (faults w) = NoFault ->
  exists wf tool_events,
    handleRegularRequest req requestId w = (Ret tt, wf)
    /\ txn (db wf) = None
    /\ requests (tables (db wf)) = requests (tables (db w))
    /\ sessions (tables (db wf)) = sessions (tables (db w))
    /\ responses (tables (db wf))
       = responses (tables (db w))
         ++ [Expect.response_row (JString (uuidv4_nth (ids_drawn w))) requestId
               (Date_now_nth (2 + clock_reads w)) (up_status upstream) data
               (Date_now_nth (1 + clock_reads w) - Date_now_nth (clock_reads w))
               (Spec.tokensOf (get_opt data (u "usage")))]
    /\ published wf
       = published w ++ tool_events
         ++ [Spec.response_event requestId data
               (Date_now_nth (1 + clock_reads w) - Date_now_nth (clock_reads w))
               (Spec.tokensOf (get_opt data (u "usage")))]
    /\ res wf
       = mkRes (Some (JNumber (up_status upstream))) (res_headers (res w))
           (res_written (res w)) (Some data) true.
Proof.
  intros Htxn Hbuild Hfetch Hjson Hfault.
  destruct w as [[ts tx] plan sid cs pub con fwd ids clock r].
  cbn [db txn faults] in Htxn, Hfault. subst tx. state.
  unfold handleRegularRequest.
  rewrite mbind_Date_now, mbind_lift, Hbuild, mbind_fetch. cbv zeta.
  rewrite Hfetch, mbind_lift, Hjson, mbind_Date_now. state.
  rewrite mbind_returns by apply mtry_logged_returns.
  rewrite mbind_lift, calculateTokens_spec, mbind_broadcast.
  erewrite mtry_step by reflexivity.
  erewrite mtry_step by reflexivity.
  erewrite mtry_step by reflexivity.
  erewrite mtry_step by (apply run_insert_done; exact Hfault).
  state.
  match goal with
  | |- context [mtry ?b ?h ?w0] =>
      assert (Hresp : respects (table_kept Responses) (mtry b h))
        by (frame; apply table_kept_extractAndStoreToolCalls; discriminate);
      assert (Hreq : respects (table_kept Requests) (mtry b h))
        by (frame; apply table_kept_extractAndStoreToolCalls; discriminate);
      assert (Hses : respects (table_kept Sessions) (mtry b h))
        by (frame; apply table_kept_extractAndStoreToolCalls; discriminate);
      assert (Hbk : respects bookkeeping (mtry b h)) by frame;
      destruct (Hresp w0 eq_refl) as [Htxn1 Hrows1];
      destruct (Hreq w0 eq_refl) as [_ Hrows2];
      destruct (Hses w0 eq_refl) as [_ Hrows3];
      destruct (Hbk w0) as (Hres1 & _ & tool_events & Hpub1);
      set (wb := snd (mtry b h w0)) in *
  end.
  clearbody wb.
  eexists. exists tool_events. split; [reflexivity|].
  cbn [rows_of] in *. state.
  cbn -[insert_row] in Htxn1, Hrows1, Hrows2, Hrows3, Hres1, Hpub1.
  rewrite Htxn1, Hrows1, Hrows2, Hrows3, Hres1, Hpub1.
  rewrite <- app_assoc. cbn. repeat split.
Qed.

End Running.

(** The route up to the dispatch, when the request row is stored. *)
Ltac route_prefix Hfault :=
  unfold capture, postMessages, run;
  rewrite mbind_assoc, mbind_uuidv4, mbind_assoc, mbind_Date_now, mbind_assoc;
  state;
  match goal with
  | |- context [mbind (mtry (mbind get_currentSessionId
                               (fun sid => run_insert ?sch ?stmt (@?args sid)))
                         (fun e => console_error ?m e)) ?k ?w0] =>
      rewrite (mbind_guarded_insert_done sch stmt args m k w0 Hfault)
  end;
  state;
  rewrite mbind_assoc, mbind_broadcast, mbind_assoc; state.

(* ===================================================================== *)
(** * The Broadcast Hub *)
(* ===================================================================== *)

Lemma deliver_nil client : Expect.deliver [] client = client.
Proof.
  unfold Expect.deliver. destruct client as [state got]; cbn.
  destruct (state =? WEBSOCKET_READY_STATE_OPEN)%N; [|reflexivity].
  now rewrite app_nil_r.
Qed.

Lemma deliver_app xs ys client :
  Expect.deliver ys (Expect.deliver xs client) = Expect.deliver (xs ++ ys) client.
Proof.
  unfold Expect.deliver. destruct client as [state got]; cbn.
  destruct (state =? WEBSOCKET_READY_STATE_OPEN)%N eqn:E; cbn; rewrite E;
    [|reflexivity].
  now rewrite app_assoc.
Qed.

Lemma delivered_refl w : Expect.delivered w w.
Proof.
  exists []. split; [now rewrite app_nil_r|].
  rewrite <- (map_id (clients w)) at 1. apply map_ext. intros c.
  now rewrite deliver_nil.
Qed.

#[local] Instance delivered_framing : Framing Expect.delivered.
Proof.
  split.
  - apply delivered_refl.
  - intros w1 w2 w3 (m & Hp & Hc) (m' & Hp' & Hc').
    exists (m ++ m'). split; [now rewrite Hp', Hp, app_assoc|].
    rewrite Hc', Hc, map_map. apply map_ext. intros c. apply deliver_app.
  - intros n w. apply (delivered_refl w).
  - intros n w. apply (delivered_refl w).
Qed.

Section HubPrimitives.
Context {runtime : Runtime}.

Lemma delivered_outside_hub {A} (c : M A) :
  (forall w, published (snd (c w)) = published w
             /\ clients (snd (c w)) = clients w) ->
  respects Expect.delivered c.
Proof.
  intros H w. destruct (H w) as [Hp Hc].
  destruct (delivered_refl w) as (m & Hp' & Hc').
  exists m. now rewrite Hp, Hc.
Qed.

Lemma delivered_broadcast message : respects Expect.delivered (broadcast message).
Proof. intros w. exists [message]. split; reflexivity. Qed.

Lemma delivered_console_error m e :
  respects Expect.delivered (console_error m e).
Proof. now apply delivered_outside_hub. Qed.

Lemma delivered_update_res f : respects Expect.delivered (update_res f).
Proof. now apply delivered_outside_hub. Qed.

Lemma delivered_fetch headers body :
  respects Expect.delivered (fetch headers body).
Proof.
  apply delivered_outside_hub. intros w. unfold fetch.
  destruct (fetch_upstream headers body); now split.
Qed.

Lemma delivered_statement effect : respects Expect.delivered (statement effect).
Proof.
  apply delivered_outside_hub. intros w. unfold statement.
  destruct (hd NoFault (faults w)); [destruct (effect _)| |]; now split.
Qed.

End HubPrimitives.

#[local] Hint Resolve delivered_broadcast delivered_console_error
  delivered_update_res delivered_fetch delivered_statement : frame.

Section HubHandlers.
Context {parser : JsonParser} {printer : JsonPrinter} {runtime : Runtime}.

Lemma delivered_onData chunks fullResponse :
  respects Expect.delivered (onData chunks fullResponse).
Proof.
  revert fullResponse. induction chunks as [|c rest IH]; intros full; simpl.
  - frame.
  - unfold res_write. frame.
Qed.

Lemma delivered_capture req : respects Expect.delivered (capture req).
Proof.
  unfold capture, postMessages, handleRegularRequest, handleStreamingRequest,
    onEnd, extractAndStoreToolCalls, run, run_insert, res_status_json, res_end,
    res_setHeader.
  frame; apply delivered_onData.
Qed.

(** X1: every event published while a call is captured reaches every
    observer whose socket is open, in the order of publication, and no other
    observer; the observers stay the connections they were; the first of
    these events is the "request" event of the call. *)
Theorem capture_reaches_open_observers :
  forall req w,
    exists later,
      published (snd (capture req w))
      = published w
        ++ Spec.request_event req (uuidv4_nth (ids_drawn w))
             (Date_now_nth (clock_reads w)) :: later
      /\ clients (snd (capture req w))
         = List.map
             (Expect.deliver
                (Spec.request_event req (uuidv4_nth (ids_drawn w))
                   (Date_now_nth (clock_reads w)) :: later))
             (clients w).
Proof.
  intros req w.
  destruct (capture_caller req w) as (_ & _ & _ & later & Hpub).
  destruct (delivered_capture req w) as (events & Hevents & Hclients).
  exists later. split; [exact Hpub|].
  rewrite Hpub in Hevents. apply app_inv_head in Hevents. now subst events.
Qed.

(** X2: an observer that connects is greeted, and nobody else is; from then
    on it receives what the open observers receive; closing the connection
    that was added last leaves the observers that were there before. *)
Theorem onConnection_greets_newcomer :
  forall req w,
    published (snd (Connections.onConnection w)) = published w
    /\ clients (snd (Connections.onClose (List.length (clients w))
                       (snd (Connections.onConnection w)))) = clients w
    /\ exists events,
         published (snd (capture req (snd (Connections.onConnection w))))
         = published w ++ events
         /\ clients (snd (capture req (snd (Connections.onConnection w))))
            = List.map (Expect.deliver events) (clients w)
              ++ [mkClient WEBSOCKET_READY_STATE_OPEN
                    (Connections.connected_greeting :: events)].
Proof.
  intros req w. split; [reflexivity|]. split.
  - cbn. induction (clients w) as [|c cs IH]; cbn; [reflexivity|].
    now rewrite IH.
  - destruct (delivered_capture req (snd (Connections.onConnection w)))
      as (events & Hevents & Hclients).
    exists events. split; [exact Hevents|].
    rewrite Hclients. cbn. now rewrite map_app.
Qed.

End HubHandlers.

(* ===================================================================== *)
(** * The upstream exchange *)
(* ===================================================================== *)

Section Exchange.
Context {parser : JsonParser} {printer : JsonPrinter} {runtime : Runtime}.

(** X3: a captured call whose headers are an object makes one upstream
    call, whatever happens to the store and to the upstream.  It carries
    three headers: the API key of the caller, or the one of the environment
    when the caller sent none; the API version of the caller, or
    [2023-06-01]; and the JSON content type.  Its body is the body of the
    call, serialised again. *)
Theorem capture_upstream_call :
  forall props body w,
    forwarded (snd (capture (mkReq (JObject props) body) w))
    = forwarded w
      ++ [(JObject
             [(u "x-api-key",
               or_else (lookup (u "x-api-key") props) ANTHROPIC_API_KEY);
              (u "anthropic-version",
               or_else (lookup (u "anthropic-version") props) (str "2023-06-01"));
              (u "content-type", str "application/json")],
           JSON_stringify body)].
Proof.
  intros props body w.
  destruct (capture_caller (mkReq (JObject props) body) w) as (_ & _ & -> & _).
  reflexivity.
Qed.

(** X4: when the exchange of a buffered call with the upstream fails (the
    transport fails, or the answer is not JSON), the caller is sent the 500
    "Proxy error" reply with the message of the failure, the failure is
    logged, the "request" event is the only event published, and no response
    row and no tool call is stored. *)
Theorem capture_upstream_failure :
  forall req w e,
    truthy (get_opt (req_body req) (u "stream")) = false ->
    Expect.upstream_answer req = Throw e ->
    txn (db w) = None ->
    fst (capture req w) = Ret tt
    /\ res (snd (capture req w)) = Spec.proxy_error_reply e (res w)
    /\ published (snd (capture req w))
       = published w
         ++ [Spec.request_event req (uuidv4_nth (ids_drawn w))
               (Date_now_nth (clock_reads w))]
    /\ responses (tables (db (snd (capture req w)))) = responses (tables (db w))
    /\ tool_calls (tables (db (snd (capture req w)))) = tool_calls (tables (db w))
    /\ console (snd (capture req w))
       = console w
         ++ match hd NoFault (faults w) with
            | NoFault => []
            | _ => [(u "Database error storing request:", SqliteError)]
            end
         ++ [(u "Proxy error:", e)].
Proof.
  intros req w e Hstream Hup Htxn.
  assert (Hthrow : forall requestId w0,
            handleRegularRequest req requestId w0
            = (Throw e,
               match buildAnthropicHeaders (req_headers req) with
               | Ret headers =>
                   with_forwarded
                     (forwarded w0 ++ [(headers, JSON_stringify (req_body req))])
                     (with_clock_reads (S (clock_reads w0)) w0)
               | Throw _ => with_clock_reads (S (clock_reads w0)) w0
               end)).
  { intros requestId w0. unfold handleRegularRequest, Expect.upstream_answer in *.
    rewrite mbind_Date_now, mbind_lift.
    destruct (buildAnthropicHeaders (req_headers req)) as [headers|e0];
      cbn [rbind] in Hup; [|now injection Hup as ->].
    rewrite mbind_fetch. cbv zeta.
    destruct (fetch_upstream headers (JSON_stringify (req_body req)))
      as [upstream|]; [|now injection Hup as ->].
    now rewrite mbind_lift, Hup. }
  destruct w as [[ts tx] plan sid cs pub con fwd ids clock r].
  cbn [db txn] in Htxn. subst tx. state.
  unfold capture, postMessages, run.
  rewrite mbind_assoc, mbind_uuidv4, mbind_assoc, mbind_Date_now, mbind_assoc.
  state.
  rewrite mbind_guarded_insert_cases by reflexivity. state.
  rewrite mbind_assoc, mbind_broadcast, mbind_assoc. state.
  rewrite Hstream.
  erewrite mbind_run.
  2: { erewrite mtry_failed; [|apply mbind_failed; apply Hthrow].
       unfold mbind, console_error, res_status_json, update_res, mret.
       reflexivity. }
  rewrite mbind_mret. cbn [fst snd mret].
  destruct (buildAnthropicHeaders (req_headers req));
    destruct plan as [|[] plan]; cbn; rewrite ?app_nil_r, <- ?app_assoc;
    repeat split.
Qed.

End Exchange.

Lemma capture_upstream_failure_witness :
  truthy (get_opt (req_body Samples.buffered_call) (u "stream")) = false
  /\ Expect.upstream_answer (printer := Cases.printer)
       (runtime := Samples.runtime None) Samples.buffered_call
     = Throw FetchError
  /\ txn (db (Cases.started [])) = None
  /\ res_json_of
       (capture (printer := Cases.printer) (runtime := Samples.runtime None)
          Samples.buffered_call (Cases.started []))
     = Some (JObject [(u "error", str "Proxy error");
                      (u "details", str "upstream failed")])
  /\ responses (tables (db (snd
       (capture (printer := Cases.printer) (runtime := Samples.runtime None)
          Samples.buffered_call (Cases.started []))))) = [].
Proof.
  assert (Hstream : truthy (get_opt (req_body Samples.buffered_call) (u "stream"))
                    = false) by reflexivity.
  assert (Hup : Expect.upstream_answer (printer := Cases.printer)
                  (runtime := Samples.runtime None) Samples.buffered_call
                = Throw FetchError) by reflexivity.
  assert (Htxn : txn (db (Cases.started [])) = None) by reflexivity.
  pose proof (capture_upstream_failure (printer := Cases.printer)
                (runtime := Samples.runtime None)
                Samples.buffered_call (Cases.started []) FetchError
                Hstream Hup Htxn)
    as (_ & Hres & _ & Hresponses & _).
  split; [exact Hstream|]. split; [exact Hup|]. split; [exact Htxn|].
  split; [unfold res_json_of; rewrite Hres; reflexivity|exact Hresponses].
Defined.

(* ===================================================================== *)
(** * Buffered calls *)
(* ===================================================================== *)

Section Buffered.
Context {parser : JsonParser} {printer : JsonPrinter} {runtime : Runtime}.

(** A buffered call whose request and response rows are stored. *)
Lemma capture_buffered_run req w headers upstream data :
  truthy (get_opt (req_body req) (u "stream")) = false ->
  txn (db w) = None ->
  buildAnthropicHeaders (req_headers req) = Ret headers ->
  fetch_upstream headers (JSON_stringify (req_body req)) = Some upstream ->
  response_json upstream = Ret data ->
  hd NoFault (faults w) = NoFault ->
  hd NoFault (tl (faults w)) = NoFault ->
  exists wf tool_events,
    capture req w = (Ret tt, wf)
    /\ txn (db wf) = None
    /\ sessions (tables (db wf)) = sessions (tables (db w))
    /\ requests (tables (db wf))
       = requests (tables (db w))
         ++ [Spec.request_row req (uuidv4_nth (ids_drawn w)) (currentSessionId w)
               (Date_now_nth (clock_reads w))]
    /\ responses (tables (db wf))
       = responses (tables (db w))
         ++ [Expect.response_row (JString (uuidv4_nth (S (ids_drawn w))))
               (JString (uuidv4_nth (ids_drawn w)))
               (Date_now_nth (3 + clock_reads w)) (up_status upstream) data
               (Date_now_nth (2 + clock_reads w) - Date_now_nth (1 + clock_reads w))
               (Spec.tokensOf (get_opt data (u "usage")))]
    /\ published wf
       = published w
         ++ Spec.request_event req (uuidv4_nth (ids_drawn w))
              (Date_now_nth (clock_reads w))
            :: tool_events
         ++ [Spec.response_event (JString (uuidv4_nth (ids_drawn w))) data
               (Date_now_nth (2 + clock_reads w) - Date_now_nth (1 + clock_reads w))
               (Spec.tokensOf (get_opt data (u "usage")))]
    /\ res wf
       = mkRes (Some (JNumber (up_status upstream))) (res_headers (res w))
           (res_written (res w)) (Some data) true.
Proof.
  intros Hstream Htxn Hbuild Hfetch Hjson Hp1 Hp2.
  destruct w as [[ts tx] plan sid cs pub con fwd ids clock r].
  cbn [db txn faults] in Htxn, Hp1, Hp2. subst tx. state.
  route_prefix Hp1. rewrite Hstream.
  match goal with
  | |- context [mbind (mtry (mbind (handleRegularRequest req ?rid) _) _) _ ?w0] =>
      destruct (handleRegularRequest_run req rid w0 headers upstream data
                  eq_refl Hbuild Hfetch Hjson Hp2)
        as (wf & tool_events & Hrun & Htxn1 & Hreq & Hses & Hresp & Hpub & Hres)
  end.
  erewrite mbind_run.
  2: { eapply mtry_run. erewrite mbind_run; [|exact Hrun]. reflexivity. }
  rewrite mbind_mret. cbn [fst snd mret].
  exists wf, tool_events. split; [reflexivity|].
  cbn -[insert_row] in Htxn1, Hreq, Hses, Hresp, Hpub, Hres.
  rewrite Htxn1, Hreq, Hses, Hresp, Hpub, Hres.
  rewrite <- app_assoc. unfold Spec.request_row. rewrite Hstream.
  repeat split.
Qed.

(** X5: when the upstream answers a buffered call with a JSON body and the
    two inserts go through, the request row and one response row are added.
    The response row holds the status of the upstream as it came, the body
    serialised again and [tokensOf(response.usage)]; the "response" event is
    the last event of the call; the caller is sent the body under the status
    of the upstream.  This holds whether the tool calls of the answer could
    be stored or not. *)
Theorem capture_buffered_call_is_stored :
  forall req w headers upstream data,
    truthy (get_opt (req_body req) (u "stream")) = false ->
    txn (db w) = None ->
    buildAnthropicHeaders (req_headers req) = Ret headers ->
    fetch_upstream headers (JSON_stringify (req_body req)) = Some upstream ->
    response_json upstream = Ret data ->
    hd NoFault (faults w) = NoFault ->
    hd NoFault (tl (faults w)) = NoFault ->
    exists tool_events,
      requests (tables (db (snd (capture req w))))
      = requests (tables (db w))
        ++ [Spec.request_row req (uuidv4_nth (ids_drawn w)) (currentSessionId w)
              (Date_now_nth (clock_reads w))]
      /\ responses (tables (db (snd (capture req w))))
         = responses (tables (db w))
           ++ [Expect.response_row (JString (uuidv4_nth (S (ids_drawn w))))
                 (JString (uuidv4_nth (ids_drawn w)))
                 (Date_now_nth (3 + clock_reads w)) (up_status upstream) data
                 (Date_now_nth (2 + clock_reads w) - Date_now_nth (1 + clock_reads w))
                 (Spec.tokensOf (get_opt data (u "usage")))]
      /\ published (snd (capture req w))
         = published w
           ++ Spec.request_event req (uuidv4_nth (ids_drawn w))
                (Date_now_nth (clock_reads w))
              :: tool_events
           ++ [Spec.response_event (JString (uuidv4_nth (ids_drawn w))) data
                 (Date_now_nth (2 + clock_reads w) - Date_now_nth (1 + clock_reads w))
                 (Spec.tokensOf (get_opt data (u "usage")))]
      /\ res (snd (capture req w))
         = mkRes (Some (JNumber (up_status upstream))) (res_headers (res w))
             (res_written (res w)) (Some data) true.
Proof.
  intros req w headers upstream data Hstream Htxn Hbuild Hfetch Hjson Hp1 Hp2.
  destruct (capture_buffered_run req w headers upstream data
              Hstream Htxn Hbuild Hfetch Hjson Hp1 Hp2)
    as (wf & tool_events & -> & _ & _ & Hreq & Hresp & Hpub & Hres).
  exists tool_events. cbn [snd]. repeat split; assumption.
Qed.

(** X6: what was captured is what the trace query shows, when the store
    hands back what the call left in it.  After a buffered call on a store
    without requests, with both inserts going through, with texts that
    [JSON.parse] reads back and with numbers the INTEGER columns keep (no
    NaN, no negative zero, no whole number beyond the safe integers), the
    query returns one trace: under the identifier of the call and the active
    session, with the body of the call, not flagged as a stream, and with
    the response of the upstream: its body, its status and
    [tokensOf(response.usage)].  A token count beyond the safe integers is
    outside this statement: the query throws on it. *)
Theorem capture_then_getTraces :
  forall req w headers upstream data,
    truthy (get_opt (req_body req) (u "stream")) = false ->
    txn (db w) = None ->
    requests (tables (db w)) = [] ->
    responses (tables (db w)) = [] ->
    buildAnthropicHeaders (req_headers req) = Ret headers ->
    fetch_upstream headers (JSON_stringify (req_body req)) = Some upstream ->
    response_json upstream = Ret data ->
    hd NoFault (faults w) = NoFault ->
    hd NoFault (tl (faults w)) = NoFault ->
    safeParseJSON (JSON_stringify (req_body req)) = Ret (req_body req) ->
    safeParseJSON (JSON_stringify data) = Ret data ->
    Expect.store_handed_back (tables (db (snd (capture req w)))) ->
    exists trace response,
      res_json_of (getTraces JUndefined (snd (capture req w)))
      = Some (JArray [JObject trace])
      /\ lookup (u "id") trace = JString (uuidv4_nth (ids_drawn w))
      /\ lookup (u "session_id") trace = currentSessionId w
      /\ lookup (u "body") trace = req_body req
      /\ lookup (u "stream") trace = JBool false
      /\ lookup (u "response") trace = JObject response
      /\ lookup (u "body") response = data
      /\ lookup (u "status") response = JNumber (up_status upstream)
      /\ lookup (u "tokens_used") response
         = JNumber (Spec.tokensOf (get_opt data (u "usage"))).
Proof.
  intros req w headers upstream data Hstream Htxn Hrq Hrs Hbuild Hfetch Hjson
    Hp1 Hp2 Hbody Hanswer Hstore.
  destruct (capture_buffered_run req w headers upstream data
              Hstream Htxn Hbuild Hfetch Hjson Hp1 Hp2)
    as (wf & tool_events & Hrun & _ & _ & Hreq & Hresp & _ & _).
  rewrite Hrun in Hstore |- *. clear Hrun.
  cbn [snd] in *. rewrite Hrq in Hreq. rewrite Hrs in Hresp.
  cbn [app] in Hreq, Hresp.
  pose proof Hstore as (Hkept & _ & _). rewrite Hreq in Hkept.
  unfold res_json_of, getTraces, mbind, query, lift, selectRecentRequests.
  cbn [truthy fst snd]. rewrite Hreq.
  change (firstn 100 (order_by_desc (u "timestamp") [?row])) with [row].
  rewrite (stmt_all_handed_back _ _ Hkept).
  cbn [map_result rbind]. rewrite (fullTrace_handed_back _ _ Hstore).
  change (lookup (u "id") (Spec.request_row req ?id ?sid ?t)) with (JString id).
  unfold selectResponsesByRequest at 1. rewrite Hresp.
  unfold select_where, Expect.response_row. cbn [filter].
  change (lookup (u "request_id") ((u "id", ?a) :: (u "request_id", ?b) :: ?rest))
    with b.
  cbn [sql_eqb]. rewrite str_eqb_refl. cbn [hd_error].
  change (lookup (u "body") (Spec.request_row req ?id ?sid ?t))
    with (JSON_stringify (req_body req)).
  rewrite Hbody. cbn [rbind].
  match goal with
  | |- context [safeParseJSON (lookup (u "body") ?row)] =>
      change (lookup (u "body") row) with (JSON_stringify data)
  end.
  rewrite Hanswer. cbn [rbind].
  eexists. eexists. split; [reflexivity|].
  split; [reflexivity|]. split; [reflexivity|]. split; [reflexivity|].
  split.
  - change (lookup (u "stream") ?x) with
      (JBool (sql_eqb (JNumber (if truthy (get_opt (req_body req) (u "stream"))
                                then 1 else 0)) (JNumber 1)
              || match get_opt (req_body req) (u "stream") with
                 | JBool true => true
                 | _ => false
                 end)).
    rewrite Hstream.
    destruct (get_opt (req_body req) (u "stream")) as [ | |[]| | | | ];
      try reflexivity. discriminate Hstream.
  - split; [reflexivity|]. repeat split.
Qed.

End Buffered.

Lemma capture_buffered_call_is_stored_witness :
  truthy (get_opt (req_body Samples.buffered_call) (u "stream")) = false
  /\ txn (db (Cases.started [])) = None
  /\ fetch_upstream (Runtime := Samples.runtime (Some Samples.usage_answer))
       (JObject [(u "x-api-key", str "sk-ant-secret");
                 (u "anthropic-version", str "2023-06-01");
                 (u "content-type", str "application/json")])
       (Cases.printer (req_body Samples.buffered_call))
     = Some Samples.usage_answer
  /\ response_json Samples.usage_answer = Ret Samples.usage_answer_body
  /\ hd NoFault (faults (Cases.started [])) = NoFault
  /\ hd NoFault (tl (faults (Cases.started []))) = NoFault
  /\ res (snd (capture (printer := Cases.printer)
                 (runtime := Samples.runtime (Some Samples.usage_answer))
                 Samples.buffered_call (Cases.started [])))
     = mkRes (Some (JNumber 200)) [] [] (Some Samples.usage_answer_body) true.
Proof.
  assert (Hstream : truthy (get_opt (req_body Samples.buffered_call) (u "stream"))
                    = false) by reflexivity.
  assert (Htxn : txn (db (Cases.started [])) = None) by reflexivity.
  assert (Hjson : response_json Samples.usage_answer
                  = Ret Samples.usage_answer_body) by (vm_compute; reflexivity).
  destruct (capture_buffered_call_is_stored (printer := Cases.printer)
              (runtime := Samples.runtime (Some Samples.usage_answer))
              Samples.buffered_call (Cases.started []) _ Samples.usage_answer
              Samples.usage_answer_body
              Hstream Htxn eq_refl eq_refl Hjson eq_refl eq_refl)
    as (tool_events & _ & _ & _ & Hres).
  split; [exact Hstream|]. split; [exact Htxn|]. split; [reflexivity|].
  split; [exact Hjson|]. split; [reflexivity|]. split; [reflexivity|].
  exact Hres.
Defined.

(** The rows of a table of a sample state, written out. *)
Ltac evaluated_rows :=
  match goal with
  | |- Forall _ ?rows =>
      let rows' := eval vm_compute in rows in
      change rows with rows'
  end.

Lemma capture_then_getTraces_witness :
  truthy (get_opt (req_body Samples.buffered_call) (u "stream")) = false
  /\ requests (tables (db (Cases.started []))) = []
  /\ responses (tables (db (Cases.started []))) = []
  /\ response_json Samples.usage_answer = Ret Samples.usage_answer_body
  /\ safeParseJSON (Cases.printer (req_body Samples.buffered_call))
     = Ret (req_body Samples.buffered_call)
  /\ safeParseJSON (Cases.printer Samples.usage_answer_body)
     = Ret Samples.usage_answer_body
  /\ Expect.store_handed_back
       (tables (db (snd (capture (printer := Cases.printer)
                           (runtime := Samples.runtime (Some Samples.usage_answer))
                           Samples.buffered_call (Cases.started [])))))
  /\ exists trace response,
       res_json_of
         (getTraces JUndefined
            (snd (capture (printer := Cases.printer)
                    (runtime := Samples.runtime (Some Samples.usage_answer))
                    Samples.buffered_call (Cases.started []))))
       = Some (JArray [JObject trace])
       /\ lookup (u "body") trace = req_body Samples.buffered_call
       /\ lookup (u "response") trace = JObject response
       /\ lookup (u "body") response = Samples.usage_answer_body
       /\ lookup (u "tokens_used") response = JNumber 15.
Proof.
  assert (Hstream : truthy (get_opt (req_body Samples.buffered_call) (u "stream"))
                    = false) by reflexivity.
  assert (Hjson : response_json Samples.usage_answer
                  = Ret Samples.usage_answer_body) by (vm_compute; reflexivity).
  assert (Hbody : safeParseJSON (Cases.printer (req_body Samples.buffered_call))
                  = Ret (req_body Samples.buffered_call))
    by (vm_compute; reflexivity).
  assert (Hanswer : safeParseJSON (Cases.printer Samples.usage_answer_body)
                    = Ret Samples.usage_answer_body)
    by (vm_compute; reflexivity).
  assert (Hstore :
    Expect.store_handed_back
      (tables (db (snd (capture (printer := Cases.printer)
                          (runtime := Samples.runtime (Some Samples.usage_answer))
                          Samples.buffered_call (Cases.started []))))))
    by (repeat split; evaluated_rows; repeat constructor;
        vm_compute; reflexivity).
  destruct (capture_then_getTraces (printer := Cases.printer)
              (runtime := Samples.runtime (Some Samples.usage_answer))
              Samples.buffered_call (Cases.started []) _ Samples.usage_answer
              Samples.usage_answer_body
              Hstream eq_refl eq_refl eq_refl eq_refl eq_refl Hjson
              eq_refl eq_refl Hbody Hanswer Hstore)
    as (trace & response & Hout & _ & _ & Hb & _ & Hr & Hrb & _ & Htok).
  split; [exact Hstream|]. split; [reflexivity|]. split; [reflexivity|].
  split; [exact Hjson|]. split; [exact Hbody|]. split; [exact Hanswer|].
  split; [exact Hstore|].
  exists trace, response.
  split; [exact Hout|]. split; [exact Hb|]. split; [exact Hr|].
  split; [exact Hrb|]. exact Htok.
Defined.

(* ===================================================================== *)
(** * Streamed calls *)
(* ===================================================================== *)

Section Streamed.
Context {parser : JsonParser} {printer : JsonPrinter} {runtime : Runtime}.

(** X7: a streamed call that the upstream answers, with both inserts going
    through.  The caller is written the text of each chunk, as
    [chunk.toString()] gave it to the [data] handler, in the order of
    arrival, and no status of its own; one response row is added, with
    status 200 whatever the status of the upstream was, these texts put
    together as its body, and the token count of the usage of the
    structured final object or, when that object has none, of the usage
    found in the SSE records; the "response" event follows the "request"
    event and carries the same count.  Nothing is said of the bytes the
    upstream sent: the texts are what the handler works with. *)
Theorem capture_streamed_call_is_stored :
  forall req w headers upstream,
    truthy (get_opt (req_body req) (u "stream")) = true ->
    buildAnthropicHeaders (req_headers req) = Ret headers ->
    fetch_upstream headers (JSON_stringify (req_body req)) = Some upstream ->
    hd NoFault (faults w) = NoFault ->
    hd NoFault (tl (faults w)) = NoFault ->
    exists parsedFinal sseUsage,
      parseStreamingResponse (List.concat (up_chunks upstream)) = Ret parsedFinal
      /\ extractUsageFromSSE (List.concat (up_chunks upstream)) = Ret sseUsage
      /\ responses (tables (db (snd (capture req w))))
         = responses (tables (db w))
           ++ [Expect.stream_response_row
                 (JString (uuidv4_nth (S (ids_drawn w))))
                 (JString (uuidv4_nth (ids_drawn w)))
                 (Date_now_nth (3 + clock_reads w))
                 (List.concat (up_chunks upstream))
                 (Date_now_nth (2 + clock_reads w) - Date_now_nth (1 + clock_reads w))
                 (Spec.tokensOf
                    (or_else (get_opt parsedFinal (u "usage")) sseUsage))]
      /\ published (snd (capture req w))
         = published w
           ++ [Spec.request_event req (uuidv4_nth (ids_drawn w))
                 (Date_now_nth (clock_reads w));
               Expect.stream_response_event
                 (JString (uuidv4_nth (ids_drawn w))) parsedFinal
                 (List.concat (up_chunks upstream))
                 (Date_now_nth (2 + clock_reads w) - Date_now_nth (1 + clock_reads w))
                 (Spec.tokensOf
                    (or_else (get_opt parsedFinal (u "usage")) sseUsage))]
      /\ res_status (res (snd (capture req w))) = res_status (res w)
      /\ res_written (res (snd (capture req w)))
         = res_written (res w) ++ up_chunks upstream.
Proof.
  intros req w headers upstream Hstream Hbuild Hfetch Hp1 Hp2.
  destruct (parseStreamingResponse_returns (List.concat (up_chunks upstream)))
    as [parsedFinal Hpf].
  destruct (extractUsageFromSSE_returns (List.concat (up_chunks upstream)))
    as [sseUsage Hus].
  exists parsedFinal, sseUsage. split; [exact Hpf|]. split; [exact Hus|].
  destruct w as [[ts tx] plan sid cs pub con fwd ids clock r].
  cbn [faults] in Hp1, Hp2. state.
  route_prefix Hp1. rewrite Hstream.
  erewrite mbind_run.
  2: { eapply mtry_run. erewrite mbind_run;
         [|eapply handleStreamingRequest_run; eassumption].
       reflexivity. }
  state.
  rewrite mbind_mret. cbn [fst snd reader startTime].
  erewrite mbind_run; [|apply onData_run].
  state.
  erewrite onEnd_run; [|exact Hpf|exact Hus|exact Hp2].
  state.
  cbn. rewrite <- !app_assoc. repeat split.
Qed.


End Streamed.

Lemma capture_streamed_call_is_stored_witness :
  truthy (get_opt (req_body Cases.streamed_call) (u "stream")) = true
  /\ hd NoFault (faults (Cases.started [])) = NoFault
  /\ hd NoFault (tl (faults (Cases.started []))) = NoFault
  /\ List.map (fun row => (lookup (u "status") row, lookup (u "tokens_used") row))
       (responses (tables (db (snd
          (capture (printer := Cases.printer)
             (runtime := Samples.runtime (Some Cases.sse_answer))
             Cases.streamed_call (Cases.started []))))))
     = [(JNumber 200, JNumber 10)]
  /\ res_written (res (snd
       (capture (printer := Cases.printer)
          (runtime := Samples.runtime (Some Cases.sse_answer))
          Cases.streamed_call (Cases.started []))))
     = up_chunks Cases.sse_answer.
Proof.
  destruct (capture_streamed_call_is_stored (printer := Cases.printer)
              (runtime := Samples.runtime (Some Cases.sse_answer))
              Cases.streamed_call (Cases.started []) _ Cases.sse_answer
              eq_refl eq_refl eq_refl eq_refl eq_refl)
    as (parsedFinal & sseUsage & Hpf & Hus & Hrows & _ & _ & Hwritten).
  split; [reflexivity|]. split; [reflexivity|]. split; [reflexivity|].
  split; [|exact Hwritten].
  rewrite Hrows.
  assert (Hpf' : parseStreamingResponse (List.concat (up_chunks Cases.sse_answer))
                 = Ret JNull) by (vm_compute; reflexivity).
  assert (Hus' : extractUsageFromSSE (List.concat (up_chunks Cases.sse_answer))
                 = Ret (JObject [(u "input_tokens", JNumber 3);
                                 (u "output_tokens", JNumber 7)]))
    by (vm_compute; reflexivity).
  rewrite Hpf' in Hpf. rewrite Hus' in Hus.
  injection Hpf as <-. injection Hus as <-. reflexivity.
Defined.


(* ===================================================================== *)
(** * Tool calls *)
(* ===================================================================== *)

Section ToolCalls.
Context {parser : JsonParser} {printer : JsonPrinter} {runtime : Runtime}.

Lemma is_tool_use_object content :
  Expect.is_tool_use content = true -> exists props, content = JObject props.
Proof.
  unfold Expect.is_tool_use. destruct content; try discriminate.
  intros _. eexists; reflexivity.
Qed.

Lemma extractAndStoreToolCalls_content requestId responseData blocks :
  get_opt responseData (u "content") = JArray blocks ->
  extractAndStoreToolCalls requestId responseData
  = extractAndStoreToolCalls requestId (Expect.only_content blocks).
Proof. intros H. unfold extractAndStoreToolCalls. now rewrite H. Qed.

(** A block that is not a tool use is passed over. *)
Lemma extraction_skip requestId content rest w :
  Expect.is_tool_use content = false ->
  extractAndStoreToolCalls requestId (Expect.only_content (content :: rest)) w
  = extractAndStoreToolCalls requestId (Expect.only_content rest) w.
Proof.
  intros H. unfold extractAndStoreToolCalls, Expect.only_content.
  change (get_opt (JObject [(u "content", JArray (content :: rest))]) (u "content"))
    with (JArray (content :: rest)).
  change (get_opt (JObject [(u "content", JArray rest)]) (u "content"))
    with (JArray rest).
  cbn [for_each]. unfold Expect.is_tool_use in H.
  rewrite H. reflexivity.
Qed.

(** A tool use whose insert goes through. *)
Lemma extraction_store requestId content rest w :
  Expect.is_tool_use content = true ->
  hd NoFault (faults w) = NoFault ->
  exists w1,
    extractAndStoreToolCalls requestId (Expect.only_content (content :: rest)) w
    = extractAndStoreToolCalls requestId (Expect.only_content rest) w1
    /\ tables (db w1)
       = mkTables (sessions (tables (db w))) (requests (tables (db w)))
           (responses (tables (db w)))
           (tool_calls (tables (db w))
            ++ [Expect.tool_call_row requestId
                  (tool_calls_seq (tables (db w)) + 1)
                  (Date_now_nth (clock_reads w)) content])
           (tool_calls_seq (tables (db w)) + 1)
    /\ txn (db w1) = txn (db w)
    /\ published w1 = published w ++ [Expect.tool_call_event requestId content]
    /\ clock_reads w1 = S (clock_reads w)
    /\ faults w1 = tl (faults w).
Proof.
  intros Huse Hfault.
  destruct (is_tool_use_object _ Huse) as [props ->].
  unfold Expect.is_tool_use in Huse.
  destruct w as [[ts tx] plan sid cs pub con fwd ids clock r].
  cbn in Hfault.
  unfold extractAndStoreToolCalls, Expect.only_content.
  change (get_opt (JObject [(u "content", JArray (JObject props :: rest))])
            (u "content"))
    with (JArray (JObject props :: rest)).
  change (get_opt (JObject [(u "content", JArray rest)]) (u "content"))
    with (JArray rest).
  cbn [for_each]. rewrite Huse.
  unfold mbind at 1.
  unfold mbind, lift, Date_now, run, run_insert, statement, broadcast.
  cbn [get fst snd faults db clock_reads with_clock_reads with_faults hd tl].
  rewrite Hfault. cbn [with_db with_faults db faults tables txn].
  eexists. split; [reflexivity|].
  cbn. repeat split; reflexivity.
Qed.

(** A tool use whose insert fails. *)
Lemma extraction_fail requestId content rest w :
  Expect.is_tool_use content = true ->
  hd NoFault (faults w) <> NoFault ->
  txn (db w) = None ->
  fst (extractAndStoreToolCalls requestId
         (Expect.only_content (content :: rest)) w) = Throw SqliteError
  /\ tables (db (snd (extractAndStoreToolCalls requestId
                        (Expect.only_content (content :: rest)) w)))
     = tables (db w)
  /\ published (snd (extractAndStoreToolCalls requestId
                       (Expect.only_content (content :: rest)) w))
     = published w
  /\ faults (snd (extractAndStoreToolCalls requestId
                    (Expect.only_content (content :: rest)) w))
     = tl (faults w).
Proof.
  intros Huse Hfault Htxn.
  destruct (is_tool_use_object _ Huse) as [props ->].
  unfold Expect.is_tool_use in Huse.
  destruct w as [[ts tx] plan sid cs pub con fwd ids clock r].
  cbn in Hfault, Htxn. subst tx.
  unfold extractAndStoreToolCalls, Expect.only_content.
  change (get_opt (JObject [(u "content", JArray (JObject props :: rest))])
            (u "content"))
    with (JArray (JObject props :: rest)).
  cbn [for_each]. rewrite Huse.
  unfold mbind, lift, Date_now, run, run_insert, statement, broadcast.
  cbn [get fst snd faults db clock_reads with_clock_reads with_faults hd tl].
  destruct (hd NoFault plan); [contradiction| |]; cbn; repeat split.
Qed.

Lemma quiet_tail n plan :
  quiet (S n) plan = true ->
  hd NoFault plan = NoFault /\ quiet n (tl plan) = true.
Proof.
  destruct plan as [|[] plan]; cbn; try discriminate; intros H;
    (split; [reflexivity|]); [destruct n; reflexivity|exact H].
Qed.

(** X9: when the content of a response is an array, its [tool_use] blocks
    name their tool by a string and no insert fails, these blocks are stored
    and published one by one in the order of the content, each with the next
    identifier of the table, the name of the tool and its input serialised,
    [null] when the block has none; the other blocks leave no trace, and
    the other tables are not touched.  (A name that is not a string is for
    the store to accept or refuse; the statement leaves that case out.) *)
Theorem extractAndStoreToolCalls_stores_each_tool_use :
  forall requestId responseData blocks w,
    get_opt responseData (u "content") = JArray blocks ->
    Forall (fun content => exists name, get_opt content (u "name") = JString name)
      (filter Expect.is_tool_use blocks) ->
    quiet (List.length (filter Expect.is_tool_use blocks)) (faults w) = true ->
    fst (extractAndStoreToolCalls requestId responseData w) = Ret tt
    /\ tool_calls (tables (db (snd (extractAndStoreToolCalls requestId responseData w))))
       = tool_calls (tables (db w))
         ++ Expect.tool_call_rows requestId (tool_calls_seq (tables (db w)))
              (clock_reads w) (filter Expect.is_tool_use blocks)
    /\ published (snd (extractAndStoreToolCalls requestId responseData w))
       = published w
         ++ List.map (Expect.tool_call_event requestId)
              (filter Expect.is_tool_use blocks)
    /\ sessions (tables (db (snd (extractAndStoreToolCalls requestId responseData w))))
       = sessions (tables (db w))
    /\ requests (tables (db (snd (extractAndStoreToolCalls requestId responseData w))))
       = requests (tables (db w))
    /\ responses (tables (db (snd (extractAndStoreToolCalls requestId responseData w))))
       = responses (tables (db w)).
Proof.
  intros requestId responseData blocks w Hcontent _.
  rewrite (extractAndStoreToolCalls_content _ _ _ Hcontent). clear Hcontent.
  revert w. induction blocks as [|content rest IH]; intros w Hquiet.
  - change (extractAndStoreToolCalls requestId (Expect.only_content []) w)
      with (Ret tt, w).
    cbn [fst snd filter Expect.tool_call_rows List.map].
    rewrite !app_nil_r. repeat split.
  - cbn [filter] in *. destruct (Expect.is_tool_use content) eqn:Huse.
    + cbn [List.length] in Hquiet.
      destruct (quiet_tail _ _ Hquiet) as [Hhd Htl].
      destruct (extraction_store requestId content rest w Huse Hhd)
        as (w1 & -> & Htab & Htxn & Hpub & Hclock & Hfaults).
      rewrite <- Hfaults in Htl.
      destruct (IH w1 Htl) as (Hfst & Htc & Hpublished & Hs & Hrq & Hrs).
      split; [exact Hfst|].
      rewrite Htc, Hpublished, Hs, Hrq, Hrs, Htab, Hpub, Hclock. cbn.
      rewrite <- !app_assoc. repeat split.
    + rewrite extraction_skip by exact Huse. apply IH. exact Hquiet.
Qed.

(** X10: the first insert that fails ends the extraction with its error.
    The tool calls before it stay stored and published, the tool call that
    failed and the ones after it are neither stored nor published. *)
Theorem extractAndStoreToolCalls_stops_at_failed_insert :
  forall requestId responseData blocks w n kind rest,
    get_opt responseData (u "content") = JArray blocks ->
    txn (db w) = None ->
    faults w = repeat NoFault n ++ kind :: rest ->
    kind <> NoFault ->
    n < List.length (filter Expect.is_tool_use blocks) ->
    fst (extractAndStoreToolCalls requestId responseData w) = Throw SqliteError
    /\ tool_calls (tables (db (snd (extractAndStoreToolCalls requestId responseData w))))
       = tool_calls (tables (db w))
         ++ firstn n
              (Expect.tool_call_rows requestId (tool_calls_seq (tables (db w)))
                 (clock_reads w) (filter Expect.is_tool_use blocks))
    /\ published (snd (extractAndStoreToolCalls requestId responseData w))
       = published w
         ++ firstn n
              (List.map (Expect.tool_call_event requestId)
                 (filter Expect.is_tool_use blocks))
    /\ faults (snd (extractAndStoreToolCalls requestId responseData w)) = rest.
Proof.
  intros requestId responseData blocks w n kind rest Hcontent Htxn Hplan Hkind Hn.
  rewrite (extractAndStoreToolCalls_content _ _ _ Hcontent). clear Hcontent.
  revert w n Htxn Hplan Hn.
  induction blocks as [|content more IH]; intros w n Htxn Hplan Hn.
  - cbn in Hn. lia.
  - cbn [filter] in *. destruct (Expect.is_tool_use content) eqn:Huse.
    + destruct n as [|n].
      * cbn in Hplan.
        assert (Hhd : hd NoFault (faults w) <> NoFault) by now rewrite Hplan.
        destruct (extraction_fail requestId content more w Huse Hhd Htxn)
          as (Hfst & Htab & Hpub & Hfaults).
        rewrite Hfst, Htab, Hpub, Hfaults, Hplan. cbn.
        now rewrite !app_nil_r.
      * cbn in Hplan.
        assert (Hhd : hd NoFault (faults w) = NoFault) by now rewrite Hplan.
        destruct (extraction_store requestId content more w Huse Hhd)
          as (w1 & -> & Htab & Htxn1 & Hpub & Hclock & Hfaults).
        assert (Hplan1 : faults w1 = repeat NoFault n ++ kind :: rest)
          by now rewrite Hfaults, Hplan.
        rewrite Htxn in Htxn1. cbn [List.length] in Hn.
        destruct (IH w1 n Htxn1 Hplan1 ltac:(lia)) as (Hfst & Htc & Hpublished & Hf).
        split; [exact Hfst|]. split; [|split; [|exact Hf]].
        -- rewrite Htc, Htab, Hclock. cbn. rewrite <- app_assoc. reflexivity.
        -- rewrite Hpublished, Hpub. cbn. rewrite <- app_assoc. reflexivity.
    + rewrite extraction_skip by exact Huse. now apply IH.
Qed.

End ToolCalls.

Lemma extractAndStoreToolCalls_stores_each_tool_use_witness :
  get_opt Cases.tool_answer_body (u "content") = JArray Cases.tool_blocks
  /\ Forall (fun content => exists name, get_opt content (u "name") = JString name)
       (filter Expect.is_tool_use Cases.tool_blocks)
  /\ quiet (List.length (filter Expect.is_tool_use Cases.tool_blocks))
       (faults (Cases.started [])) = true
  /\ List.map (fun row => (lookup (u "id") row, lookup (u "tool_name") row,
                           lookup (u "input") row))
       (tool_calls (tables (db (snd
          (extractAndStoreToolCalls (printer := Cases.printer)
             (runtime := Samples.runtime None)
             (str "r1") Cases.tool_answer_body (Cases.started []))))))
     = [(JNumber 1, str "Read", JString (jtext "{'file_path':'a.txt'}"));
        (JNumber 2, str "Bash", str "null")].
Proof.
  assert (Hcontent : get_opt Cases.tool_answer_body (u "content")
                     = JArray Cases.tool_blocks) by reflexivity.
  assert (Hnames : Forall (fun content =>
                             exists name, get_opt content (u "name") = JString name)
                     (filter Expect.is_tool_use Cases.tool_blocks))
    by (repeat constructor; eexists; reflexivity).
  assert (Hquiet : quiet (List.length (filter Expect.is_tool_use Cases.tool_blocks))
                     (faults (Cases.started [])) = true) by reflexivity.
  destruct (extractAndStoreToolCalls_stores_each_tool_use
              (printer := Cases.printer) (runtime := Samples.runtime None)
              (str "r1") Cases.tool_answer_body Cases.tool_blocks
              (Cases.started []) Hcontent Hnames Hquiet)
    as (_ & Hrows & _).
  split; [exact Hcontent|]. split; [exact Hnames|]. split; [exact Hquiet|].
  rewrite Hrows. vm_compute. reflexivity.
Defined.

Lemma extractAndStoreToolCalls_stops_at_failed_insert_witness :
  get_opt Cases.tool_answer_body (u "content") = JArray Cases.tool_blocks
  /\ txn (db (Cases.started [NoFault; StmtError])) = None
  /\ faults (Cases.started [NoFault; StmtError])
     = repeat NoFault 1 ++ StmtError :: []
  /\ StmtError <> NoFault
  /\ 1 < List.length (filter Expect.is_tool_use Cases.tool_blocks)
  /\ fst (extractAndStoreToolCalls (printer := Cases.printer)
            (runtime := Samples.runtime None)
            (str "r1") Cases.tool_answer_body (Cases.started [NoFault; StmtError]))
     = Throw SqliteError
  /\ List.map (lookup (u "tool_name"))
       (tool_calls (tables (db (snd
          (extractAndStoreToolCalls (printer := Cases.printer)
             (runtime := Samples.runtime None)
             (str "r1") Cases.tool_answer_body
             (Cases.started [NoFault; StmtError]))))))
     = [str "Read"].
Proof.
  assert (Hcontent : get_opt Cases.tool_answer_body (u "content")
                     = JArray Cases.tool_blocks) by reflexivity.
  assert (Hkind : StmtError <> NoFault) by discriminate.
  assert (Hn : 1 < List.length (filter Expect.is_tool_use Cases.tool_blocks))
    by (vm_compute; lia).
  destruct (extractAndStoreToolCalls_stops_at_failed_insert
              (printer := Cases.printer) (runtime := Samples.runtime None)
              (str "r1") Cases.tool_answer_body Cases.tool_blocks
              (Cases.started [NoFault; StmtError]) 1 StmtError []
              Hcontent eq_refl eq_refl Hkind Hn)
    as (Hfst & Hrows & _).
  split; [exact Hcontent|]. split; [reflexivity|]. split; [reflexivity|].
  split; [exact Hkind|]. split; [exact Hn|]. split; [exact Hfst|].
  rewrite Hrows. vm_compute. reflexivity.
Defined.

(* ===================================================================== *)
(** * The usage of a stream *)
(* ===================================================================== *)

Section UsageOfStream.
Context {parser : JsonParser}.

(** One record keeps the usage found so far or replaces it by one that is
    truthy. *)
Lemma scanRecord_keeps_or_finds (rec : jstring) :
  (forall usage, scanRecord usage rec = Ret usage)
  \/ (exists found,
        truthy found = true /\ forall usage, scanRecord usage rec = Ret found).
Proof.
  unfold scanRecord.
  destruct (negb (nonEmpty rec)); [left; reflexivity|].
  destruct (fold_left scanLine (split rec [LF]) (JNull, [])) as [evt dataParts].
  destruct (negb (is_string evt (u "message_delta"))
            && negb (is_string evt (u "message_start")));
    [left; reflexivity|].
  unfold json_parse.
  destruct (JSON_parse (join dataParts [LF])) as [parsed|];
    [|left; reflexivity].
  cbn [rbind try_catch].
  destruct (is_string evt (u "message_delta")).
  - destruct parsed as [ | |b|f|s|items|props]; cbn;
      try (left; reflexivity).
    + destruct b; left; reflexivity.
    + destruct (negb _ && false); left; reflexivity.
    + destruct s; left; reflexivity.
    + destruct (truthy (lookup (u "usage") props)) eqn:E.
      * right. eexists. split; [exact E|]. intros usage. reflexivity.
      * left; reflexivity.
  - destruct (is_string evt (u "message_start")); [|left; reflexivity].
    destruct parsed as [ | |b|f|s|items|props]; cbn;
      try (left; reflexivity).
    + destruct b; left; reflexivity.
    + destruct (negb _ && false); left; reflexivity.
    + destruct s; left; reflexivity.
    + destruct (lookup (u "message") props) as [ | |b|f|s|items|mprops]; cbn;
        try (left; reflexivity).
      * destruct b; left; reflexivity.
      * destruct (negb _ && false); left; reflexivity.
      * destruct s; left; reflexivity.
      * destruct (truthy (lookup (u "usage") mprops)) eqn:E.
        -- right. eexists. split; [exact E|]. intros usage. reflexivity.
        -- left; reflexivity.
Qed.

(** X11: on every text the scan returns.  Every record either leaves the
    usage found so far as it is or puts a truthy usage in its place, the
    same whatever was found before: a usage that is [null], 0, an empty text
    or [false] never replaces an earlier one.  The result is the usage of
    the last record of the text that puts one in place, and [null] when no
    record does. *)
Theorem extractUsageFromSSE_null_or_carried :
  forall sse,
    (forall rec,
       (forall found, scanRecord found rec = Ret found)
       \/ (exists usage,
             truthy usage = true
             /\ forall found, scanRecord found rec = Ret usage))
    /\ ((extractUsageFromSSE sse = Ret JNull
         /\ forall rec,
              In rec (split sse [LF; LF]) ->
              forall found, scanRecord found rec = Ret found)
        \/ (exists earlier rec later usage,
              split sse [LF; LF] = earlier ++ rec :: later
              /\ extractUsageFromSSE sse = Ret usage
              /\ truthy usage = true
              /\ (forall found, scanRecord found rec = Ret usage)
              /\ forall next,
                   In next later ->
                   forall found, scanRecord found next = Ret found)).
Proof.
  intros sse. split; [exact scanRecord_keeps_or_finds|].
  unfold extractUsageFromSSE.
  assert (H : forall records start,
            exists usage,
              scanRecords records start = Ret usage
              /\ ((usage = start
                   /\ forall rec,
                        In rec records ->
                        forall found, scanRecord found rec = Ret found)
                  \/ (exists earlier rec later,
                        records = earlier ++ rec :: later
                        /\ truthy usage = true
                        /\ (forall found, scanRecord found rec = Ret usage)
                        /\ forall next,
                             In next later ->
                             forall found, scanRecord found next = Ret found))).
  { induction records as [|rec rest IH]; intros start; simpl.
    - exists start. split; [reflexivity|]. left. split; [reflexivity|].
      intros rec [].
    - destruct (scanRecord_keeps_or_finds rec) as [Hkeep|(found & Ht & Hfound)].
      + rewrite Hkeep. cbn [rbind].
        destruct (IH start)
          as (usage & Hrun & [[-> Hall]|(earlier & r & later & -> & Hr)]).
        * exists start. split; [exact Hrun|]. left. split; [reflexivity|].
          intros r [<-|Hin]; [exact Hkeep|now apply Hall].
        * exists usage. split; [exact Hrun|]. right.
          exists (rec :: earlier), r, later. split; [reflexivity|exact Hr].
      + rewrite Hfound. cbn [rbind].
        destruct (IH found)
          as (usage & Hrun & [[-> Hall]|(earlier & r & later & -> & Hr)]).
        * exists found. split; [exact Hrun|]. right.
          exists [], rec, rest. split; [reflexivity|].
          split; [exact Ht|]. split; [exact Hfound|exact Hall].
        * exists usage. split; [exact Hrun|]. right.
          exists (rec :: earlier), r, later. split; [reflexivity|exact Hr]. }
  destruct (H (split sse [LF; LF]) JNull)
    as (usage & Hrun & [[-> Hall]|(earlier & rec & later & Hsplit & Ht & Hrec & Hlater)]).
  - left. rewrite Hrun. split; [reflexivity|exact Hall].
  - right. exists earlier, rec, later, usage. rewrite Hrun.
    split; [exact Hsplit|]. split; [reflexivity|].
    split; [exact Ht|]. split; [exact Hrec|exact Hlater].
Qed.

End UsageOfStream.

(* ===================================================================== *)
(** * Sessions and the clear *)
(* ===================================================================== *)

#[local] Instance session_kept_framing : Framing Expect.session_kept.
Proof.
  split; unfold Expect.session_kept.
  - reflexivity.
  - intros w1 w2 w3 H12 H23. now rewrite H23.
  - reflexivity.
  - reflexivity.
Qed.

Section SessionPrimitives.
Context {runtime : Runtime}.

Lemma session_kept_outside {A} (c : M A) :
  (forall w, currentSessionId (snd (c w)) = currentSessionId w) ->
  respects Expect.session_kept c.
Proof. intros H w. apply H. Qed.

Lemma session_kept_broadcast message :
  respects Expect.session_kept (broadcast message).
Proof. now apply session_kept_outside. Qed.

Lemma session_kept_console_error m e :
  respects Expect.session_kept (console_error m e).
Proof. now apply session_kept_outside. Qed.

Lemma session_kept_update_res f : respects Expect.session_kept (update_res f).
Proof. now apply session_kept_outside. Qed.

Lemma session_kept_fetch headers body :
  respects Expect.session_kept (fetch headers body).
Proof.
  apply session_kept_outside. intros w. unfold fetch.
  destruct (fetch_upstream headers body); reflexivity.
Qed.

Lemma session_kept_statement effect :
  respects Expect.session_kept (statement effect).
Proof.
  apply session_kept_outside. intros w. unfold statement.
  destruct (hd NoFault (faults w)); [destruct (effect _)| |]; reflexivity.
Qed.

End SessionPrimitives.

#[local] Hint Resolve session_kept_broadcast session_kept_console_error
  session_kept_update_res session_kept_fetch session_kept_statement : frame.

(** The fate of one statement after the other, until the clear can be run
    to its end. *)
Ltac by_faults plan :=
  first
    [ solve [ split; [vm_compute; reflexivity|];
              split; [vm_compute; reflexivity|];
              first [ left; vm_compute; repeat split; reflexivity
                    | right; vm_compute; repeat split; reflexivity ] ]
    | destruct plan as [|[] plan]; by_faults plan ].

Section SessionsAndClear.
Context {parser : JsonParser} {printer : JsonPrinter} {runtime : Runtime}.

Lemma session_kept_onData chunks fullResponse :
  respects Expect.session_kept (onData chunks fullResponse).
Proof.
  revert fullResponse. induction chunks as [|c rest IH]; intros full; simpl.
  - frame.
  - unfold res_write. frame.
Qed.

Lemma session_kept_capture req : respects Expect.session_kept (capture req).
Proof.
  unfold capture, postMessages, handleRegularRequest, handleStreamingRequest,
    onEnd, extractAndStoreToolCalls, run, run_insert, res_status_json, res_end,
    res_setHeader.
  frame; apply session_kept_onData.
Qed.

(** X12: [createSession] makes a fresh identifier the active session
    before it writes the row of the session.  When the insert goes through
    the row is the last of the sessions; when it fails the error goes to
    the caller, no row is written and the active session stays the fresh
    one, of which the store knows nothing.  No other table is touched. *)
Theorem createSession_sets_id_before_insert :
  forall w,
    txn (db w) = None ->
    currentSessionId (snd (createSession w)) = JString (uuidv4_nth (ids_drawn w))
    /\ requests (tables (db (snd (createSession w)))) = requests (tables (db w))
    /\ responses (tables (db (snd (createSession w)))) = responses (tables (db w))
    /\ tool_calls (tables (db (snd (createSession w)))) = tool_calls (tables (db w))
    /\ match hd NoFault (faults w) with
       | NoFault =>
           fst (createSession w) = Ret tt
           /\ sessions (tables (db (snd (createSession w))))
              = sessions (tables (db w))
                ++ [Spec.session_row (uuidv4_nth (ids_drawn w))
                      (Date_now_nth (clock_reads w))]
       | _ =>
           fst (createSession w) = Throw SqliteError
           /\ sessions (tables (db (snd (createSession w))))
              = sessions (tables (db w))
       end.
Proof.
  intros [[ts tx] plan sid cs pub con fwd ids clock r] Htxn.
  cbn in Htxn. subst tx.
  destruct plan as [|[] plan]; vm_compute; repeat split.
Qed.

(** X13: the clear answers whatever fails and in whatever state the store
    was: it does not throw and it leaves no transaction open.  Either it
    answers ok, and then [cleared] was published once, to every open
    observer, and nothing was logged; or it answers 500, and then nothing
    was published and the failure was logged once. *)
Theorem postClear_always_answers :
  forall w,
    fst (postClear w) = Ret tt
    /\ txn (db (snd (postClear w))) = None
    /\ ((res (snd (postClear w)) = Spec.cleared_reply (res w)
         /\ published (snd (postClear w)) = published w ++ [Expect.cleared_event]
         /\ clients (snd (postClear w))
            = List.map (Expect.deliver [Expect.cleared_event]) (clients w)
         /\ console (snd (postClear w)) = console w)
        \/ (res (snd (postClear w)) = Spec.clear_failed_reply (res w)
            /\ published (snd (postClear w)) = published w
            /\ clients (snd (postClear w)) = clients w
            /\ console (snd (postClear w))
               = console w ++ [(u "Failed to clear traces:", SqliteError)])).
Proof.
  intros [[ts tx] plan sid cs pub con fwd ids clock r].
  destruct tx as [before|]; by_faults plan.
Qed.

(** X14: when the deletes are committed and the insert of the fresh
    session fails, the clear answers 500 although the four tables are now
    empty for good: the rollback of the handler finds no transaction to
    undo.  The active session is an identifier that has no row, and
    [cleared] is not published. *)
Theorem postClear_failure_after_commit :
  forall w kind rest,
    txn (db w) = None ->
    faults w = repeat NoFault 7 ++ kind :: rest ->
    kind <> NoFault ->
    fst (postClear w) = Ret tt
    /\ res (snd (postClear w)) = Spec.clear_failed_reply (res w)
    /\ tables (db (snd (postClear w)))
       = mkTables [] [] [] [] (tool_calls_seq (tables (db w)))
    /\ currentSessionId (snd (postClear w)) = JString (uuidv4_nth (ids_drawn w))
    /\ published (snd (postClear w)) = published w.
Proof.
  intros [[ts tx] plan sid cs pub con fwd ids clock r] kind rest Htxn Hplan Hkind.
  cbn in Htxn, Hplan. subst tx plan.
  destruct kind; [contradiction| |]; destruct rest as [|[] rest];
    vm_compute; repeat split.
Qed.

(** X15: after a clear without a failing statement the sessions query
    returns one session, the fresh one, and it is the active session:
    nothing of the sessions before the clear is listed. *)
Theorem postClear_then_getSessions :
  forall w,
    txn (db w) = None ->
    quiet 8 (faults w) = true ->
    fst (Queries.getSessions (snd (postClear w))) = Ret tt
    /\ res_json_of (Queries.getSessions (snd (postClear w)))
       = Some (JArray [JObject (Spec.session_row (uuidv4_nth (ids_drawn w))
                                  (Date_now_nth (clock_reads w)))])
    /\ currentSessionId (snd (postClear w)) = JString (uuidv4_nth (ids_drawn w)).
Proof.
  intros [[ts tx] plan sid cs pub con fwd ids clock r] Htxn Hquiet.
  cbn in Htxn, Hquiet. subst tx.
  do 8 (try (destruct plan as [|[] plan]; cbn in Hquiet;
             try discriminate Hquiet));
    try (destruct plan as [|[] plan]);
    vm_compute; repeat split.
Qed.

(** X16: a captured call neither rotates nor loses the active session.
    When the active session has its row before the call it has it after
    the call, and every row the call adds to [requests] is filed under
    it. *)
Theorem capture_files_under_active_session :
  forall req w,
    txn (db w) = None ->
    Expect.session_stored w ->
    Expect.session_stored (snd (capture req w))
    /\ currentSessionId (snd (capture req w)) = currentSessionId w
    /\ forall row,
         In row (requests (tables (db (snd (capture req w))))) ->
         In row (requests (tables (db w)))
         \/ lookup (u "session_id") row = currentSessionId w.
Proof.
  intros req w Htxn (srow & Hin & Hid).
  pose proof (session_kept_capture req w) as Hsid.
  unfold Expect.session_kept in Hsid.
  destruct (capture_keeps_sessions req w Htxn) as [_ Hsessions].
  split; [|split; [exact Hsid|]].
  - exists srow. rewrite Hsessions, Hsid. now split.
  - intros row Hrow.
    rewrite (proj1 (capture_request_row req w) Htxn) in Hrow.
    apply in_app_or in Hrow. destruct Hrow as [Hold|Hnew]; [now left|].
    right. destruct (hd NoFault (faults w)); cbn in Hnew;
      try contradiction.
    destruct Hnew as [<-|[]]. reflexivity.
Qed.

End SessionsAndClear.

Lemma createSession_sets_id_before_insert_witness :
  txn (db (Cases.started [StmtError])) = None
  /\ fst (createSession (runtime := Samples.runtime None)
            (Cases.started [StmtError])) = Throw SqliteError
  /\ currentSessionId (snd (createSession (runtime := Samples.runtime None)
                              (Cases.started [StmtError])))
     = JString (u "id-0")
  /\ sessions (tables (db (snd (createSession (runtime := Samples.runtime None)
                                  (Cases.started [StmtError])))))
     = [Spec.session_row (u "s1") 990].
Proof.
  destruct (createSession_sets_id_before_insert (runtime := Samples.runtime None)
              (Cases.started [StmtError]) eq_refl)
    as (Hid & _ & _ & _ & Hcase).
  assert (Hhd : hd NoFault (faults (Cases.started [StmtError])) = StmtError)
    by reflexivity.
  rewrite Hhd in Hcase. destruct Hcase as [Hfst Hsessions].
  split; [reflexivity|]. split; [exact Hfst|].
  split; [rewrite Hid; reflexivity|rewrite Hsessions; reflexivity].
Defined.

Lemma postClear_failure_after_commit_witness :
  txn (db (Cases.started (repeat NoFault 7 ++ [StmtError]))) = None
  /\ faults (Cases.started (repeat NoFault 7 ++ [StmtError]))
     = repeat NoFault 7 ++ StmtError :: []
  /\ StmtError <> NoFault
  /\ sessions (tables (db (snd
       (postClear (runtime := Samples.runtime None)
          (Cases.started (repeat NoFault 7 ++ [StmtError])))))) = []
  /\ currentSessionId (snd
       (postClear (runtime := Samples.runtime None)
          (Cases.started (repeat NoFault 7 ++ [StmtError]))))
     = JString (u "id-0")
  /\ res_status (res (snd
       (postClear (runtime := Samples.runtime None)
          (Cases.started (repeat NoFault 7 ++ [StmtError])))))
     = Some (JNumber 500).
Proof.
  assert (Hkind : StmtError <> NoFault) by discriminate.
  destruct (postClear_failure_after_commit (runtime := Samples.runtime None)
              (Cases.started (repeat NoFault 7 ++ [StmtError])) StmtError []
              eq_refl eq_refl Hkind)
    as (_ & Hres & Htables & Hid & _).
  split; [reflexivity|]. split; [reflexivity|]. split; [exact Hkind|].
  split; [rewrite Htables; reflexivity|].
  split; [rewrite Hid; reflexivity|rewrite Hres; reflexivity].
Defined.

Lemma postClear_then_getSessions_witness :
  txn (db (Cases.started [])) = None
  /\ quiet 8 (faults (Cases.started [])) = true
  /\ res_json_of
       (Queries.getSessions
          (snd (postClear (runtime := Samples.runtime None) (Cases.started []))))
     = Some (JArray [JObject (Spec.session_row (u "id-0") 1000)]).
Proof.
  destruct (postClear_then_getSessions (runtime := Samples.runtime None)
              (Cases.started []) eq_refl eq_refl)
    as (_ & Hjson & _).
  split; [reflexivity|]. split; [reflexivity|].
  rewrite Hjson. vm_compute. reflexivity.
Defined.

Lemma capture_files_under_active_session_witness :
  txn (db (Cases.started [])) = None
  /\ Expect.session_stored (Cases.started [])
  /\ currentSessionId (snd
       (capture (printer := Cases.printer)
          (runtime := Samples.runtime (Some Samples.usage_answer))
          Samples.buffered_call (Cases.started [])))
     = str "s1".
Proof.
  assert (Hstored : Expect.session_stored (Cases.started []))
    by (eexists; split; [left; reflexivity|reflexivity]).
  destruct (capture_files_under_active_session (printer := Cases.printer)
              (runtime := Samples.runtime (Some Samples.usage_answer))
              Samples.buffered_call (Cases.started []) eq_refl Hstored)
    as (_ & Hid & _).
  split; [reflexivity|]. split; [exact Hstored|].
  rewrite Hid. reflexivity.
Defined.

(* ===================================================================== *)
(** * The order of what the queries list *)
(* ===================================================================== *)

Lemma SFcompare_Lt_Gt (x y : spec_float) :
  SFcompare x y = Some Lt -> SFcompare y x = Some Gt.
Proof.
  destruct x as [[]| [] | |[] m1 e1], y as [[]| [] | |[] m2 e2]; cbn;
    try discriminate; try reflexivity;
    change (Pos.compare_cont Eq m1 m2) with (Pos.compare m1 m2);
    change (Pos.compare_cont Eq m2 m1) with (Pos.compare m2 m1);
    rewrite (Z.compare_antisym e1 e2), (Pos.compare_antisym m1 m2);
    destruct (e1 ?= e2)%Z; cbn; try discriminate; try reflexivity;
    destruct (m1 ?= m2)%positive; cbn; try discriminate; reflexivity.
Qed.

Lemma ltb_asymmetric (x y : float) :
  PrimFloat.ltb x y = true -> PrimFloat.ltb y x = false.
Proof.
  rewrite !FloatAxioms.ltb_spec. unfold SFltb.
  destruct (SFcompare (Prim2SF x) (Prim2SF y)) as [[]|] eqn:E; try discriminate.
  intros _. now rewrite (SFcompare_Lt_Gt _ _ E).
Qed.

Section Ordering.
Variable col : jstring.

Let before (a b : Row) : Prop :=
  PrimFloat.ltb (sql_number (lookup col a)) (sql_number (lookup col b)) = false.

Lemma insert_desc_length r sorted :
  List.length (insert_desc col r sorted) = S (List.length sorted).
Proof.
  induction sorted as [|r' rest IH]; simpl; [reflexivity|].
  destruct (PrimFloat.ltb _ _); simpl; [reflexivity|now rewrite IH].
Qed.

Lemma order_by_desc_length rows :
  List.length (order_by_desc col rows) = List.length rows.
Proof.
  unfold order_by_desc.
  assert (H : forall acc,
            List.length (fold_left (fun sorted r => insert_desc col r sorted)
                           rows acc)
            = List.length rows + List.length acc).
  { induction rows as [|r rest IH]; intros acc; simpl; [reflexivity|].
    rewrite IH, insert_desc_length. lia. }
  rewrite H. simpl. lia.
Qed.

Lemma insert_desc_perm r sorted :
  Permutation (r :: sorted) (insert_desc col r sorted).
Proof.
  induction sorted as [|r' rest IH]; simpl; [reflexivity|].
  destruct (PrimFloat.ltb _ _); [reflexivity|].
  rewrite perm_swap. now constructor.
Qed.

Lemma order_by_desc_perm rows : Permutation rows (order_by_desc col rows).
Proof.
  unfold order_by_desc.
  assert (H : forall acc,
            Permutation (rows ++ acc)
              (fold_left (fun sorted r => insert_desc col r sorted) rows acc)).
  { induction rows as [|r rest IH]; intros acc; simpl; [reflexivity|].
    rewrite <- IH. rewrite <- insert_desc_perm.
    apply Permutation_middle. }
  specialize (H []). now rewrite app_nil_r in H.
Qed.

Lemma insert_desc_hd r sorted a :
  before a r -> HdRel before a sorted ->
  HdRel before a (insert_desc col r sorted).
Proof.
  intros Har Ha. destruct sorted as [|r' rest]; simpl.
  - now constructor.
  - destruct (PrimFloat.ltb (sql_number (lookup col r'))
                (sql_number (lookup col r)));
      constructor; [exact Har|]. now inversion Ha.
Qed.

Lemma insert_desc_sorted r sorted :
  Sorted before sorted -> Sorted before (insert_desc col r sorted).
Proof.
  induction sorted as [|r' rest IH]; intros Hs; simpl.
  - repeat constructor.
  - destruct (PrimFloat.ltb (sql_number (lookup col r'))
                (sql_number (lookup col r))) eqn:E.
    + constructor; [exact Hs|]. constructor. unfold before.
      now apply ltb_asymmetric.
    + inversion Hs as [|? ? Hrest Hhd]; subst.
      constructor; [now apply IH|].
      apply insert_desc_hd; [exact E|exact Hhd].
Qed.

Lemma order_by_desc_sorted rows : Sorted before (order_by_desc col rows).
Proof.
  unfold order_by_desc.
  assert (H : forall acc,
            Sorted before acc ->
            Sorted before
              (fold_left (fun sorted r => insert_desc col r sorted) rows acc)).
  { induction rows as [|r rest IH]; intros acc Hacc; simpl; [exact Hacc|].
    apply IH. now apply insert_desc_sorted. }
  apply H. constructor.
Qed.

Lemma map_JObject_sorted rows :
  Sorted before rows -> Expect.newest_first col (List.map JObject rows).
Proof.
  unfold Expect.newest_first.
  induction rows as [|r rest IH]; intros Hs; simpl; [constructor|].
  inversion Hs as [|? ? Hrest Hhd]; subst.
  constructor; [now apply IH|].
  destruct rest as [|r' rest']; simpl; constructor.
  now inversion Hhd.
Qed.

End Ordering.

Lemma firstn_sorted {A} (R : A -> A -> Prop) n (l : list A) :
  Sorted R l -> Sorted R (firstn n l).
Proof.
  revert l. induction n as [|n IH]; intros [|x l] Hs; simpl; try constructor.
  - inversion Hs; subst. now apply IH.
  - inversion Hs as [|? ? _ Hhd]; subst. destruct n; simpl; [constructor|].
    destruct l; simpl; [constructor|]. constructor. now inversion Hhd.
Qed.

Section QueryOrder.
Context {parser : JsonParser} {printer : JsonPrinter} {runtime : Runtime}.

Lemma map_result_length {A B} (f : A -> Result B) xs ys :
  map_result f xs = Ret ys -> List.length ys = List.length xs.
Proof.
  revert ys. induction xs as [|x rest IH]; intros ys; simpl.
  - now intros [= <-].
  - destruct (f x) as [y|e]; simpl; [|discriminate].
    destruct (map_result f rest) as [ys'|e]; simpl; [|discriminate].
    intros [= <-]. simpl. now rewrite (IH ys').
Qed.

(** A full trace has the columns of its request, but for the four entries
    the route puts in itself. *)
Lemma fullTrace_keeps_column (ts : Tables) (trace : Row) (k : jstring) :
  Expect.store_handed_back ts ->
  k <> u "body" -> k <> u "stream" -> k <> u "response" -> k <> u "toolCalls" ->
  exists props,
    fullTrace ts trace = Ret (JObject props) /\ lookup k props = lookup k trace.
Proof.
  intros Hstore H1 H2 H3 H4. rewrite (fullTrace_handed_back _ _ Hstore).
  destruct (safeParseJSON_returns (lookup (u "body") trace)) as [pb ->].
  cbn [rbind].
  assert (Hresp : exists r,
    match hd_error (selectResponsesByRequest (lookup (u "id") trace) ts) with
    | Some row =>
        rbind (safeParseJSON (lookup (u "body") row))
          (fun body => Ret (JObject (spread [(u "body", body)] row)))
    | None => Ret JNull
    end = Ret r).
  { destruct (hd_error _) as [row|]; [|eexists; reflexivity].
    destruct (safeParseJSON_returns (lookup (u "body") row)) as [rb ->].
    eexists; reflexivity. }
  destruct Hresp as [r ->]. cbn [rbind].
  eexists. split; [reflexivity|]. cbn [spread].
  rewrite !lookup_set_prop_other by (intros E; symmetry in E; contradiction).
  reflexivity.
Qed.

Lemma map_fullTrace_sorted (ts : Tables) (rows : list Row) (out : list JsVal) :
  Expect.store_handed_back ts ->
  map_result (fullTrace ts) rows = Ret out ->
  Sorted (fun a b => PrimFloat.ltb (sql_number (lookup (u "timestamp") a))
                       (sql_number (lookup (u "timestamp") b)) = false) rows ->
  Expect.newest_first (u "timestamp") out.
Proof.
  intros Hstore.
  assert (Hne : forall k, k = u "body" \/ k = u "stream" \/ k = u "response"
                          \/ k = u "toolCalls" -> u "timestamp" <> k).
  { intros k [->|[->|[->| ->]]]; intros E; vm_compute in E; discriminate. }
  assert (Hcol : forall trace, exists props,
            fullTrace ts trace = Ret (JObject props)
            /\ lookup (u "timestamp") props = lookup (u "timestamp") trace).
  { intros trace. apply fullTrace_keeps_column; [exact Hstore|..]; apply Hne; auto. }
  clear Hne. revert out.
  induction rows as [|row rest IH]; intros out Hmap Hs; simpl in Hmap.
  - injection Hmap as <-. constructor.
  - destruct (Hcol row) as (props & Hrow & Hts). rewrite Hrow in Hmap. cbn in Hmap.
    destruct (map_result (fullTrace ts) rest) as [outs|e] eqn:Hrest;
      [|discriminate]. cbn in Hmap. injection Hmap as <-.
    inversion Hs as [|? ? Hsorted Hhd]; subst.
    constructor; [now apply IH|].
    destruct rest as [|next rest'].
    + cbn in Hrest. injection Hrest as <-. constructor.
    + cbn in Hrest. destruct (Hcol next) as (nprops & Hnext & Hnts).
      rewrite Hnext in Hrest. cbn in Hrest.
      destruct (map_result (fullTrace ts) rest'); [|discriminate].
      cbn in Hrest. injection Hrest as <-. constructor.
      cbn. rewrite Hts, Hnts. now inversion Hhd.
Qed.

(** X17: on a store that hands its rows back (no INTEGER column of a
    request, a response or a tool call holds a NaN, a negative zero or a
    whole number beyond the safe integers) the trace query answers with an
    array in which no trace is followed by a trace of a later timestamp.
    With a session id it lists as many traces as the session has requests,
    without one as many as there are requests and 100 at most.  On a stored
    INTEGER beyond the safe integers the query throws instead; the statement
    leaves that case out. *)
Theorem getTraces_newest_first :
  forall sessionId w,
    Expect.store_handed_back (tables (db w)) ->
    exists out,
      fst (getTraces sessionId w) = Ret tt
      /\ res_json_of (getTraces sessionId w) = Some (JArray out)
      /\ Expect.newest_first (u "timestamp") out
      /\ List.length out
         = if truthy sessionId
           then List.length
                  (filter (fun r => sql_eqb (lookup (u "session_id") r) sessionId)
                     (requests (tables (db w))))
           else Nat.min 100 (List.length (requests (tables (db w)))).
Proof.
  intros sessionId w Hstore. pose proof Hstore as (Hrq & _ & _).
  unfold res_json_of, getTraces, mbind, query, lift, res_send_json, update_res.
  cbn [fst snd].
  destruct (truthy sessionId).
  - assert (Hrows : Forall (Expect.handed_back Requests)
                      (selectRequestsBySession sessionId (tables (db w))))
      by (unfold selectRequestsBySession;
          apply Forall_order_by_desc, Forall_select_where, Hrq).
    rewrite (stmt_all_handed_back _ _ Hrows).
    destruct (map_fullTrace_returns (tables (db w))
                (selectRequestsBySession sessionId (tables (db w))) Hstore)
      as [out Hout].
    pose proof (map_result_length _ _ _ Hout) as Hlen.
    pose proof (map_fullTrace_sorted _ _ out Hstore Hout) as Hsorted.
    rewrite Hout. exists out. cbn [fst snd res with_res res_json].
    split; [reflexivity|]. split; [reflexivity|]. split.
    + apply Hsorted. apply order_by_desc_sorted.
    + rewrite Hlen. unfold selectRequestsBySession, select_where.
      apply order_by_desc_length.
  - assert (Hrows : Forall (Expect.handed_back Requests)
                      (selectRecentRequests (tables (db w))))
      by (unfold selectRecentRequests;
          apply Forall_firstn, Forall_order_by_desc, Hrq).
    rewrite (stmt_all_handed_back _ _ Hrows).
    destruct (map_fullTrace_returns (tables (db w))
                (selectRecentRequests (tables (db w))) Hstore)
      as [out Hout].
    pose proof (map_result_length _ _ _ Hout) as Hlen.
    pose proof (map_fullTrace_sorted _ _ out Hstore Hout) as Hsorted.
    rewrite Hout. exists out. cbn [fst snd res with_res res_json].
    split; [reflexivity|]. split; [reflexivity|]. split.
    + apply Hsorted. apply firstn_sorted, order_by_desc_sorted.
    + rewrite Hlen. unfold selectRecentRequests.
      rewrite length_firstn, order_by_desc_length. reflexivity.
Qed.

(** X18: the sessions query answers with every stored session, each one
    once and with the columns of its row, and no session is followed by a
    session that started later. *)
Theorem getSessions_newest_first :
  forall w,
    exists rows,
      fst (Queries.getSessions w) = Ret tt
      /\ res_json_of (Queries.getSessions w) = Some (JArray (List.map JObject rows))
      /\ Permutation (sessions (tables (db w))) rows
      /\ Expect.newest_first (u "started_at") (List.map JObject rows).
Proof.
  intros w. exists (order_by_desc (u "started_at") (sessions (tables (db w)))).
  split; [reflexivity|]. split; [reflexivity|]. split.
  - apply order_by_desc_perm.
  - apply map_JObject_sorted, order_by_desc_sorted.
Qed.

End QueryOrder.

Lemma getTraces_newest_first_witness :
  Expect.store_handed_back (tables (db Cases.streamed))
  /\ exists out,
       res_json_of (getTraces JUndefined Cases.streamed) = Some (JArray out)
       /\ List.length out = 1.
Proof.
  assert (Hstore : Expect.store_handed_back (tables (db Cases.streamed)))
    by (repeat split; evaluated_rows; repeat constructor;
        vm_compute; reflexivity).
  destruct (getTraces_newest_first JUndefined Cases.streamed Hstore)
    as (out & _ & Hjson & _ & Hlen).
  split; [exact Hstore|]. exists out. split; [exact Hjson|].
  rewrite Hlen. reflexivity.
Defined.

(* ===================================================================== *)
(** * The older copy of the server *)
(* ===================================================================== *)

Section LegacyCaller.
Context {parser : JsonParser} {printer : JsonPrinter} {runtime : Runtime}.

Lemma legacy_handleRegularRequest_caller req requestId w :
  forwarded (snd (Legacy.handleRegularRequest req requestId w))
  = Spec.upstream_calls req (forwarded w)
  /\ (exists more,
        published (snd (Legacy.handleRegularRequest req requestId w))
        = published w ++ more)
  /\ match buildAnthropicHeaders (req_headers req) with
     | Throw e =>
         fst (Legacy.handleRegularRequest req requestId w) = Throw e
         /\ res (snd (Legacy.handleRegularRequest req requestId w)) = res w
     | Ret headers =>
         match fetch_upstream headers (JSON_stringify (req_body req)) with
         | None =>
             fst (Legacy.handleRegularRequest req requestId w) = Throw FetchError
             /\ res (snd (Legacy.handleRegularRequest req requestId w)) = res w
         | Some upstream =>
             match response_json upstream with
             | Throw e =>
                 fst (Legacy.handleRegularRequest req requestId w) = Throw e
                 /\ res (snd (Legacy.handleRegularRequest req requestId w)) = res w
             | Ret data =>
                 fst (Legacy.handleRegularRequest req requestId w) = Ret tt
                 /\ res (snd (Legacy.handleRegularRequest req requestId w))
                    = mkRes (Some (JNumber (up_status upstream)))
                        (res_headers (res w)) (res_written (res w))
                        (Some data) true
             end
         end
     end.
Proof.
  unfold Legacy.handleRegularRequest, Spec.upstream_calls.
  rewrite mbind_Date_now, mbind_lift.
  destruct (buildAnthropicHeaders (req_headers req)) as [headers|e].
  2: { cbn. repeat split. exists []. now rewrite app_nil_r. }
  rewrite mbind_fetch. cbv zeta.
  destruct (fetch_upstream headers (JSON_stringify (req_body req)))
    as [upstream|].
  2: { cbn. repeat split. exists []. now rewrite app_nil_r. }
  rewrite mbind_lift.
  destruct (response_json upstream) as [data|e].
  2: { cbn. repeat split. exists []. now rewrite app_nil_r. }
  rewrite mbind_Date_now.
  match goal with
  | |- context [mbind (mtry ?b ?h) ?k ?w] =>
      assert (Hb : respects bookkeeping (mtry b h))
        by (unfold Legacy.run, run_insert; frame);
      destruct (mbind_respects bookkeeping (mtry b h) k w Hb
                  (fun w0 => mtry_logged_returns _ _ w0))
        as (w1 & Heq & Hres & Hfwd & more & Hpub);
      rewrite Heq; clear Heq Hb
  end.
  rewrite mbind_broadcast.
  cbn. rewrite Hres, Hfwd, Hpub. cbn.
  repeat split. eexists. rewrite <- app_assoc. reflexivity.
Qed.

Lemma legacy_onData_caller requestId chunks fullResponse w :
  fst (Legacy.onData requestId chunks fullResponse w)
  = Ret (fullResponse ++ List.concat chunks)
  /\ res (snd (Legacy.onData requestId chunks fullResponse w))
     = mkRes (res_status (res w)) (res_headers (res w))
         (res_written (res w) ++ chunks) (res_json (res w)) (res_ended (res w))
  /\ forwarded (snd (Legacy.onData requestId chunks fullResponse w)) = forwarded w.
Proof.
  revert fullResponse w.
  induction chunks as [|chunk rest IH]; intros fullResponse w; simpl.
  - rewrite !app_nil_r. destruct (res w). repeat split.
  - unfold res_write. rewrite mbind_update_res, mbind_broadcast.
    match goal with
    | |- context [Legacy.onData requestId rest ?full ?w0] =>
        destruct (IH full w0) as (Hfst & Hres & Hfwd)
    end.
    rewrite Hfst, Hres, Hfwd. cbn.
    rewrite <- !app_assoc. repeat split.
Qed.

Lemma legacy_onEnd_caller requestId startTime fullResponse w :
  fst (Legacy.onEnd requestId startTime fullResponse w) = Ret tt
  /\ res (snd (Legacy.onEnd requestId startTime fullResponse w))
     = mkRes (res_status (res w)) (res_headers (res w)) (res_written (res w))
         (res_json (res w)) true
  /\ forwarded (snd (Legacy.onEnd requestId startTime fullResponse w)) = forwarded w.
Proof.
  unfold Legacy.onEnd. rewrite mbind_Date_now.
  match goal with
  | |- context [mbind (mtry ?b ?h) ?k ?w] =>
      assert (Hb : respects bookkeeping (mtry b h))
        by (unfold Legacy.run, run_insert; frame);
      destruct (mbind_respects bookkeeping (mtry b h) k w Hb
                  (fun w0 => mtry_logged_returns _ _ w0))
        as (w1 & Heq & Hres & Hfwd & more & Hpub);
      rewrite Heq; clear Heq Hb
  end.
  destruct (parseStreamingResponse_returns fullResponse) as [pf Hpf].
  rewrite mbind_lift, Hpf, mbind_broadcast.
  cbn. rewrite Hres, Hfwd. cbn. repeat split.
Qed.

(** The older copy, as the caller and the upstream see it. *)
Lemma legacy_capture_caller req w :
  fst (Legacy.capture req w) = Ret tt
  /\ res (snd (Legacy.capture req w)) = Spec.forwarded_reply req (res w)
  /\ forwarded (snd (Legacy.capture req w)) = Spec.upstream_calls req (forwarded w).
Proof.
  destruct (Legacy.capture req w) as [r wf] eqn:Hrun. cbn [fst snd].
  unfold Legacy.capture, Legacy.postMessages in Hrun.
  rewrite mbind_assoc, mbind_uuidv4 in Hrun.
  rewrite mbind_assoc, mbind_Date_now in Hrun.
  rewrite mbind_assoc in Hrun.
  match type of Hrun with
  | mbind (mtry ?b ?h) ?k ?w0 = _ =>
      assert (Hb : respects silent (mtry b h))
        by (unfold Legacy.run, run_insert; frame);
      destruct (mbind_respects silent (mtry b h) k w0 Hb
                  (fun w1 => mtry_logged_returns _ _ w1))
        as (w1 & Heq & Hres1 & Hfwd1 & Hpub1);
      rewrite Heq in Hrun; clear Heq Hb
  end.
  cbn in Hres1, Hfwd1, Hpub1.
  rewrite mbind_assoc, mbind_broadcast in Hrun.
  rewrite mbind_assoc in Hrun.
  set (w2 := snd (broadcast _ w1)) in Hrun.
  assert (Hres2 : res w2 = res w) by (subst w2; cbn; exact Hres1).
  assert (Hfwd2 : forwarded w2 = forwarded w) by (subst w2; cbn; exact Hfwd1).
  clearbody w2. clear w1 Hres1 Hfwd1 Hpub1.
  unfold Spec.forwarded_reply.
  unfold mbind at 1, mtry in Hrun.
  destruct (truthy (get_opt (req_body req) (u "stream"))).
  - (* the streaming path *)
    unfold mbind at 1 in Hrun.
    pose proof (handleStreamingRequest_caller req
                  (JString (uuidv4_nth (ids_drawn w))) w2)
      as (Hfwd3 & Hpub3 & Hres3 & Hout).
    destruct (handleStreamingRequest req (JString (uuidv4_nth (ids_drawn w))) w2)
      as [[stream|e] w3]; cbn [fst snd] in *.
    + destruct (buildAnthropicHeaders (req_headers req)) as [headers|e];
        [|discriminate Hout].
      destruct (fetch_upstream headers (JSON_stringify (req_body req)))
        as [upstream|]; [|discriminate Hout].
      destruct Hout as [t Hout]. injection Hout as ->. cbn in Hrun.
      unfold mbind in Hrun.
      pose proof (legacy_onData_caller (JString (uuidv4_nth (ids_drawn w)))
                    (up_chunks upstream) [] w3)
        as (Hfst4 & Hres4 & Hfwd4).
      destruct (Legacy.onData (JString (uuidv4_nth (ids_drawn w)))
                  (up_chunks upstream) [] w3) as [full w4].
      cbn [fst snd] in *. subst full.
      pose proof (legacy_onEnd_caller (JString (uuidv4_nth (ids_drawn w))) t
                    ([] ++ List.concat (up_chunks upstream)) w4)
        as (Hfst5 & Hres5 & Hfwd5).
      rewrite Hrun in Hfst5, Hres5, Hfwd5. cbn [fst snd] in *.
      split; [exact Hfst5|].
      split; [rewrite Hres5, Hres4, Hres3, Hres2; reflexivity|].
      rewrite Hfwd5, Hfwd4, Hfwd3, Hfwd2; reflexivity.
    + cbn in Hrun. injection Hrun as <- <-. cbn.
      rewrite Hres3, Hfwd3, Hres2, Hfwd2.
      unfold Spec.upstream_calls in *.
      destruct (buildAnthropicHeaders (req_headers req)) as [headers|e'].
      * destruct (fetch_upstream headers (JSON_stringify (req_body req)))
          as [upstream|]; [destruct Hout; discriminate|].
        injection Hout as ->. repeat split.
      * injection Hout as ->. repeat split.
  - (* the buffered path *)
    unfold mbind at 1 in Hrun.
    pose proof (legacy_handleRegularRequest_caller req
                  (JString (uuidv4_nth (ids_drawn w))) w2)
      as (Hfwd3 & (more & Hpub3) & Hout).
    destruct (Legacy.handleRegularRequest req (JString (uuidv4_nth (ids_drawn w))) w2)
      as [[[]|e] w3]; cbn [fst snd] in *.
    + cbn in Hrun. injection Hrun as <- <-.
      destruct (buildAnthropicHeaders (req_headers req)) as [headers|e];
        [|destruct Hout; discriminate].
      destruct (fetch_upstream headers (JSON_stringify (req_body req)))
        as [upstream|]; [|destruct Hout; discriminate].
      destruct (response_json upstream) as [data|e];
        [|destruct Hout; discriminate].
      destruct Hout as [_ Hres3].
      rewrite Hres3, Hfwd3, Hres2, Hfwd2.
      repeat split.
    + cbn in Hrun. injection Hrun as <- <-. cbn.
      rewrite Hfwd3, Hfwd2.
      split; [reflexivity|]. split; [|reflexivity].
      destruct (buildAnthropicHeaders (req_headers req)) as [headers|e'].
      * destruct (fetch_upstream headers (JSON_stringify (req_body req)))
          as [upstream|].
        -- destruct (response_json upstream) as [data|e''];
             destruct Hout as [Hr Hres3]; [discriminate|].
           injection Hr as ->. rewrite Hres3, Hres2. reflexivity.
        -- destruct Hout as [Hr Hres3]. injection Hr as ->.
           rewrite Hres3, Hres2. reflexivity.
      * destruct Hout as [Hr Hres3]. injection Hr as ->.
        rewrite Hres3, Hres2. reflexivity.
Qed.

(** X19: the two copies of the server are the same forwarder.  On every
    call and from every state the older copy does not throw, and it sends
    the caller the same reply and the upstream the same calls as the newer
    copy, whatever statements fail in the one or in the other. *)
Theorem legacy_capture_same_forwarder :
  forall req w plan plan',
    fst (Legacy.capture req (with_faults plan w)) = Ret tt
    /\ res (snd (Legacy.capture req (with_faults plan w)))
       = res (snd (capture req (with_faults plan' w)))
    /\ forwarded (snd (Legacy.capture req (with_faults plan w)))
       = forwarded (snd (capture req (with_faults plan' w))).
Proof.
  intros req w plan plan'.
  destruct (legacy_capture_caller req (with_faults plan w)) as (Hfst & Hres & Hfwd).
  destruct (capture_caller req (with_faults plan' w)) as (_ & Hres' & Hfwd' & _).
  split; [exact Hfst|]. split; [now rewrite Hres, Hres'|now rewrite Hfwd, Hfwd'].
Qed.

Lemma broadcast_delivers message w :
  snd (broadcast message w)
  = with_hub (List.map (Expect.deliver [message]) (clients w))
      (published w ++ [message]) w.
Proof. reflexivity. Qed.

Lemma legacy_onData_run requestId chunks fullResponse w :
  Legacy.onData requestId chunks fullResponse w
  = (Ret (fullResponse ++ List.concat chunks),
     with_res (mkRes (res_status (res w)) (res_headers (res w))
                 (res_written (res w) ++ chunks) (res_json (res w))
                 (res_ended (res w)))
       (with_hub
          (List.map
             (Expect.deliver (List.map (Expect.stream_chunk_event requestId) chunks))
             (clients w))
          (published w ++ List.map (Expect.stream_chunk_event requestId) chunks)
          w)).
Proof.
  revert fullResponse w.
  induction chunks as [|chunk rest IH]; intros fullResponse w.
  - cbn [Legacy.onData List.map List.concat]. rewrite !app_nil_r.
    destruct w as [d f s c p co fw i cl []].
    unfold mret, with_res, with_hub.
    cbn [db faults currentSessionId clients published console forwarded
         ids_drawn clock_reads res res_status res_headers res_written res_json
         res_ended].
    repeat f_equal.
    rewrite <- (map_id c) at 1. apply map_ext. intros x.
    now rewrite deliver_nil.
  - cbn [Legacy.onData List.map List.concat].
    unfold res_write. rewrite mbind_update_res, mbind_broadcast,
      broadcast_delivers, IH.
    destruct w as [d f s c p co fw i cl []].
    unfold with_res, with_hub.
    cbn [db faults currentSessionId clients published console forwarded
         ids_drawn clock_reads res res_status res_headers res_written res_json
         res_ended].
    rewrite <- !app_assoc, map_map. cbn [app].
    f_equal. f_equal. apply map_ext. intros x. apply deliver_app.
Qed.

Lemma legacy_onEnd_run requestId startTime fullResponse w parsedFinal :
  parseStreamingResponse fullResponse = Ret parsedFinal ->
  hd NoFault (faults w) = NoFault ->
  Legacy.onEnd requestId startTime fullResponse w
  = (Ret tt,
     with_res (mkRes (res_status (res w)) (res_headers (res w))
                 (res_written (res w)) (res_json (res w)) true)
       (snd (broadcast
          (Expect.legacy_stream_response_event requestId parsedFinal fullResponse
             (Date_now_nth (clock_reads w) - startTime))
          (with_db (mkDb (set_rows Responses
                            (responses (tables (db w))
                             ++ [Expect.legacy_stream_response_row
                                   (JString (uuidv4_nth (ids_drawn w))) requestId
                                   (Date_now_nth (S (clock_reads w))) fullResponse
                                   (Date_now_nth (clock_reads w) - startTime)])
                            (tables (db w)))
                      (txn (db w)))
             (with_faults (tl (faults w))
                (with_clock_reads (S (S (clock_reads w)))
                   (with_ids_drawn (S (ids_drawn w)) w))))))).
Proof.
  intros Hpf Hfault. unfold Legacy.onEnd.
  rewrite mbind_Date_now.
  erewrite mbind_run.
  2: { eapply mtry_run.
       rewrite mbind_uuidv4, mbind_Date_now.
       apply run_insert_done; exact Hfault. }
  rewrite mbind_lift, Hpf, mbind_broadcast.
  reflexivity.
Qed.

(** X20: a streamed call in the older copy, with both inserts going
    through.  Every chunk sent to the caller is also published, as a
    [stream_chunk] event between the "request" and the "response" event
    and in the order of arrival; the response row holds the chunks put
    together and no token count, and the "response" event carries the
    usage of the structured final object as it is, not a count. *)
Theorem legacy_streamed_call_publishes_chunks :
  forall req w headers upstream,
    truthy (get_opt (req_body req) (u "stream")) = true ->
    buildAnthropicHeaders (req_headers req) = Ret headers ->
    fetch_upstream headers (JSON_stringify (req_body req)) = Some upstream ->
    hd NoFault (faults w) = NoFault ->
    hd NoFault (tl (faults w)) = NoFault ->
    exists parsedFinal,
      parseStreamingResponse (List.concat (up_chunks upstream)) = Ret parsedFinal
      /\ responses (tables (db (snd (Legacy.capture req w))))
         = responses (tables (db w))
           ++ [Expect.legacy_stream_response_row
                 (JString (uuidv4_nth (S (ids_drawn w))))
                 (JString (uuidv4_nth (ids_drawn w)))
                 (Date_now_nth (3 + clock_reads w))
                 (List.concat (up_chunks upstream))
                 (Date_now_nth (2 + clock_reads w) - Date_now_nth (1 + clock_reads w))]
      /\ published (snd (Legacy.capture req w))
         = published w
           ++ Expect.legacy_request_event req (uuidv4_nth (ids_drawn w))
                (Date_now_nth (clock_reads w))
              :: List.map
                   (Expect.stream_chunk_event (JString (uuidv4_nth (ids_drawn w))))
                   (up_chunks upstream)
           ++ [Expect.legacy_stream_response_event
                 (JString (uuidv4_nth (ids_drawn w))) parsedFinal
                 (List.concat (up_chunks upstream))
                 (Date_now_nth (2 + clock_reads w) - Date_now_nth (1 + clock_reads w))]
      /\ res_written (res (snd (Legacy.capture req w)))
         = res_written (res w) ++ up_chunks upstream.
Proof.
  intros req w headers upstream Hstream Hbuild Hfetch Hp1 Hp2.
  destruct (parseStreamingResponse_returns (List.concat (up_chunks upstream)))
    as [parsedFinal Hpf].
  exists parsedFinal. split; [exact Hpf|].
  destruct w as [[ts tx] plan sid cs pub con fwd ids clock r].
  cbn [faults] in Hp1, Hp2. state.
  unfold Legacy.capture, Legacy.postMessages, Legacy.run.
  rewrite mbind_assoc, mbind_uuidv4, mbind_assoc, mbind_Date_now, mbind_assoc.
  state.
  match goal with
  | |- context [mbind (mtry (mbind get_currentSessionId
                               (fun sid => run_insert ?sch ?stmt (@?args sid)))
                         (fun e => console_error ?m e)) ?k ?w0] =>
      rewrite (mbind_guarded_insert_done sch stmt args m k w0 Hp1)
  end.
  state.
  rewrite mbind_assoc, mbind_broadcast, mbind_assoc. state.
  rewrite Hstream.
  erewrite mbind_run.
  2: { eapply mtry_run. erewrite mbind_run;
         [|eapply handleStreamingRequest_run; eassumption].
       reflexivity. }
  state.
  rewrite mbind_mret. cbn [fst snd reader startTime].
  erewrite mbind_run; [|apply legacy_onData_run].
  state.
  erewrite legacy_onEnd_run; [|exact Hpf|exact Hp2].
  state.
  cbn. rewrite <- !app_assoc. repeat split.
Qed.

End LegacyCaller.

Lemma legacy_streamed_call_publishes_chunks_witness :
  truthy (get_opt (req_body Cases.streamed_call) (u "stream")) = true
  /\ hd NoFault (faults (Cases.started [])) = NoFault
  /\ hd NoFault (tl (faults (Cases.started []))) = NoFault
  /\ List.map (lookup (u "tokens_used"))
       (responses (tables (db (snd
          (Legacy.capture (printer := Cases.printer)
             (runtime := Samples.runtime (Some Cases.sse_answer))
             Cases.streamed_call (Cases.started []))))))
     = [JNull]
  /\ List.length
       (published (snd
          (Legacy.capture (printer := Cases.printer)
             (runtime := Samples.runtime (Some Cases.sse_answer))
             Cases.streamed_call (Cases.started []))))
     = 4.
Proof.
  destruct (legacy_streamed_call_publishes_chunks (printer := Cases.printer)
              (runtime := Samples.runtime (Some Cases.sse_answer))
              Cases.streamed_call (Cases.started []) _ Cases.sse_answer
              eq_refl eq_refl eq_refl eq_refl eq_refl)
    as (parsedFinal & _ & Hrows & Hpub & _).
  split; [reflexivity|]. split; [reflexivity|]. split; [reflexivity|].
  split; [rewrite Hrows; reflexivity|rewrite Hpub; reflexivity].
Defined.

(* ===================================================================== *)
(** * The error log of a captured call *)
(* ===================================================================== *)

#[local] Instance log_kept_framing : Framing log_kept.
Proof.
  split; unfold log_kept.
  - now split.
  - intros w1 w2 w3 [H12 H12'] [H23 H23']. split; congruence.
  - now split.
  - now split.
Qed.

Section LogPrimitives.
Context {runtime : Runtime}.

Lemma log_kept_broadcast message : respects log_kept (broadcast message).
Proof. intros w. now split. Qed.

Lemma log_kept_update_res f : respects log_kept (update_res f).
Proof. intros w. now split. Qed.

Lemma log_kept_fetch headers body : respects log_kept (fetch headers body).
Proof.
  intros w. unfold fetch. destruct (fetch_upstream headers body); now split.
Qed.

End LogPrimitives.

#[local] Hint Resolve log_kept_broadcast log_kept_update_res log_kept_fetch
  : frame.

Lemma quiet_nil n : quiet n [] = true.
Proof. destruct n; reflexivity. Qed.

Lemma quiet_stored n plan :
  hd NoFault plan = NoFault -> quiet (S n) plan = quiet n (tl plan).
Proof.
  destruct plan as [|[] plan]; cbn; try discriminate; intros _;
    [now rewrite quiet_nil|reflexivity].
Qed.

Lemma quiet_failed n plan :
  hd NoFault plan <> NoFault -> quiet (S n) plan = false.
Proof. destruct plan as [|[] plan]; cbn; try contradiction; reflexivity. Qed.

Section Log.
Context {parser : JsonParser} {printer : JsonPrinter} {runtime : Runtime}.

(** A guarded insert, as the log sees it. *)
Lemma mbind_guarded_insert_log {B} sch stmt (args : JsVal -> list JsVal)
  message (k : unit -> M B) w :
  exists w1,
    mbind (mtry (mbind get_currentSessionId
                   (fun sid => run_insert sch stmt (args sid)))
             (fun dbError => console_error message dbError)) k w
    = k tt w1
    /\ console w1 = console w ++ Expect.logged message (quiet 1 (faults w))
    /\ faults w1 = tl (faults w).
Proof.
  destruct w as [[ts tx] plan sid cs pub con fwd ids clock r].
  unfold mbind, mtry, get_currentSessionId, run_insert, statement,
    console_error.
  cbn [fst snd faults db currentSessionId hd tl with_faults txn tables].
  destruct plan as [|[] plan]; cbn; eexists;
    (split; [reflexivity|]); split; now rewrite ?app_nil_r.
Qed.

(** An insert, as the log sees it: it is stored, or the statement throws;
    the log is as it was. *)
Lemma mbind_run_insert_log {B} sch stmt args (k : unit -> M B) w :
  (hd NoFault (faults w) = NoFault ->
   exists w1,
     mbind (run_insert sch stmt args) k w = k tt w1
     /\ console w1 = console w /\ faults w1 = tl (faults w))
  /\ (hd NoFault (faults w) <> NoFault ->
      exists w1,
        mbind (run_insert sch stmt args) k w = (Throw SqliteError, w1)
        /\ console w1 = console w).
Proof.
  unfold mbind, run_insert, statement. split; intros H.
  - rewrite H. eexists. split; [reflexivity|]. now split.
  - destruct (hd NoFault (faults w)); [contradiction| |];
      eexists; (split; [reflexivity|]); reflexivity.
Qed.

(** A [try] whose handler only logs. *)
Lemma mtry_console_error_log (body : M unit) message w :
  console (snd (mtry body (fun e => console_error message e) w))
  = console (snd (body w))
    ++ match fst (body w) with
       | Ret _ => []
       | Throw e => [(message, e)]
       end.
Proof.
  unfold mtry. destruct (body w) as [[[]|e] w1]; cbn; now rewrite ?app_nil_r.
Qed.

(** The extraction of the tool calls, as the log sees it: it writes nothing
    to the log, and it throws when one of its inserts fails. *)
Lemma extractAndStoreToolCalls_log requestId responseData w :
  console (snd (extractAndStoreToolCalls requestId responseData w)) = console w
  /\ fst (extractAndStoreToolCalls requestId responseData w)
     = if quiet (List.length (Expect.tool_uses responseData)) (faults w)
       then Ret tt else Throw SqliteError.
Proof.
  unfold Expect.tool_uses.
  destruct (get_opt responseData (u "content")) as [ | | | | |blocks| ] eqn:Hc;
    try (unfold extractAndStoreToolCalls; rewrite Hc; split; reflexivity).
  rewrite (extractAndStoreToolCalls_content _ _ _ Hc). clear Hc.
  revert w. induction blocks as [|content rest IH]; intros w.
  - split; reflexivity.
  - cbn [filter]. destruct (Expect.is_tool_use content) eqn:Huse.
    + destruct (is_tool_use_object _ Huse) as [props ->].
      unfold Expect.is_tool_use in Huse.
      assert (Hstep :
        extractAndStoreToolCalls requestId
          (Expect.only_content (JObject props :: rest)) w
        = mbind (run insertToolCall
                   [requestId; get_opt (JObject props) (u "name");
                    JSON_stringify
                      (nullish (get_opt (JObject props) (u "input")) JNull);
                    JNumber (Date_now_nth (clock_reads w))])
            (fun _ =>
               mbind (broadcast
                        (Expect.tool_call_event requestId (JObject props)))
                 (fun _ =>
                    extractAndStoreToolCalls requestId
                      (Expect.only_content rest)))
            (with_clock_reads (S (clock_reads w)) w)).
      { unfold extractAndStoreToolCalls, Expect.only_content.
        change (get_opt (JObject [(u "content", JArray (JObject props :: rest))])
                  (u "content"))
          with (JArray (JObject props :: rest)).
        change (get_opt (JObject [(u "content", JArray rest)]) (u "content"))
          with (JArray rest).
        cbn [for_each]. rewrite Huse.
        rewrite mbind_assoc. unfold mbind at 1, lift at 1, get at 1.
        rewrite mbind_assoc. unfold mbind at 1, lift at 1, get at 1.
        rewrite mbind_assoc, mbind_Date_now, !mbind_assoc. reflexivity. }
      rewrite Hstep. clear Hstep. cbn [List.length].
      destruct (hd NoFault (faults w)) eqn:Hfault.
      * destruct (proj1 (mbind_run_insert_log schema insertToolCall
                           [requestId; get_opt (JObject props) (u "name");
                            JSON_stringify
                              (nullish (get_opt (JObject props) (u "input")) JNull);
                            JNumber (Date_now_nth (clock_reads w))]
                           (fun _ =>
                              mbind (broadcast
                                       (Expect.tool_call_event requestId
                                          (JObject props)))
                                (fun _ =>
                                   extractAndStoreToolCalls requestId
                                     (Expect.only_content rest)))
                           (with_clock_reads (S (clock_reads w)) w)) Hfault)
          as (w1 & Heq & Hcon & Hf).
        unfold run. rewrite Heq, mbind_broadcast.
        destruct (IH (snd (broadcast
                             (Expect.tool_call_event requestId (JObject props))
                             w1)))
          as [IHcon IHfst].
        rewrite IHcon, IHfst. cbn [broadcast snd console faults with_hub].
        rewrite Hcon, Hf. cbn [console faults with_clock_reads].
        rewrite (quiet_stored _ _ Hfault). split; reflexivity.
      * destruct (proj2 (mbind_run_insert_log schema insertToolCall
                           [requestId; get_opt (JObject props) (u "name");
                            JSON_stringify
                              (nullish (get_opt (JObject props) (u "input")) JNull);
                            JNumber (Date_now_nth (clock_reads w))]
                           (fun _ =>
                              mbind (broadcast
                                       (Expect.tool_call_event requestId
                                          (JObject props)))
                                (fun _ =>
                                   extractAndStoreToolCalls requestId
                                     (Expect.only_content rest)))
                           (with_clock_reads (S (clock_reads w)) w))
                    ltac:(cbn [faults with_clock_reads]; rewrite Hfault;
                          discriminate))
          as (w1 & Heq & Hcon).
        unfold run. rewrite Heq. cbn [fst snd]. rewrite Hcon.
        rewrite quiet_failed by (rewrite Hfault; discriminate).
        split; reflexivity.
      * destruct (proj2 (mbind_run_insert_log schema insertToolCall
                           [requestId; get_opt (JObject props) (u "name");
                            JSON_stringify
                              (nullish (get_opt (JObject props) (u "input")) JNull);
                            JNumber (Date_now_nth (clock_reads w))]
                           (fun _ =>
                              mbind (broadcast
                                       (Expect.tool_call_event requestId
                                          (JObject props)))
                                (fun _ =>
                                   extractAndStoreToolCalls requestId
                                     (Expect.only_content rest)))
                           (with_clock_reads (S (clock_reads w)) w))
                    ltac:(cbn [faults with_clock_reads]; rewrite Hfault;
                          discriminate))
          as (w1 & Heq & Hcon).
        unfold run. rewrite Heq. cbn [fst snd]. rewrite Hcon.
        rewrite quiet_failed by (rewrite Hfault; discriminate).
        split; reflexivity.
    + rewrite extraction_skip by exact Huse. apply IH.
Qed.

End Log.

Section CaptureLog.
Context {parser : JsonParser} {printer : JsonPrinter} {runtime : Runtime}.

Lemma log_kept_handleStreamingRequest req requestId :
  respects log_kept (handleStreamingRequest req requestId).
Proof. unfold handleStreamingRequest, res_setHeader. frame. Qed.

Lemma log_kept_onData chunks fullResponse :
  respects log_kept (onData chunks fullResponse).
Proof.
  revert fullResponse. induction chunks as [|c rest IH]; intros full; simpl.
  - frame.
  - unfold res_write. frame.
Qed.

(** The opening of a stream, as the log sees it. *)
Lemma handleStreamingRequest_log req requestId w :
  console (snd (handleStreamingRequest req requestId w)) = console w
  /\ faults (snd (handleStreamingRequest req requestId w)) = faults w
  /\ match Expect.upstream_stream req with
     | Ret upstream =>
         exists t,
           fst (handleStreamingRequest req requestId w)
           = Ret (mkOpenStream t (up_chunks upstream))
     | Throw e => fst (handleStreamingRequest req requestId w) = Throw e
     end.
Proof.
  destruct (log_kept_handleStreamingRequest req requestId w) as [Hcon Hf].
  split; [exact Hcon|]. split; [exact Hf|].
  destruct (handleStreamingRequest_caller req requestId w) as (_ & _ & _ & Hout).
  unfold Expect.upstream_stream.
  destruct (buildAnthropicHeaders (req_headers req)) as [headers|e];
    cbn [rbind]; [|exact Hout].
  destruct (fetch_upstream headers (JSON_stringify (req_body req)));
    exact Hout.
Qed.

(** The end of a stream, as the log sees it. *)
Lemma onEnd_log requestId startTime fullResponse w :
  console (snd (onEnd requestId startTime fullResponse w))
  = console w
    ++ Expect.logged (u "Database error storing streaming response:")
         (quiet 1 (faults w)).
Proof.
  destruct (parseStreamingResponse_returns fullResponse) as [pf Hpf].
  destruct (extractUsageFromSSE_returns fullResponse) as [us Hus].
  unfold onEnd. rewrite mbind_Date_now.
  match goal with
  | |- context [mbind (mtry ?b ?h) ?k ?w0] =>
      assert (Hbody :
        (hd NoFault (faults w) = NoFault ->
         exists w1, b w0 = (Ret tt, w1) /\ console w1 = console w)
        /\ (hd NoFault (faults w) <> NoFault ->
            exists w1, b w0 = (Throw SqliteError, w1) /\ console w1 = console w))
  end.
  { rewrite mbind_lift, Hus, mbind_lift, Hpf, mbind_lift, calculateTokens_spec.
    rewrite mbind_uuidv4, mbind_Date_now.
    match goal with
    | |- context [mbind (run ?stmt ?args) ?k ?w0] =>
        destruct (mbind_run_insert_log schema stmt args k w0) as [Hdone Hfail]
    end.
    cbn [faults console with_clock_reads with_ids_drawn] in Hdone, Hfail.
    split; intros H.
    - destruct (Hdone H) as (w1 & Heq & Hcon & _). unfold run. rewrite Heq.
      eexists. split; [reflexivity|]. cbn. exact Hcon.
    - destruct (Hfail H) as (w1 & Heq & Hcon). unfold run. rewrite Heq.
      eexists. split; [reflexivity|]. exact Hcon. }
  destruct Hbody as [Hdone Hfail].
  destruct (hd NoFault (faults w)) eqn:Hfault.
  - destruct (Hdone eq_refl) as (w1 & Heq & Hcon).
    rewrite (quiet_stored 0 _ Hfault).
    unfold mbind at 1, mtry at 1. rewrite Heq. cbn.
    rewrite Hcon. now rewrite app_nil_r.
  - destruct (Hfail ltac:(discriminate)) as (w1 & Heq & Hcon).
    rewrite quiet_failed by (rewrite Hfault; discriminate).
    unfold mbind at 1, mtry at 1. rewrite Heq.
    unfold mbind at 1, console_error at 1.
    rewrite mbind_lift, Hpf, mbind_lift, Hus, mbind_lift, calculateTokens_spec.
    cbn. rewrite Hcon. reflexivity.
  - destruct (Hfail ltac:(discriminate)) as (w1 & Heq & Hcon).
    rewrite quiet_failed by (rewrite Hfault; discriminate).
    unfold mbind at 1, mtry at 1. rewrite Heq.
    unfold mbind at 1, console_error at 1.
    rewrite mbind_lift, Hpf, mbind_lift, Hus, mbind_lift, calculateTokens_spec.
    cbn. rewrite Hcon. reflexivity.
Qed.

(** The buffered path, as the log sees it. *)
Lemma handleRegularRequest_log req requestId w :
  match Expect.upstream_answer req with
  | Ret responseData =>
      fst (handleRegularRequest req requestId w) = Ret tt
      /\ console (snd (handleRegularRequest req requestId w))
         = console w
           ++ Expect.logged (u "Database error storing response:")
                (quiet (1 + List.length (Expect.tool_uses responseData))
                   (faults w))
  | Throw e =>
      fst (handleRegularRequest req requestId w) = Throw e
      /\ console (snd (handleRegularRequest req requestId w)) = console w
  end.
Proof.
  unfold Expect.upstream_answer, handleRegularRequest.
  rewrite mbind_Date_now, mbind_lift.
  destruct (buildAnthropicHeaders (req_headers req)) as [headers|e];
    cbn [rbind]; [|split; reflexivity].
  rewrite mbind_fetch. cbv zeta.
  destruct (fetch_upstream headers (JSON_stringify (req_body req)))
    as [upstream|]; [|split; reflexivity].
  rewrite mbind_lift.
  destruct (response_json upstream) as [data|e]; [|split; reflexivity].
  rewrite mbind_Date_now.
  rewrite mbind_returns by apply mtry_logged_returns.
  rewrite mbind_lift, calculateTokens_spec, mbind_broadcast.
  match goal with
  | |- context [mtry ?b ?h ?w0] =>
      pose proof (mtry_console_error_log b
                    (u "Database error storing response:") w0) as Hlog;
      assert (Hbody :
        console (snd (b w0)) = console w
        /\ fst (b w0)
           = if quiet (1 + List.length (Expect.tool_uses data)) (faults w)
             then Ret tt else Throw SqliteError);
      [|set (wb := snd (mtry b h w0)) in *]
  end.
  { rewrite mbind_uuidv4, mbind_Date_now, mbind_lift. cbv beta iota.
    match goal with
    | |- context [mbind (run ?stmt ?args) ?k ?w0] =>
        destruct (mbind_run_insert_log schema stmt args k w0) as [Hdone Hfail]
    end.
    cbn [faults console with_clock_reads with_ids_drawn with_forwarded]
      in Hdone, Hfail.
    destruct (hd NoFault (faults w)) eqn:Hfault.
    - destruct (Hdone eq_refl) as (w1 & Heq & Hcon & Hf).
      unfold run. rewrite Heq.
      destruct (extractAndStoreToolCalls_log requestId data w1) as [Econ Efst].
      rewrite Econ, Efst, Hcon, Hf.
      change (1 + ?n) with (S n). rewrite (quiet_stored _ _ Hfault).
      split; reflexivity.
    - destruct (Hfail ltac:(discriminate)) as (w1 & Heq & Hcon).
      unfold run. rewrite Heq. cbn [fst snd]. rewrite Hcon.
      change (1 + ?n) with (S n).
      rewrite quiet_failed by (rewrite Hfault; discriminate).
      split; reflexivity.
    - destruct (Hfail ltac:(discriminate)) as (w1 & Heq & Hcon).
      unfold run. rewrite Heq. cbn [fst snd]. rewrite Hcon.
      change (1 + ?n) with (S n).
      rewrite quiet_failed by (rewrite Hfault; discriminate).
      split; reflexivity. }
  destruct Hbody as [Hcon Hfst]. rewrite Hcon, Hfst in Hlog.
  clearbody wb. split; [reflexivity|].
  match goal with
  | |- console ?wf = _ => change (console wf) with (console wb)
  end.
  rewrite Hlog. unfold Expect.logged.
  destruct (quiet (1 + List.length (Expect.tool_uses data)) (faults w));
    reflexivity.
Qed.

(** The log after one captured call. *)
Lemma capture_console req w :
  console (snd (capture req w))
  = console w ++ Expect.capture_log req (faults w).
Proof.
  destruct (capture req w) as [r wf] eqn:Hrun. cbn [snd].
  unfold capture, postMessages, run in Hrun.
  rewrite mbind_assoc, mbind_uuidv4 in Hrun.
  rewrite mbind_assoc, mbind_Date_now in Hrun.
  rewrite mbind_assoc in Hrun.
  match type of Hrun with
  | mbind (mtry (mbind get_currentSessionId
                   (fun sid => run_insert ?sch ?stmt (@?args sid)))
             (fun e => console_error ?m e)) ?k ?w0 = _ =>
      destruct (mbind_guarded_insert_log sch stmt args m k w0)
        as (w1 & Heq & Hcon1 & Hf1);
      rewrite Heq in Hrun; clear Heq
  end.
  cbn [console faults with_clock_reads with_ids_drawn] in Hcon1, Hf1.
  rewrite mbind_assoc, mbind_broadcast in Hrun.
  rewrite mbind_assoc in Hrun.
  set (w2 := snd (broadcast _ w1)) in Hrun.
  assert (Hcon2 : console w2
                  = console w
                    ++ Expect.logged (u "Database error storing request:")
                         (quiet 1 (faults w)))
    by (subst w2; cbn; exact Hcon1).
  assert (Hf2 : faults w2 = tl (faults w)) by (subst w2; cbn; exact Hf1).
  clearbody w2. clear w1 Hcon1 Hf1.
  unfold Expect.capture_log.
  unfold mbind at 1, mtry in Hrun.
  destruct (truthy (get_opt (req_body req) (u "stream"))).
  - (* the streaming path *)
    unfold mbind at 1 in Hrun.
    pose proof (handleStreamingRequest_log req
                  (JString (uuidv4_nth (ids_drawn w))) w2)
      as (Hcon3 & Hf3 & Hout).
    destruct (handleStreamingRequest req (JString (uuidv4_nth (ids_drawn w))) w2)
      as [[stream|e] w3]; cbn [fst snd] in *.
    + destruct (Expect.upstream_stream req) as [upstream|e];
        [|discriminate Hout].
      destruct Hout as [t Hout]. injection Hout as ->. cbn in Hrun.
      unfold mbind in Hrun.
      destruct (log_kept_onData (up_chunks upstream) [] w3) as [Hcon4 Hf4].
      pose proof (onData_caller (up_chunks upstream) [] w3) as [Hfst4 _].
      destruct (onData (up_chunks upstream) [] w3) as [full w4].
      cbn [fst snd] in *. subst full.
      pose proof (onEnd_log (JString (uuidv4_nth (ids_drawn w))) t
                    ([] ++ List.concat (up_chunks upstream)) w4)
        as Hcon5.
      rewrite Hrun in Hcon5. cbn [snd] in Hcon5.
      rewrite Hcon5, Hcon4, Hcon3, Hcon2, Hf4, Hf3, Hf2, <- app_assoc.
      reflexivity.
    + destruct (Expect.upstream_stream req) as [upstream|e'];
        [destruct Hout; discriminate|].
      injection Hout as ->. cbn in Hrun. injection Hrun as <- <-. cbn.
      rewrite Hcon3, Hcon2, <- app_assoc. reflexivity.
  - (* the buffered path *)
    unfold mbind at 1 in Hrun.
    pose proof (handleRegularRequest_log req
                  (JString (uuidv4_nth (ids_drawn w))) w2) as Hout.
    destruct (handleRegularRequest req (JString (uuidv4_nth (ids_drawn w))) w2)
      as [[[]|e] w3]; cbn [fst snd] in *.
    + cbn in Hrun. injection Hrun as <- <-.
      destruct (Expect.upstream_answer req) as [data|e];
        [|destruct Hout; discriminate].
      destruct Hout as [_ Hcon3].
      rewrite Hcon3, Hcon2, Hf2, <- app_assoc. reflexivity.
    + cbn in Hrun. injection Hrun as <- <-. cbn.
      destruct (Expect.upstream_answer req) as [data|e'];
        [destruct Hout; discriminate|].
      destruct Hout as [Hr Hcon3]. injection Hr as ->.
      rewrite Hcon3, Hcon2, <- app_assoc. reflexivity.
Qed.

End CaptureLog.

(** The log on samples: a buffered call whose request and response inserts
    fail; a buffered call whose second tool call cannot be stored, after
    the response and the first tool call were; a streamed call whose
    response cannot be stored at the end of the stream. *)
Lemma capture_logs_each_failed_write :
  console (snd (capture (printer := Cases.printer)
                  (runtime := Samples.runtime (Some Samples.usage_answer))
                  Samples.buffered_call (Cases.started [StmtError; TxnAbort])))
  = [(u "Database error storing request:", SqliteError);
     (u "Database error storing response:", SqliteError)]
  /\ response_json Cases.tool_answer = Ret Cases.tool_answer_body
  /\ console (snd (capture (printer := Cases.printer)
                     (runtime := Samples.runtime (Some Cases.tool_answer))
                     Samples.buffered_call
                     (Cases.started [NoFault; NoFault; NoFault; StmtError])))
     = [(u "Database error storing response:", SqliteError)]
  /\ List.map (lookup (u "tool_name"))
       (tool_calls (tables (db (snd
          (capture (printer := Cases.printer)
             (runtime := Samples.runtime (Some Cases.tool_answer))
             Samples.buffered_call
             (Cases.started [NoFault; NoFault; NoFault; StmtError]))))))
     = [str "Read"]
  /\ console (snd (capture (printer := Cases.printer)
                     (runtime := Samples.runtime (Some Cases.sse_answer))
                     Cases.streamed_call (Cases.started [NoFault; StmtError])))
     = [(u "Database error storing streaming response:", SqliteError)].
Proof. repeat split; vm_compute; reflexivity. Qed.

(** C5: whatever happens to the statements against the store, one captured
    call does not throw, the caller is sent what it is sent when every
    statement succeeds, the same calls go upstream, and the "request" event
    is published.  Every write that fails is in the error log, and nothing
    else of the store is: a failed request insert, then, for a buffered call
    that the upstream answered, a failed insert of the response or of one of
    its tool calls, and for a streamed call a failed insert of the response
    at the end of the stream. *)
Theorem capture_survives_store_failures
  {parser : JsonParser} {printer : JsonPrinter} {runtime : Runtime} :
  forall req w plan,
    fst (capture req (with_faults plan w)) = Ret tt
    /\ res (snd (capture req (with_faults plan w)))
       = res (snd (capture req (with_faults [] w)))
    /\ forwarded (snd (capture req (with_faults plan w)))
       = forwarded (snd (capture req (with_faults [] w)))
    /\ (exists later,
          published (snd (capture req (with_faults plan w)))
          = published w
            ++ Spec.request_event req (uuidv4_nth (ids_drawn w))
                 (Date_now_nth (clock_reads w)) :: later)
    /\ console (snd (capture req (with_faults plan w)))
       = console w ++ Expect.capture_log req plan.
Proof.
  intros req w plan.
  destruct (capture_caller req (with_faults plan w))
    as (Hfst & Hres & Hfwd & later & Hpub).
  destruct (capture_caller req (with_faults [] w))
    as (_ & Hres0 & Hfwd0 & _).
  split; [exact Hfst|]. split; [now rewrite Hres, Hres0|].
  split; [now rewrite Hfwd, Hfwd0|]. split; [exists later; exact Hpub|].
  apply (capture_console req (with_faults plan w)).
Qed.
